(** * The journal layer of Blackrock storage

    A shallow embedding of [src/blackrock/storage/journal-layer.c++]:
    the journal-layer handles ([Object], [RecoverableTemporary]), the
    transaction-local wrappers ([LockedObject], [LockedTemporary]),
    [Transaction::commit], and the recovery path ([Recovery],
    [commitSavedTransaction], [replayEntry]).

    Conventions.
    - Fixed-width unsigned integers are [Z] with the wrap-around written
      out ([wrap32], [wrap64]).
    - Heap-allocated, reference-counted handles live in a store indexed by
      [Ref]; a [kj::Own] member that the code moves out of is an
      [option Ref] that becomes [None].
    - Methods are written in state-passing style in the monad [M]; an
      outcome is a normal return, a thrown KJ exception, or the end of the
      process. *)

From Stdlib Require Import ZArith List Bool Lia.
From stdpp Require Import base option list sorting gmap.

Local Open Scope Z_scope.

(** ** Machine integers *)

Definition wrap32 (z : Z) : Z := z mod 2 ^ 32.
Definition wrap64 (z : Z) : Z := z mod 2 ^ 64.

(** ** Identifiers and opaque payloads *)

Definition ObjectId := Z.
Definition Xattr := Z.
Definition TemporaryXattr := Z.
Definition Content := list Z.

(** Modelled from the spec: [RecoveryType] and [RecoveryId] are declared in
    a header that is not part of the source tree.  A recovery type is
    represented by its underlying unsigned value (the one
    [Recovery::recoverTemporaries] obtains with [static_cast<uint>]); the
    reserved value [STAGING] is a parameter of the definitions that need
    it.  A [RecoveryId] is the pair of a type and a 64-bit number. *)
Definition RecoveryType := N.
Definition RecoveryId := (RecoveryType * Z)%type.

(** Address of a journal-layer handle in the store. *)
Definition Ref := positive.

(** ** Outcomes of a call *)

Inductive Exception :=
| Conflict            (* KJ_EXCEPTION(DISCONNECTED, "transaction aborted due to conflict") *)
| RequirementFailed   (* KJ_REQUIRE / KJ_ASSERT / KJ_ASSERT_NONNULL *)
| Unimplemented.      (* KJ_UNIMPLEMENTED *)

Inductive Fault :=
| ProcessAbort        (* abort() *)
| NullDereference.    (* use of a null or dangling kj::Own *)

Inductive Outcome (S A : Type) :=
| Returned (a : A) (s : S)
| Thrown (e : Exception) (s : S)
| Crashed (f : Fault).
Arguments Returned {S A} a s.
Arguments Thrown {S A} e s.
Arguments Crashed {S A} f.

Definition M (S A : Type) : Type := S -> Outcome S A.

Definition ret {S A} (a : A) : M S A := fun s => Returned a s.

Definition bind {S A B} (m : M S A) (k : A -> M S B) : M S B :=
  fun s =>
    match m s with
    | Returned a s' => k a s'
    | Thrown e s' => Thrown e s'
    | Crashed f => Crashed f
    end.

Definition throw {S A} (e : Exception) : M S A := fun s => Thrown e s.
Definition crash {S A} (f : Fault) : M S A := fun _ => Crashed f.
Definition gets {S A} (f : S -> A) : M S A := fun s => Returned (f s) s.
Definition modify {S} (f : S -> S) : M S unit := fun s => Returned tt (f s).

(** [KJ_REQUIRE(cond)] *)
Definition require {S} (cond : bool) : M S unit :=
  if cond then ret tt else throw RequirementFailed.

(** The body of [kj::runCatchingExceptions] followed by
    [KJ_DEFER(abort())]: an exception that escapes ends the process. *)
Definition abortOnException {S A} (m : M S A) : M S A :=
  fun s =>
    match m s with
    | Thrown _ _ => Crashed ProcessAbort
    | r => r
    end.

Declare Scope journal_scope.
Delimit Scope journal_scope with journal.
Notation "'do' x <- c ; k" := (bind c (fun x => k))
  (at level 10, x pattern, c at level 100, k at level 200) : journal_scope.
Notation "'do_' c ; k" := (bind c (fun _ => k))
  (at level 10, c at level 100, k at level 200) : journal_scope.
Local Open Scope journal_scope.

(** ** The blob layer *)

Module BlobLayer.

(** Modelled from the spec: the blob layer is an external collaborator
    (spec 6.2) whose code is not part of the source tree.  A stored
    object is its xattr and content; a temporary is a content with an
    optional recovery id and xattr. *)
Record Object := mkObject { xattr : Xattr; content : Content }.

Record Temporary := mkTemporary {
  recoveryId : option RecoveryId;
  temporaryXattr : TemporaryXattr;
  temporaryContent : Content
}.

(** The running blob layer: the stored objects by id. *)
Record t := mk { objects : gmap ObjectId Object }.

(** [BlobLayer::createObject(id, xattr, content)] *)
Definition createObject (id : ObjectId) (x : Xattr) (c : Temporary) (b : t) : t :=
  mk (<[id := mkObject x (temporaryContent c)]> (objects b)).

(** [BlobLayer::Object::overwrite(xattr, content)] on the object [id] *)
Definition overwrite (id : ObjectId) (x : Xattr) (c : Temporary) (b : t) : t :=
  mk (<[id := mkObject x (temporaryContent c)]> (objects b)).

(** [BlobLayer::Object::setXattr(xattr)] on the object [id] *)
Definition setXattr (id : ObjectId) (x : Xattr) (b : t) : t :=
  mk (alter (fun o => mkObject x (content o)) id (objects b)).

(** [BlobLayer::Object::remove()] on the object [id] *)
Definition remove (id : ObjectId) (b : t) : t :=
  mk (delete id (objects b)).

(** [BlobLayer::Temporary::setRecoveryId(id)] *)
Definition setRecoveryId (id : RecoveryId) (c : Temporary) : Temporary :=
  mkTemporary (Some id) (temporaryXattr c) (temporaryContent c).

(** [BlobLayer::Temporary::setRecoveryId(id, xattr)] *)
Definition setRecoveryIdXattr (id : RecoveryId) (x : TemporaryXattr) (c : Temporary)
  : Temporary :=
  mkTemporary (Some id) x (temporaryContent c).

(** [BlobLayer::Temporary::overwrite(xattr, replacement)] *)
Definition overwriteTemporary (x : TemporaryXattr) (replacement : Temporary)
    (c : Temporary) : Temporary :=
  mkTemporary (recoveryId c) x (temporaryContent replacement).

(** [BlobLayer::Temporary::setXattr(xattr)] *)
Definition setTemporaryXattr (x : TemporaryXattr) (c : Temporary) : Temporary :=
  mkTemporary (recoveryId c) x (temporaryContent c).

(** [BlobLayer::RecoveredTemporary]: a temporary found on disk at start-up. *)
Record RecoveredTemporary := mkRecovered {
  oldId : RecoveryId;
  recoveredXattr : TemporaryXattr;
  recoveredContent : Content
}.

(** [BlobLayer::Recovery]: the objects on disk and the temporaries left
    over from the previous run. *)
Record Recovery := mkRecovery {
  recoveredObjects : gmap ObjectId Object;
  leftoverTemporaries : list RecoveredTemporary
}.

(** [BlobLayer::Recovery::getObject(id)] *)
Definition getObject (id : ObjectId) (r : Recovery) : option Object :=
  recoveredObjects r !! id.

(** [BlobLayer::Recovery::recoverTemporaries(type)] *)
Definition recoverTemporaries (type : RecoveryType) (r : Recovery)
  : list RecoveredTemporary :=
  filter (fun t => fst (oldId t) = type) (leftoverTemporaries r).

(** [BlobLayer::RecoveredTemporary::keepAs(ObjectId, Xattr)]: the
    temporary becomes the object [id]. *)
Definition keepAs (id : ObjectId) (x : Xattr) (s : RecoveredTemporary)
    (r : Recovery) : Recovery :=
  mkRecovery (<[id := mkObject x (recoveredContent s)]> (recoveredObjects r))
             (leftoverTemporaries r).

(** [object->setXattr(xattr)] on an object obtained from
    [Recovery::getObject]. *)
Definition recoverySetXattr (id : ObjectId) (x : Xattr) (r : Recovery) : Recovery :=
  mkRecovery (alter (fun o => mkObject x (content o)) id (recoveredObjects r))
             (leftoverTemporaries r).

(** [object->remove()] on an object obtained from [Recovery::getObject]. *)
Definition recoveryRemove (id : ObjectId) (r : Recovery) : Recovery :=
  mkRecovery (delete id (recoveredObjects r)) (leftoverTemporaries r).

(** [BlobLayer::Recovery::finish()] *)
Definition finish (r : Recovery) : t := mk (recoveredObjects r).

End BlobLayer.

(** ** Journal entries *)

Module JournalEntry.

(** Modelled from the spec: the [JournalEntry] struct and its [Type]
    enum are declared in the missing header; the fields are those the
    source reads and writes ([type], [txSize], [stagingId],
    [object.id], [object.xattr], [temporary.id], [temporary.xattr]).
    The two views of the target are kept as two slots. *)
Inductive Type_ :=
| CREATE_OBJECT
| UPDATE_OBJECT
| UPDATE_XATTR
| DELETE_OBJECT
| CREATE_TEMPORARY
| UPDATE_TEMPORARY
| UPDATE_TEMPORARY_XATTR
| DELETE_TEMPORARY.

Record ObjectTarget := mkObjectTarget { id : ObjectId; xattr : Xattr }.
Record TemporaryTarget := mkTemporaryTarget { tid : RecoveryId; txattr : TemporaryXattr }.

Record t := mk {
  type : Type_;
  txSize : Z;          (* uint32_t *)
  stagingId : Z;       (* uint64_t *)
  object : ObjectTarget;
  temporary : TemporaryTarget
}.

(** What [memset(&entry, 0, sizeof(entry))] leaves in the slots. *)
Definition zeroObject : ObjectTarget := mkObjectTarget 0 0.
Definition zeroTemporary : TemporaryTarget := mkTemporaryTarget (0%N, 0) 0.

(** An all-zero record.  The numeric value of the type tag is declared
    in the missing header, so the tag is left unconstrained. *)
Definition zeroed (e : t) : Prop :=
  txSize e = 0 /\ stagingId e = 0 /\ object e = zeroObject /\ temporary e = zeroTemporary.

End JournalEntry.

(** ** Journal-layer handles *)

Module Object.

(** Modelled from the spec: the class is declared in the missing header;
    the members are those of spec section 3 ([generation] is a 64-bit
    counter, [locked] starts false). [inner] names the blob-layer object
    the handle owns, if any. *)
Record t := mk {
  id : ObjectId;
  inner : option ObjectId;
  cachedXattr : Xattr;
  cachedContent : option Content;
  generation : Z;
  locked : bool
}.

(** [Object::update(newXattr, newContent, changeCount)] *)
Definition update (newXattr : Xattr) (newContent : option Content) (changeCount : Z)
    (o : t) : t :=
  {| id := id o;
     inner := inner o;
     cachedXattr := newXattr;
     cachedContent := match newContent with
                      | Some c => Some c
                      | None => cachedContent o
                      end;
     generation := wrap64 (generation o + changeCount);
     locked := locked o |}.

Definition setLocked (b : bool) (o : t) : t :=
  {| id := id o; inner := inner o; cachedXattr := cachedXattr o;
     cachedContent := cachedContent o; generation := generation o; locked := b |}.

Definition setInner (i : option ObjectId) (o : t) : t :=
  {| id := id o; inner := i; cachedXattr := cachedXattr o;
     cachedContent := cachedContent o; generation := generation o;
     locked := locked o |}.

Definition getXattr (o : t) : Xattr := cachedXattr o.
Definition getGeneration (o : t) : Z := generation o.

End Object.

Module RecoverableTemporary.

(** Modelled from the spec: same shape as [Object.t], addressed by a
    [RecoveryId]; [inner] is the blob-layer temporary the handle owns. *)
Record t := mk {
  id : RecoveryId;
  inner : option BlobLayer.Temporary;
  cachedXattr : TemporaryXattr;
  cachedContent : option Content;
  generation : Z;
  locked : bool
}.

(** [RecoverableTemporary::update(newXattr, newContent, changeCount)] *)
Definition update (newXattr : TemporaryXattr) (newContent : option Content)
    (changeCount : Z) (o : t) : t :=
  {| id := id o;
     inner := inner o;
     cachedXattr := newXattr;
     cachedContent := match newContent with
                      | Some c => Some c
                      | None => cachedContent o
                      end;
     generation := wrap64 (generation o + changeCount);
     locked := locked o |}.

Definition setLocked (b : bool) (o : t) : t :=
  {| id := id o; inner := inner o; cachedXattr := cachedXattr o;
     cachedContent := cachedContent o; generation := generation o; locked := b |}.

Definition setInner (i : option BlobLayer.Temporary) (o : t) : t :=
  {| id := id o; inner := i; cachedXattr := cachedXattr o;
     cachedContent := cachedContent o; generation := generation o;
     locked := locked o |}.

Definition getXattr (o : t) : TemporaryXattr := cachedXattr o.
Definition getGeneration (o : t) : Z := generation o.

End RecoverableTemporary.

(** ** The journal layer and its store of handles *)

(** The closure returned by [LockedObject::commit()] or
    [LockedTemporary::commit()], one constructor per lambda of the source.
    [object] is the handle reference the lambda captured by move. *)
Inductive ApplyCallback :=
| NothingToDo
| ApplyCreateObject (object : Ref) (content : BlobLayer.Temporary) (xattr : Xattr)
| ApplyRemoveObject (object : Ref)
| ApplyOverwriteObject (object : Ref) (content : BlobLayer.Temporary) (xattr : Xattr)
| ApplySetObjectXattr (object : Ref) (xattr : Xattr)
| ApplyCreateTemporary (object : Ref) (content : BlobLayer.Temporary)
                       (xattr : TemporaryXattr)
| ApplyReleaseTemporary (object : Ref)
| ApplyOverwriteTemporary (object : Ref) (content : BlobLayer.Temporary)
                          (xattr : TemporaryXattr)
| ApplySetTemporaryXattr (object : Ref) (xattr : TemporaryXattr).

Module JournalLayer.

(** One link of the [writeQueue] promise chain: the callbacks of a
    commit and the journal region it wrote. *)
Record PendingApply := mkPending {
  executeCallbacks : list ApplyCallback;
  oldPosition : Z;
  newPosition : Z
}.

(** The members of [JournalLayer] together with the store of the live
    [JournalLayer::Object] and [JournalLayer::RecoverableTemporary]
    instances.  [journalFile] is the list of [write(offset, entries)]
    calls made on the journal content, oldest first. *)
Record t := mk {
  objectStore : gmap Ref Object.t;
  temporaryStore : gmap Ref RecoverableTemporary.t;
  openObjects : gmap ObjectId Ref;
  blobLayer : option BlobLayer.t;
  journalFile : option (list (Z * list JournalEntry.t));
  journalPosition : Z;
  stagingIdCounter : Z;
  writeQueue : list PendingApply
}.

Definition setObjectStore (v : gmap Ref Object.t) (j : t) : t :=
  mk v (temporaryStore j) (openObjects j) (blobLayer j) (journalFile j)
     (journalPosition j) (stagingIdCounter j) (writeQueue j).
Definition setTemporaryStore (v : gmap Ref RecoverableTemporary.t) (j : t) : t :=
  mk (objectStore j) v (openObjects j) (blobLayer j) (journalFile j)
     (journalPosition j) (stagingIdCounter j) (writeQueue j).
Definition setOpenObjects (v : gmap ObjectId Ref) (j : t) : t :=
  mk (objectStore j) (temporaryStore j) v (blobLayer j) (journalFile j)
     (journalPosition j) (stagingIdCounter j) (writeQueue j).
Definition setBlobLayer (v : option BlobLayer.t) (j : t) : t :=
  mk (objectStore j) (temporaryStore j) (openObjects j) v (journalFile j)
     (journalPosition j) (stagingIdCounter j) (writeQueue j).
Definition setJournalFile (v : option (list (Z * list JournalEntry.t))) (j : t) : t :=
  mk (objectStore j) (temporaryStore j) (openObjects j) (blobLayer j) v
     (journalPosition j) (stagingIdCounter j) (writeQueue j).
Definition setJournalPosition (v : Z) (j : t) : t :=
  mk (objectStore j) (temporaryStore j) (openObjects j) (blobLayer j) (journalFile j)
     v (stagingIdCounter j) (writeQueue j).
Definition setStagingIdCounter (v : Z) (j : t) : t :=
  mk (objectStore j) (temporaryStore j) (openObjects j) (blobLayer j) (journalFile j)
     (journalPosition j) v (writeQueue j).
Definition setWriteQueue (v : list PendingApply) (j : t) : t :=
  mk (objectStore j) (temporaryStore j) (openObjects j) (blobLayer j) (journalFile j)
     (journalPosition j) (stagingIdCounter j) v.

(** Dereference of a [kj::Own<JournalLayer::Object>]. *)
Definition derefObject (r : option Ref) : M t (Ref * Object.t) :=
  fun j =>
    match r with
    | None => Crashed NullDereference
    | Some a =>
        match objectStore j !! a with
        | Some o => Returned (a, o) j
        | None => Crashed NullDereference
        end
    end.

Definition derefTemporary (r : option Ref) : M t (Ref * RecoverableTemporary.t) :=
  fun j =>
    match r with
    | None => Crashed NullDereference
    | Some a =>
        match temporaryStore j !! a with
        | Some o => Returned (a, o) j
        | None => Crashed NullDereference
        end
    end.

Definition writeObject (a : Ref) (o : Object.t) : M t unit :=
  modify (fun j => setObjectStore (<[a := o]> (objectStore j)) j).

Definition writeTemporary (a : Ref) (o : RecoverableTemporary.t) : M t unit :=
  modify (fun j => setTemporaryStore (<[a := o]> (temporaryStore j)) j).

(** Dereference of [journal.blobLayer]. *)
Definition derefBlobLayer : M t BlobLayer.t :=
  fun j =>
    match blobLayer j with
    | Some b => Returned b j
    | None => Crashed NullDereference
    end.

(** [journal.stagingIdCounter++] *)
Definition nextStagingId : M t Z :=
  fun j => Returned (stagingIdCounter j)
                    (setStagingIdCounter (wrap64 (stagingIdCounter j + 1)) j).

(** Calling one apply callback with the journal's blob layer. *)
Definition runCallback (cb : ApplyCallback) : M t unit :=
  match cb with
  | NothingToDo => ret tt
  | ApplyCreateObject object content xattr =>
      do (a, o) <- derefObject (Some object);
      do b <- derefBlobLayer;
      do_ modify (setBlobLayer
                    (Some (BlobLayer.createObject (Object.id o) xattr content b)));
      writeObject a (Object.setInner (Some (Object.id o)) o)
  | ApplyRemoveObject object =>
      do (a, o) <- derefObject (Some object);
      match Object.inner o with
      | None => crash NullDereference
      | Some i =>
          do b <- derefBlobLayer;
          modify (setBlobLayer (Some (BlobLayer.remove i b)))
      end
  | ApplyOverwriteObject object content xattr =>
      do (a, o) <- derefObject (Some object);
      match Object.inner o with
      | None => crash NullDereference
      | Some i =>
          do b <- derefBlobLayer;
          modify (setBlobLayer (Some (BlobLayer.overwrite i xattr content b)))
      end
  | ApplySetObjectXattr object xattr =>
      do (a, o) <- derefObject (Some object);
      match Object.inner o with
      | None => crash NullDereference
      | Some i =>
          do b <- derefBlobLayer;
          modify (setBlobLayer (Some (BlobLayer.setXattr i xattr b)))
      end
  | ApplyCreateTemporary object content xattr =>
      do (a, o) <- derefTemporary (Some object);
      writeTemporary a
        (RecoverableTemporary.setInner
           (Some (BlobLayer.setRecoveryIdXattr (RecoverableTemporary.id o) xattr content))
           o)
  | ApplyReleaseTemporary object => ret tt
  | ApplyOverwriteTemporary object content xattr =>
      do (a, o) <- derefTemporary (Some object);
      match RecoverableTemporary.inner o with
      | None => crash NullDereference
      | Some i =>
          writeTemporary a
            (RecoverableTemporary.setInner
               (Some (BlobLayer.overwriteTemporary xattr content i)) o)
      end
  | ApplySetTemporaryXattr object xattr =>
      do (a, o) <- derefTemporary (Some object);
      match RecoverableTemporary.inner o with
      | None => crash NullDereference
      | Some i =>
          writeTemporary a
            (RecoverableTemporary.setInner
               (Some (BlobLayer.setTemporaryXattr xattr i)) o)
      end
  end.

End JournalLayer.

(** ** Transaction-local wrappers *)

Module LockedObject.

(** The members of [Transaction::LockedObject].  [object] is a
    [kj::Own]: it is [None] once [commit()] has moved it into the
    returned callback. *)
Record t := mk {
  object : option Ref;
  changeCount : Z;        (* uint *)
  created : bool;
  removed : bool;
  newXattr : option Xattr;
  newContent : option BlobLayer.Temporary
}.

(** [explicit LockedObject(kj::Own<JournalLayer::Object> objectParam)] *)
Definition new (objectParam : Ref) : M JournalLayer.t t :=
  do (a, o) <- JournalLayer.derefObject (Some objectParam);
  if Object.locked o then throw Conflict
  else
    do_ JournalLayer.writeObject a (Object.setLocked true o);
    ret (mk (Some objectParam) 0 false false None None).

(** [LockedObject(objectParam, initialContent)] *)
Definition newCreated (objectParam : Ref) (initialContent : BlobLayer.Temporary)
  : M JournalLayer.t t :=
  do (a, o) <- JournalLayer.derefObject (Some objectParam);
  if Object.locked o then throw Conflict
  else
    do_ JournalLayer.writeObject a (Object.setLocked true o);
    ret (mk (Some objectParam) 0 true false None (Some initialContent)).

(** [~LockedObject()] *)
Definition destroy (l : t) : M JournalLayer.t unit :=
  do (a, o) <- JournalLayer.derefObject (object l);
  JournalLayer.writeObject a (Object.setLocked false o).

(** [overwrite(xattr, content)] *)
Definition overwrite (xattr : Xattr) (content : BlobLayer.Temporary) (l : t) : t :=
  mk (object l) (wrap32 (changeCount l + 1)) (created l) (removed l)
     (Some xattr) (Some content).

(** [setXattr(xattr)] *)
Definition setXattr (xattr : Xattr) (l : t) : t :=
  mk (object l) (wrap32 (changeCount l + 1)) (created l) (removed l)
     (Some xattr) (newContent l).

(** [remove()] *)
Definition remove (l : t) : t :=
  mk (object l) (wrap32 (changeCount l + 1)) (created l) true
     (newXattr l) (newContent l).

(** [getXattr()] *)
Definition getXattr (l : t) : M JournalLayer.t Xattr :=
  match newXattr l with
  | Some x => ret x
  | None =>
      do (_, o) <- JournalLayer.derefObject (object l);
      ret (Object.getXattr o)
  end.

(** [getGeneration()] *)
Definition getGeneration (l : t) : M JournalLayer.t Z :=
  do (_, o) <- JournalLayer.derefObject (object l);
  ret (wrap64 (Object.getGeneration o + changeCount l)).

(** The guard [changeCount == 0 || (created && removed)] shared by
    [getJournalEntry] and [commit]. *)
Definition nothingToCommit (l : t) : bool :=
  (changeCount l =? 0) || (created l && removed l).

Section WithStaging.
Variable STAGING : RecoveryType.

(** [getJournalEntry(stagingId)]: the entry, if any, and the wrapper
    with its pending content stamped. *)
Definition getJournalEntry (stagingId : Z) (l : t)
  : M JournalLayer.t (option JournalEntry.t * t) :=
  if nothingToCommit l then ret (None, l)
  else
    let stamped :=
      match newContent l with
      | Some c => Some (BlobLayer.setRecoveryId (STAGING, stagingId) c)
      | None => None
      end in
    let entryStagingId :=
      match newContent l with
      | Some _ => stagingId
      | None => 0
      end in
    let l' := mk (object l) (changeCount l) (created l) (removed l)
                 (newXattr l) stamped in
    do (_, o) <- JournalLayer.derefObject (object l');
    do xattr <- getXattr l';
    let type :=
      if created l' then JournalEntry.CREATE_OBJECT
      else if removed l' then JournalEntry.DELETE_OBJECT
      else match newContent l' with
           | None => JournalEntry.UPDATE_XATTR
           | Some _ => JournalEntry.UPDATE_OBJECT
           end in
    ret (Some (JournalEntry.mk type 0 entryStagingId
                 (JournalEntry.mkObjectTarget (Object.id o) xattr)
                 JournalEntry.zeroTemporary),
         l').

End WithStaging.

(** [commit()]: publishes the changes on the handle and returns the
    apply callback; the members moved into the callback are left
    empty. *)
Definition commit (l : t) : M JournalLayer.t (ApplyCallback * t) :=
  if nothingToCommit l then ret (NothingToDo, l)
  else
    do newX <- getXattr l;
    do (a, o) <- JournalLayer.derefObject (object l);
    do_ JournalLayer.writeObject a
          (Object.update newX
             (option_map BlobLayer.temporaryContent (newContent l))
             (changeCount l) o);
    do xattr <- getXattr l;
    if created l then
      match newContent l with
      | None => throw RequirementFailed
      | Some content =>
          ret (ApplyCreateObject a content xattr,
               mk None (changeCount l) (created l) (removed l) (newXattr l) None)
      end
    else if removed l then
      ret (ApplyRemoveObject a,
           mk None (changeCount l) (created l) (removed l) (newXattr l) (newContent l))
    else
      match newContent l with
      | Some content =>
          ret (ApplyOverwriteObject a content xattr,
               mk None (changeCount l) (created l) (removed l) (newXattr l) None)
      | None =>
          ret (ApplySetObjectXattr a xattr,
               mk None (changeCount l) (created l) (removed l) (newXattr l) None)
      end.

End LockedObject.

Module LockedTemporary.

(** The members of [Transaction::LockedTemporary]. *)
Record t := mk {
  object : option Ref;
  changeCount : Z;        (* uint *)
  created : bool;
  removed : bool;
  newXattr : option TemporaryXattr;
  newContent : option BlobLayer.Temporary
}.

(** [explicit LockedTemporary(kj::Own<RecoverableTemporary> objectParam)] *)
Definition new (objectParam : Ref) : M JournalLayer.t t :=
  do (a, o) <- JournalLayer.derefTemporary (Some objectParam);
  if RecoverableTemporary.locked o then throw Conflict
  else
    do_ JournalLayer.writeTemporary a (RecoverableTemporary.setLocked true o);
    ret (mk (Some objectParam) 0 false false None None).

(** [LockedTemporary(objectParam, initialContent)] *)
Definition newCreated (objectParam : Ref) (initialContent : BlobLayer.Temporary)
  : M JournalLayer.t t :=
  do (a, o) <- JournalLayer.derefTemporary (Some objectParam);
  if RecoverableTemporary.locked o then throw Conflict
  else
    do_ JournalLayer.writeTemporary a (RecoverableTemporary.setLocked true o);
    ret (mk (Some objectParam) 0 true false None (Some initialContent)).

(** [~LockedTemporary()] *)
Definition destroy (l : t) : M JournalLayer.t unit :=
  do (a, o) <- JournalLayer.derefTemporary (object l);
  JournalLayer.writeTemporary a (RecoverableTemporary.setLocked false o).

(** [remove()] *)
Definition remove (l : t) : t :=
  mk (object l) (wrap32 (changeCount l + 1)) (created l) true
     (newXattr l) (newContent l).

(** [overwrite(xattr, replacement)] *)
Definition overwrite (xattr : TemporaryXattr) (replacement : BlobLayer.Temporary)
    (l : t) : t :=
  mk (object l) (wrap32 (changeCount l + 1)) (created l) (removed l)
     (Some xattr) (Some replacement).

(** [setXattr(xattr)] *)
Definition setXattr (xattr : TemporaryXattr) (l : t) : t :=
  mk (object l) (wrap32 (changeCount l + 1)) (created l) (removed l)
     (Some xattr) (newContent l).

(** [setRecoveryId(id)] and [setRecoveryId(id, xattr)] *)
Definition setRecoveryId (id : RecoveryId) (l : t) : M JournalLayer.t unit :=
  throw Unimplemented.
Definition setRecoveryIdXattr (id : RecoveryId) (xattr : TemporaryXattr) (l : t)
  : M JournalLayer.t unit :=
  throw Unimplemented.

(** [getXattr()] *)
Definition getXattr (l : t) : M JournalLayer.t TemporaryXattr :=
  match newXattr l with
  | Some x => ret x
  | None =>
      do (_, o) <- JournalLayer.derefTemporary (object l);
      ret (RecoverableTemporary.getXattr o)
  end.

Definition nothingToCommit (l : t) : bool :=
  (changeCount l =? 0) || (created l && removed l).

Section WithStaging.
Variable STAGING : RecoveryType.

(** [getJournalEntry(stagingId)] *)
Definition getJournalEntry (stagingId : Z) (l : t)
  : M JournalLayer.t (option JournalEntry.t * t) :=
  if nothingToCommit l then ret (None, l)
  else
    let stamped :=
      match newContent l with
      | Some c => Some (BlobLayer.setRecoveryId (STAGING, stagingId) c)
      | None => None
      end in
    let entryStagingId :=
      match newContent l with
      | Some _ => stagingId
      | None => 0
      end in
    let l' := mk (object l) (changeCount l) (created l) (removed l)
                 (newXattr l) stamped in
    do (_, o) <- JournalLayer.derefTemporary (object l');
    do xattr <- getXattr l';
    let type :=
      if created l' then JournalEntry.CREATE_TEMPORARY
      else if removed l' then JournalEntry.DELETE_TEMPORARY
      else match newContent l' with
           | None => JournalEntry.UPDATE_TEMPORARY_XATTR
           | Some _ => JournalEntry.UPDATE_TEMPORARY
           end in
    ret (Some (JournalEntry.mk type 0 entryStagingId
                 JournalEntry.zeroObject
                 (JournalEntry.mkTemporaryTarget (RecoverableTemporary.id o) xattr)),
         l').

End WithStaging.

(** [commit()] *)
Definition commit (l : t) : M JournalLayer.t (ApplyCallback * t) :=
  if nothingToCommit l then ret (NothingToDo, l)
  else
    do newX <- getXattr l;
    do (a, o) <- JournalLayer.derefTemporary (object l);
    do_ JournalLayer.writeTemporary a
          (RecoverableTemporary.update newX
             (option_map BlobLayer.temporaryContent (newContent l))
             (changeCount l) o);
    do xattr <- getXattr l;
    if created l then
      match newContent l with
      | None => throw RequirementFailed
      | Some content =>
          ret (ApplyCreateTemporary a content xattr,
               mk None (changeCount l) (created l) (removed l) (newXattr l) None)
      end
    else if removed l then
      ret (ApplyReleaseTemporary a,
           mk None (changeCount l) (created l) (removed l) (newXattr l) (newContent l))
    else
      match newContent l with
      | Some content =>
          ret (ApplyOverwriteTemporary a content xattr,
               mk None (changeCount l) (created l) (removed l) (newXattr l) None)
      | None =>
          ret (ApplySetTemporaryXattr a xattr,
               mk None (changeCount l) (created l) (removed l) (newXattr l) None)
      end.

End LockedTemporary.

(** ** Transactions *)

Module Transaction.

(** The two vectors of a [Transaction].  A wrapper is shared between the
    transaction and the caller that obtained it from [wrap]; the caller
    refers to it by its position in the vector. *)
Record t := mk {
  objects : list LockedObject.t;
  temporaries : list LockedTemporary.t
}.

(** [Transaction(JournalLayer& journal)] *)
Definition new : t := mk [] [].

(** [wrap(Object& object)]; the result is the position of the new
    [LockedObject]. *)
Definition wrap (object : Ref) (tx : t) : M JournalLayer.t (nat * t) :=
  do result <- LockedObject.new object;
  ret (length (objects tx), mk (objects tx ++ [result]) (temporaries tx)).

(** [wrap(RecoverableTemporary& object)] *)
Definition wrapTemporary (object : Ref) (tx : t) : M JournalLayer.t (nat * t) :=
  do result <- LockedTemporary.new object;
  ret (length (temporaries tx), mk (objects tx) (temporaries tx ++ [result])).

(** A call of a mutator through the reference returned by [wrap]. *)
Definition onObject (i : nat) (f : LockedObject.t -> LockedObject.t) (tx : t) : t :=
  mk (alter f i (objects tx)) (temporaries tx).
Definition onTemporary (i : nat) (f : LockedTemporary.t -> LockedTemporary.t) (tx : t)
  : t :=
  mk (objects tx) (alter f i (temporaries tx)).

(** The constructor
    [Object(journal, id, xattr, content)]: a handle for an object that is
    being created, registered in [openObjects]. *)
Definition newObjectHandle (id : ObjectId) (xattr : Xattr) (content : Content)
  : M JournalLayer.t Ref :=
  do opened <- gets JournalLayer.openObjects;
  do store <- gets JournalLayer.objectStore;
  let a : Ref := fresh (dom store) in
  do_ require (bool_decide (opened !! id = None));
  do_ modify (JournalLayer.setOpenObjects (<[id := a]> opened));
  do_ JournalLayer.writeObject a (Object.mk id None xattr (Some content) 0 false);
  ret a.

(** The constructor [RecoverableTemporary(journal, id, xattr, content)]. *)
Definition newTemporaryHandle (id : RecoveryId) (xattr : TemporaryXattr)
    (content : Content) : M JournalLayer.t Ref :=
  do store <- gets JournalLayer.temporaryStore;
  let a : Ref := fresh (dom store) in
  do_ JournalLayer.writeTemporary a
        (RecoverableTemporary.mk id None xattr (Some content) 0 false);
  ret a.

(** [createObject(id, xattr, content)] *)
Definition createObject (id : ObjectId) (xattr : Xattr) (content : BlobLayer.Temporary)
    (tx : t) : M JournalLayer.t (Ref * t) :=
  do result <- newObjectHandle id xattr (BlobLayer.temporaryContent content);
  do locked <- LockedObject.newCreated result content;
  ret (result, mk (objects tx ++ [locked]) (temporaries tx)).

(** [createRecoverableTemporary(id, xattr, content)] *)
Definition createRecoverableTemporary (id : RecoveryId) (xattr : TemporaryXattr)
    (content : BlobLayer.Temporary) (tx : t) : M JournalLayer.t (Ref * t) :=
  do result <- newTemporaryHandle id xattr (BlobLayer.temporaryContent content);
  do locked <- LockedTemporary.newCreated result content;
  ret (result, mk (objects tx) (temporaries tx ++ [locked])).

(** Dereference of [journal.journalFile]. *)
Definition derefJournalFile : M JournalLayer.t (list (Z * list JournalEntry.t)) :=
  fun j =>
    match JournalLayer.journalFile j with
    | Some f => Returned f j
    | None => Crashed NullDereference
    end.

Section Commit.
Variable STAGING : RecoveryType.
Variable sizeofJournalEntry : Z.

(** [for (auto& object: objects) { ... }]: the wrappers after the
    loop, the entries added and the callbacks added. *)
Fixpoint buildObjects (objs : list LockedObject.t)
  : M JournalLayer.t (list LockedObject.t * list JournalEntry.t * list ApplyCallback) :=
  match objs with
  | [] => ret ([], [], [])
  | object :: rest =>
      do stagingId <- JournalLayer.nextStagingId;
      do (entry, object1) <- LockedObject.getJournalEntry STAGING stagingId object;
      do (callback, object2) <- LockedObject.commit object1;
      do (rest', entries, callbacks) <- buildObjects rest;
      ret (object2 :: rest', option_list entry ++ entries, callback :: callbacks)
  end.

(** [for (auto& temp: temporaries) { ... }] *)
Fixpoint buildTemporaries (temps : list LockedTemporary.t)
  : M JournalLayer.t
      (list LockedTemporary.t * list JournalEntry.t * list ApplyCallback) :=
  match temps with
  | [] => ret ([], [], [])
  | temp :: rest =>
      do stagingId <- JournalLayer.nextStagingId;
      do (entry, temp1) <- LockedTemporary.getJournalEntry STAGING stagingId temp;
      do (callback, temp2) <- LockedTemporary.commit temp1;
      do (rest', entries, callbacks) <- buildTemporaries rest;
      ret (temp2 :: rest', option_list entry ++ entries, callback :: callbacks)
  end.

(** The body of the lambda passed to [kj::runCatchingExceptions], up
    to the point where the apply phase is chained onto [writeQueue]. *)
Definition buildAndWrite (tx : t) : M JournalLayer.t t :=
  do (objs, entries1, callbacks1) <- buildObjects (objects tx);
  do (temps, entries2, callbacks2) <- buildTemporaries (temporaries tx);
  let entries := entries1 ++ entries2 in
  do file <- derefJournalFile;
  do oldPosition <- gets JournalLayer.journalPosition;
  do_ modify (JournalLayer.setJournalFile (Some (file ++ [(oldPosition, entries)])));
  let newPosition :=
    wrap64 (oldPosition + sizeofJournalEntry * Z.of_nat (length entries)) in
  do_ modify (JournalLayer.setJournalPosition newPosition);
  do_ modify (fun j =>
        JournalLayer.setWriteQueue
          (JournalLayer.writeQueue j ++
           [JournalLayer.mkPending (callbacks1 ++ callbacks2) oldPosition newPosition])
          j);
  ret (mk objs temps).

(** [commit(tempToConsume)] *)
Definition commit (tempToConsume : option Ref) (tx : t) : M JournalLayer.t t :=
  do tx1 <- match tempToConsume with
            | Some r =>
                do wrapper <- LockedTemporary.new r;
                ret (mk (objects tx)
                        (temporaries tx ++ [LockedTemporary.remove wrapper]))
            | None => ret tx
            end;
  abortOnException (buildAndWrite tx1).

End Commit.

(** [~Transaction()], once the caller has released its own references
    to the wrappers: every wrapper is destroyed. *)
Fixpoint destroyObjects (objs : list LockedObject.t) : M JournalLayer.t unit :=
  match objs with
  | [] => ret tt
  | l :: rest => do_ LockedObject.destroy l; destroyObjects rest
  end.

Fixpoint destroyTemporaries (temps : list LockedTemporary.t) : M JournalLayer.t unit :=
  match temps with
  | [] => ret tt
  | l :: rest => do_ LockedTemporary.destroy l; destroyTemporaries rest
  end.

Definition destroy (tx : t) : M JournalLayer.t unit :=
  do_ destroyObjects (objects tx);
  destroyTemporaries (temporaries tx).

End Transaction.

(** ** Recovery *)

Module RecoveredTemporary.

(** The members of [JournalLayer::RecoveredTemporary]. *)
Record t := mk {
  oldId : RecoveryId;
  xattr : TemporaryXattr;
  inner : BlobLayer.RecoveredTemporary
}.

(** [RecoveredTemporary(journal, inner)] *)
Definition ofInner (i : BlobLayer.RecoveredTemporary) : t :=
  mk (BlobLayer.oldId i) (BlobLayer.recoveredXattr i) i.

(** [setXattr(xattr)] *)
Definition setXattr (x : TemporaryXattr) (r : t) : t := mk (oldId r) x (inner r).

(** [overwrite(xattr, replacement)] *)
Definition overwrite (x : TemporaryXattr) (replacement : BlobLayer.RecoveredTemporary)
    (r : t) : t :=
  mk (oldId r) x replacement.

End RecoveredTemporary.

Module Recovery.

(** [JournalLayer::Recovery] derives from [JournalLayer]: [super] holds
    the inherited members. *)
Record t := mk {
  super : JournalLayer.t;
  blobLayerRecovery : BlobLayer.Recovery;
  recoveredStaging : gmap Z BlobLayer.RecoveredTemporary;
  recoveredTemporaries : gmap RecoveryId RecoveredTemporary.t;
  finished : bool
}.

Definition setSuper (v : JournalLayer.t) (r : t) : t :=
  mk v (blobLayerRecovery r) (recoveredStaging r) (recoveredTemporaries r) (finished r).
Definition setBlobLayerRecovery (v : BlobLayer.Recovery) (r : t) : t :=
  mk (super r) v (recoveredStaging r) (recoveredTemporaries r) (finished r).
Definition setRecoveredStaging (v : gmap Z BlobLayer.RecoveredTemporary) (r : t) : t :=
  mk (super r) (blobLayerRecovery r) v (recoveredTemporaries r) (finished r).
Definition setRecoveredTemporaries (v : gmap RecoveryId RecoveredTemporary.t) (r : t)
  : t :=
  mk (super r) (blobLayerRecovery r) (recoveredStaging r) v (finished r).

(** [replayEntry(blobLayer, entry)].  The first [switch] of the source
    takes the staging temporary out of [recoveredStaging] for the four
    types that carry content and returns when it is absent; the second
    [switch] acts on the target.  Both are folded into one match here,
    each content-carrying case starting with the lookup. *)
Definition replayEntry (entry : JournalEntry.t) (r : t) : t :=
  let objectId := JournalEntry.id (JournalEntry.object entry) in
  let objectXattr := JournalEntry.xattr (JournalEntry.object entry) in
  let temporaryId := JournalEntry.tid (JournalEntry.temporary entry) in
  let temporaryXattr := JournalEntry.txattr (JournalEntry.temporary entry) in
  match JournalEntry.type entry with
  | JournalEntry.CREATE_OBJECT
  | JournalEntry.UPDATE_OBJECT =>
      match recoveredStaging r !! JournalEntry.stagingId entry with
      | None => r
      | Some staging =>
          let r1 :=
            setRecoveredStaging
              (delete (JournalEntry.stagingId entry) (recoveredStaging r)) r in
          setBlobLayerRecovery
            (BlobLayer.keepAs objectId objectXattr staging (blobLayerRecovery r1)) r1
      end
  | JournalEntry.UPDATE_XATTR =>
      match BlobLayer.getObject objectId (blobLayerRecovery r) with
      | Some _ =>
          setBlobLayerRecovery
            (BlobLayer.recoverySetXattr objectId objectXattr (blobLayerRecovery r)) r
      | None => r
      end
  | JournalEntry.DELETE_OBJECT =>
      match BlobLayer.getObject objectId (blobLayerRecovery r) with
      | Some _ =>
          setBlobLayerRecovery
            (BlobLayer.recoveryRemove objectId (blobLayerRecovery r)) r
      | None => r
      end
  | JournalEntry.CREATE_TEMPORARY =>
      match recoveredStaging r !! JournalEntry.stagingId entry with
      | None => r
      | Some staging =>
          let r1 :=
            setRecoveredStaging
              (delete (JournalEntry.stagingId entry) (recoveredStaging r)) r in
          match recoveredTemporaries r1 !! temporaryId with
          | None =>
              setRecoveredTemporaries
                (<[temporaryId := RecoveredTemporary.mk temporaryId temporaryXattr staging]>
                   (recoveredTemporaries r1)) r1
          | Some _ => r1
          end
      end
  | JournalEntry.UPDATE_TEMPORARY =>
      match recoveredStaging r !! JournalEntry.stagingId entry with
      | None => r
      | Some staging =>
          let r1 :=
            setRecoveredStaging
              (delete (JournalEntry.stagingId entry) (recoveredStaging r)) r in
          match recoveredTemporaries r1 !! temporaryId with
          | Some t =>
              setRecoveredTemporaries
                (<[temporaryId := RecoveredTemporary.overwrite temporaryXattr staging t]>
                   (recoveredTemporaries r1)) r1
          | None => r1
          end
      end
  | JournalEntry.UPDATE_TEMPORARY_XATTR =>
      match recoveredTemporaries r !! temporaryId with
      | Some t =>
          setRecoveredTemporaries
            (<[temporaryId := RecoveredTemporary.setXattr temporaryXattr t]>
               (recoveredTemporaries r)) r
      | None => r
      end
  | JournalEntry.DELETE_TEMPORARY =>
      setRecoveredTemporaries (delete temporaryId (recoveredTemporaries r)) r
  end.

(** [for (auto& entryToReplay: kj::arrayPtr(txnStart, &entry + 1))] *)
Definition replayAll (window : list JournalEntry.t) (r : t) : t :=
  fold_left (fun acc entryToReplay => replayEntry entryToReplay acc) window r.

(** The loop of [commitSavedTransaction] over the entries that remain.
    [pending] is the window from [txnStart] up to the current entry. *)
Fixpoint replayLoop (expectedTxSize : Z) (pending : list JournalEntry.t)
    (entries : list JournalEntry.t) (r : t) : t :=
  match entries with
  | [] => r
  | entry :: rest =>
      if (0 <? expectedTxSize) && negb (JournalEntry.txSize entry =? expectedTxSize)
      then r
      else
        let expectedTxSize' := wrap32 (JournalEntry.txSize entry - 1) in
        if expectedTxSize' =? 0
        then replayLoop expectedTxSize' [] rest (replayAll (pending ++ [entry]) r)
        else replayLoop expectedTxSize' (pending ++ [entry]) rest r
  end.

(** [commitSavedTransaction(content)], where [entries] is the array
    that [content.read(start, ...)] filled: the records between
    [content.getStart()] and the end marker. *)
Definition commitSavedTransaction (entries : list JournalEntry.t) : M t unit :=
  do finishedAlready <- gets finished;
  do_ require (negb finishedAlready);
  modify (replayLoop 0 [] entries).

(** [getObject(id)] *)
Definition getObject (id : ObjectId) : M t (option Ref) :=
  do finishedAlready <- gets finished;
  do_ require (negb finishedAlready);
  do opened <- gets (fun r => JournalLayer.openObjects (super r));
  match opened !! id with
  | Some a => ret (Some a)
  | None =>
      do blob <- gets blobLayerRecovery;
      match BlobLayer.getObject id blob with
      | None => ret None
      | Some object =>
          do store <- gets (fun r => JournalLayer.objectStore (super r));
          let a : Ref := fresh (dom store) in
          do_ modify (fun r =>
                setSuper
                  (JournalLayer.setOpenObjects (<[id := a]> opened)
                     (JournalLayer.setObjectStore
                        (<[a := Object.mk id (Some id) (BlobLayer.xattr object)
                                          None 0 false]> store)
                        (super r)))
                  r);
          ret (Some a)
      end
  end.

(** Modelled from the spec: the ordering of [RecoveryId] keys is
    declared in the missing header; by spec 4.4 the range between the two
    [lower_bound] calls holds the entries whose recovery type is [type]. *)
Definition inRange (type : RecoveryType) (k : RecoveryId) : bool :=
  bool_decide (fst k = type).

(** Modelled from the spec: [recoveredTemporaries] is a [std::map], which
    is walked in the order of its keys; the comparison of [RecoveryId] is
    declared in the missing header.  By spec 4.4 the map is ordered so
    that the entries of one recovery type form a single range: the order
    is taken by type first and by number second. *)
Definition recoveryIdLeb (a b : RecoveryId) : bool :=
  (fst a <? fst b)%N || ((fst a =? fst b)%N && (snd a <=? snd b)).

Definition entryLe (x y : RecoveryId * RecoveredTemporary.t) : Prop :=
  recoveryIdLeb (fst x) (fst y) = true.

#[global] Instance entryLe_dec x y : Decision (entryLe x y).
Proof. unfold entryLe. apply _. Defined.

(** The entries of a map in the order in which an iterator of
    [std::map] visits them. *)
Definition inKeyOrder (m : gmap RecoveryId RecoveredTemporary.t)
  : list (RecoveryId * RecoveredTemporary.t) :=
  merge_sort entryLe (map_to_list m).

(** [recoverTemporaries(type)] *)
Definition recoverTemporaries (type : RecoveryType) : M t (list RecoveredTemporary.t) :=
  do finishedAlready <- gets finished;
  do_ require (negb finishedAlready);
  do temps <- gets recoveredTemporaries;
  let results := inKeyOrder (filter (fun kv => inRange type (fst kv) = true) temps) in
  do_ modify (setRecoveredTemporaries
                (filter (fun kv => inRange type (fst kv) = false) temps));
  ret (snd <$> results).

(** [finish()] *)
Definition finish : M t unit :=
  do finishedAlready <- gets finished;
  do_ require (negb finishedAlready);
  modify (fun r =>
    let blobLayer := BlobLayer.finish (blobLayerRecovery r) in
    mk (JournalLayer.setWriteQueue []
          (JournalLayer.setJournalFile (Some [])
             (JournalLayer.setBlobLayer (Some blobLayer) (super r))))
       (blobLayerRecovery r) ∅ ∅ true).

End Recovery.

(** ** Reads through handles and wrappers, and the apply loop *)

Module Reads.

(** The [BlobLayer::Content&] that a [getContent()] of an object handle
    returns: the cached content, or the content of the blob-layer object
    the handle's [inner] points to. *)
Inductive ContentRef :=
| CachedContent (c : Content)
| InnerContent (inner : ObjectId).

(** [JournalLayer::Object::getContent()] *)
Definition objectGetContent (o : Object.t) : M JournalLayer.t ContentRef :=
  match Object.cachedContent o with
  | Some r => ret (CachedContent r)
  | None =>
      match Object.inner o with
      | Some i => ret (InnerContent i)
      | None => crash NullDereference
      end
  end.

(** [JournalLayer::RecoverableTemporary::getContent()] *)
Definition temporaryGetContent (o : RecoverableTemporary.t) : M JournalLayer.t Content :=
  match RecoverableTemporary.cachedContent o with
  | Some r => ret r
  | None =>
      match RecoverableTemporary.inner o with
      | Some i => ret (BlobLayer.temporaryContent i)
      | None => crash NullDereference
      end
  end.

(** [LockedObject::getContent()] *)
Definition lockedObjectGetContent (l : LockedObject.t) : M JournalLayer.t ContentRef :=
  match LockedObject.newContent l with
  | Some c => ret (CachedContent (BlobLayer.temporaryContent c))
  | None =>
      do (_, o) <- JournalLayer.derefObject (LockedObject.object l);
      objectGetContent o
  end.

(** [LockedTemporary::getContent()] *)
Definition lockedTemporaryGetContent (l : LockedTemporary.t) : M JournalLayer.t Content :=
  match LockedTemporary.newContent l with
  | Some c => ret (BlobLayer.temporaryContent c)
  | None =>
      do (_, o) <- JournalLayer.derefTemporary (LockedTemporary.object l);
      temporaryGetContent o
  end.

(** [for (auto& callback: executeCallbacks)], each callback called with
    the journal's blob layer: the body of the continuation chained onto [writeQueue]. *)
Fixpoint runCallbacks (callbacks : list ApplyCallback) : M JournalLayer.t unit :=
  match callbacks with
  | [] => ret tt
  | callback :: rest => do_ JournalLayer.runCallback callback; runCallbacks rest
  end.

End Reads.

(** * Vocabulary of the properties *)

(** ** Sample states used by the concrete lemmas *)

Module Sample.

Definition STAGING : RecoveryType := 0%N.
Definition USER : RecoveryType := 2%N.

(** An open object [id = 2] with xattr [65], generation [5], unlocked. *)
Definition objectY : Object.t := Object.mk 2 (Some 2) 65 None 5 false.

(** An open recoverable temporary [(USER, 7)]. *)
Definition temporaryT : RecoverableTemporary.t :=
  RecoverableTemporary.mk (USER, 7)
    (Some (BlobLayer.mkTemporary (Some (USER, 7)) 66 [1; 2; 3])) 66 None 0 false.

(** A running journal layer holding [objectY] at address [1] and
    [temporaryT] at address [1] of the temporaries, with an empty journal
    file and [stagingIdCounter = 0]. *)
Definition journal : JournalLayer.t :=
  JournalLayer.mk {[ 1%positive := objectY ]} {[ 1%positive := temporaryT ]}
    {[ 2 := 1%positive ]}
    (Some (BlobLayer.mk {[ 2 := BlobLayer.mkObject 65 [104; 105] ]}))
    (Some []) 0 0 [].

(** A detached blob-layer temporary holding new content. *)
Definition fresh_content : BlobLayer.Temporary := BlobLayer.mkTemporary None 0 [118; 50].

End Sample.

(** ** Tactics for the outcome monad *)

Ltac unfold_monad :=
  unfold bind, ret, throw, crash, gets, modify, require, abortOnException,
    JournalLayer.derefObject, JournalLayer.derefTemporary, JournalLayer.writeObject,
    JournalLayer.writeTemporary, JournalLayer.derefBlobLayer, JournalLayer.nextStagingId
    in *.

(** ** The decision table of the entry type (C5) *)

Inductive TargetKind := OnObject | OnTemporary.

(** The decision table of spec section 4.2, row by row; [None] is the
    "no entry" row. *)
Definition decisionTable (created removed newContentPresent : bool) (target : TargetKind)
  : option JournalEntry.Type_ :=
  match created, removed, newContentPresent, target with
  | true, false, _, OnObject => Some JournalEntry.CREATE_OBJECT
  | true, false, _, OnTemporary => Some JournalEntry.CREATE_TEMPORARY
  | false, true, _, OnObject => Some JournalEntry.DELETE_OBJECT
  | false, true, _, OnTemporary => Some JournalEntry.DELETE_TEMPORARY
  | false, false, true, OnObject => Some JournalEntry.UPDATE_OBJECT
  | false, false, true, OnTemporary => Some JournalEntry.UPDATE_TEMPORARY
  | false, false, false, OnObject => Some JournalEntry.UPDATE_XATTR
  | false, false, false, OnTemporary => Some JournalEntry.UPDATE_TEMPORARY_XATTR
  | true, true, _, _ => None
  end.

Definition present {A} (o : option A) : bool :=
  match o with Some _ => true | None => false end.

(** The type of the entry a call of [getJournalEntry] returned. *)
Definition emittedType {S L} (r : Outcome S (option JournalEntry.t * L))
  : option (option JournalEntry.Type_) :=
  match r with
  | Returned (e, _) _ => Some (option_map JournalEntry.type e)
  | _ => None
  end.

(** ** Generation counters (C7) *)



(** ** Locking (C9) *)

Definition objectLocked (j : JournalLayer.t) (a : Ref) : option bool :=
  Object.locked <$> (JournalLayer.objectStore j !! a).

Definition temporaryLocked (j : JournalLayer.t) (a : Ref) : option bool :=
  RecoverableTemporary.locked <$> (JournalLayer.temporaryStore j !! a).

(** Scenario S5 of the spec with one change made: wrap the object at address
    1, set its xattr, commit. *)
Definition wrapSetXattrCommit : M JournalLayer.t Transaction.t :=
  do (i, tx) <- Transaction.wrap 1%positive Transaction.new;
  Transaction.commit Sample.STAGING 128 None
    (Transaction.onObject i (LockedObject.setXattr 66) tx).

(** ** Calls after [finish()] (C10) *)

(** The four guarded entry points of [Recovery]; the value a call returns
    is dropped, its outcome kept. *)
Inductive RecoveryCall :=
| CallGetObject (id : ObjectId)
| CallRecoverTemporaries (type : RecoveryType)
| CallCommitSavedTransaction (entries : list JournalEntry.t)
| CallFinish.

Definition call (c : RecoveryCall) : M Recovery.t unit :=
  match c with
  | CallGetObject id => do_ Recovery.getObject id; ret tt
  | CallRecoverTemporaries type => do_ Recovery.recoverTemporaries type; ret tt
  | CallCommitSavedTransaction entries => Recovery.commitSavedTransaction entries
  | CallFinish => Recovery.finish
  end.

(** A sequence of calls made one after the other by a caller that catches
    exceptions; the outcomes in order. *)
Fixpoint runCalls (calls : list RecoveryCall) (r : Recovery.t)
  : list (Outcome Recovery.t unit) :=
  match calls with
  | [] => []
  | c :: rest =>
      let out := call c r in
      out :: match out with
             | Returned _ r' | Thrown _ r' => runCalls rest r'
             | Crashed _ => []
             end
  end.

Module SampleRecovery.

(** The journal layer inside a [Recovery] before [finish()]: no handle
    is open and the inherited members are not yet initialised. *)
Definition super : JournalLayer.t := JournalLayer.mk ∅ ∅ ∅ None None 0 0 [].

(** Object 1 on disk with xattr 10, one staging temporary with id 0. *)
Definition state : Recovery.t :=
  Recovery.mk super
    (BlobLayer.mkRecovery {[ 1 := BlobLayer.mkObject 10 [1] ]} [])
    {[ 0 := BlobLayer.mkRecovered (Sample.STAGING, 0) 0 [2] ]}
    ∅ false.

Definition finishedState : Recovery.t :=
  Recovery.mk
    (JournalLayer.mk ∅ ∅ ∅ (Some (BlobLayer.mk {[ 1 := BlobLayer.mkObject 10 [1] ]}))
       (Some []) 0 0 [])
    (BlobLayer.mkRecovery {[ 1 := BlobLayer.mkObject 10 [1] ]} [])
    ∅ ∅ true.

End SampleRecovery.

(** ** The replay walk (C4) *)

(** The entries on which the loop of [commitSavedTransaction] calls
    [replayEntry], in the order of the calls: same walk as
    [Recovery.replayLoop], with the calls recorded instead of made. *)
Fixpoint replayed (expectedTxSize : Z) (pending entries : list JournalEntry.t)
  : list JournalEntry.t :=
  match entries with
  | [] => []
  | entry :: rest =>
      if (0 <? expectedTxSize) && negb (JournalEntry.txSize entry =? expectedTxSize)
      then []
      else
        let expectedTxSize' := wrap32 (JournalEntry.txSize entry - 1) in
        if expectedTxSize' =? 0
        then (pending ++ [entry]) ++ replayed expectedTxSize' [] rest
        else replayed expectedTxSize' (pending ++ [entry]) rest
  end.

(** [n; n-1; ...; 1] *)
Fixpoint countdown (n : nat) : list Z :=
  match n with
  | O => []
  | S k => Z.of_nat (S k) :: countdown k
  end.

(** A complete transaction record (invariant J-1 of the spec): a
    non-empty run of entries whose [txSize] fields count down from the
    number of entries to 1; the count fits the 32-bit field. *)
Definition completeTransaction (t : list JournalEntry.t) : Prop :=
  t <> [] /\
  map JournalEntry.txSize t = countdown (length t) /\
  Z.of_nat (length t) < 2 ^ 32.


Module SampleJournal.

(** [UpdateXattr] of object 1 to xattr 99, a transaction of its own. *)
Definition updateXattr : JournalEntry.t :=
  JournalEntry.mk JournalEntry.UPDATE_XATTR 1 0
    (JournalEntry.mkObjectTarget 1 99) JournalEntry.zeroTemporary.

(** [UpdateObject] of object 1 from staging temporary 0, with xattr 77, a
    transaction of its own. *)
Definition updateObject : JournalEntry.t :=
  JournalEntry.mk JournalEntry.UPDATE_OBJECT 1 0
    (JournalEntry.mkObjectTarget 1 77) JournalEntry.zeroTemporary.


(** An all-zero record; the type tag other than [txSize] plays no part
    in the walk. *)
Definition zeroEntry : JournalEntry.t :=
  JournalEntry.mk JournalEntry.CREATE_OBJECT 0 0
    JournalEntry.zeroObject JournalEntry.zeroTemporary.

End SampleJournal.

(** ** Replaying a journal twice (C6) *)

(** The four entry types whose replay starts by taking a staging
    temporary out of [recoveredStaging]. *)
Definition carriesContent (e : JournalEntry.t) : bool :=
  match JournalEntry.type e with
  | JournalEntry.CREATE_OBJECT | JournalEntry.UPDATE_OBJECT
  | JournalEntry.CREATE_TEMPORARY | JournalEntry.UPDATE_TEMPORARY => true
  | _ => false
  end.

Ltac unfold_replay :=
  unfold Recovery.replayEntry, Recovery.setRecoveredStaging,
    Recovery.setBlobLayerRecovery, Recovery.setRecoveredTemporaries.


(** ** What [Transaction::commit] writes (C1, C3) *)

(** The content an apply callback took ownership of, if any. *)
Definition callbackContent (cb : ApplyCallback) : option BlobLayer.Temporary :=
  match cb with
  | ApplyCreateObject _ c _ | ApplyOverwriteObject _ c _
  | ApplyCreateTemporary _ c _ | ApplyOverwriteTemporary _ c _ => Some c
  | _ => None
  end.

(** The members of the journal layer that only [Transaction::commit]
    itself writes. *)
Definition sameJournal (j j' : JournalLayer.t) : Prop :=
  JournalLayer.stagingIdCounter j' = JournalLayer.stagingIdCounter j
  /\ JournalLayer.journalFile j' = JournalLayer.journalFile j
  /\ JournalLayer.journalPosition j' = JournalLayer.journalPosition j
  /\ JournalLayer.writeQueue j' = JournalLayer.writeQueue j.

(** What one loop of [Transaction::commit] does. *)
Record LoopResult (j j' : JournalLayer.t) (STAGING : RecoveryType) (n pendingCount : nat)
    (entries : list JournalEntry.t) (callbacks : list ApplyCallback) : Prop := {
  loop_counter :
    JournalLayer.stagingIdCounter j'
    = wrap64 (JournalLayer.stagingIdCounter j + Z.of_nat n);
  loop_file : JournalLayer.journalFile j' = JournalLayer.journalFile j;
  loop_position : JournalLayer.journalPosition j' = JournalLayer.journalPosition j;
  loop_queue : JournalLayer.writeQueue j' = JournalLayer.writeQueue j;
  loop_callbacks : length callbacks = n;
  loop_entries : length entries = pendingCount;
  loop_txSize : Forall (fun e => JournalEntry.txSize e = 0) entries;
  loop_stamps :
    forall (k : nat) cb c,
      callbacks !! k = Some cb ->
      callbackContent cb = Some c ->
      BlobLayer.recoveryId c
      = Some (STAGING, wrap64 (JournalLayer.stagingIdCounter j + Z.of_nat k))
}.

(** The number of wrappers of a transaction that have something to
    commit: the N of the spec. *)
Definition pendingCount (tx : Transaction.t) : nat :=
  length (filter (fun l => LockedObject.nothingToCommit l = false)
                 (Transaction.objects tx))
  + length (filter (fun l => LockedTemporary.nothingToCommit l = false)
                   (Transaction.temporaries tx)).

(** What the build-and-write phase of [commit] leaves behind. *)
Record Written (STAGING : RecoveryType) (tx : Transaction.t) (j j' : JournalLayer.t)
    : Prop := {
  written_counter :
    JournalLayer.stagingIdCounter j'
    = wrap64 (JournalLayer.stagingIdCounter j
              + Z.of_nat (length (Transaction.objects tx)
                          + length (Transaction.temporaries tx)));
  written_entries :
    exists file entries,
      JournalLayer.journalFile j = Some file
      /\ JournalLayer.journalFile j'
         = Some (file ++ [(JournalLayer.journalPosition j, entries)])
      /\ length entries = pendingCount tx
      /\ Forall (fun e => JournalEntry.txSize e = 0) entries;
  written_callbacks :
    exists pending,
      JournalLayer.writeQueue j' = JournalLayer.writeQueue j ++ [pending]
      /\ length (JournalLayer.executeCallbacks pending)
         = (length (Transaction.objects tx) + length (Transaction.temporaries tx))%nat
      /\ forall (k : nat) cb c,
          JournalLayer.executeCallbacks pending !! k = Some cb ->
          callbackContent cb = Some c ->
          BlobLayer.recoveryId c
          = Some (STAGING, wrap64 (JournalLayer.stagingIdCounter j + Z.of_nat k))
}.

(** The transaction [commit] works on: [tx] with, when a temporary is
    consumed, one more wrapper marked removed. *)
Definition withConsumed (tempToConsume : option Ref) (tx : Transaction.t) : Transaction.t :=
  match tempToConsume with
  | Some r =>
      Transaction.mk (Transaction.objects tx)
        (Transaction.temporaries tx
         ++ [LockedTemporary.remove (LockedTemporary.mk (Some r) 0 false false None None)])
  | None => tx
  end.

(** What the handing out of staging ids depends on in a wrapper:
    whether it has nothing to commit, and its pending content. *)
Definition LockedView := (bool * option BlobLayer.Temporary)%type.

Definition objectView (l : LockedObject.t) : LockedView :=
  (LockedObject.nothingToCommit l, LockedObject.newContent l).

Definition temporaryView (l : LockedTemporary.t) : LockedView :=
  (LockedTemporary.nothingToCommit l, LockedTemporary.newContent l).

(** The wrappers of a transaction in the order in which [commit] goes
    over them: objects first, then temporaries. *)
Definition views (tx : Transaction.t) : list LockedView :=
  (objectView <$> Transaction.objects tx)
  ++ (temporaryView <$> Transaction.temporaries tx).

(** The staging id that the wrapper at position [k] is offered when the
    counter stood at [counter] before the first wrapper. *)
Definition offeredId (counter : Z) (k : nat) : Z := wrap64 (counter + Z.of_nat k).

(** The [stagingId] field of the entry of the wrapper at position [k],
    when it has an entry: the offered id with pending content, the zero
    of [memset] without. *)
Definition recordedId (counter : Z) (k : nat) (v : LockedView) : option Z :=
  if fst v then None
  else Some (match snd v with
             | Some _ => offeredId counter k
             | None => 0
             end).

(** The pending content of the wrapper at position [k] once [commit]
    has gone over it: stamped with the offered id when the wrapper has
    something to commit, left as it was otherwise. *)
Definition stagedContent (STAGING : RecoveryType) (counter : Z) (k : nat) (v : LockedView)
  : option BlobLayer.Temporary :=
  if fst v then snd v
  else BlobLayer.setRecoveryId (STAGING, offeredId counter k) <$> snd v.

(** Where the pending content of a wrapper is after its [commit()]: in
    the callback that took it, or still in the wrapper. *)
Definition heldContent (cb : ApplyCallback) (left : option BlobLayer.Temporary)
  : option BlobLayer.Temporary :=
  match callbackContent cb with
  | Some c => Some c
  | None => left
  end.

(** Scenario S4 of the spec: wrap the object at address 1 and set its
    xattr, then commit while consuming the temporary at address 1. *)
Definition setXattrAndConsume : M JournalLayer.t Transaction.t :=
  do (i, tx) <- Transaction.wrap 1%positive Transaction.new;
  Transaction.commit Sample.STAGING 128 (Some 1%positive)
    (Transaction.onObject i (LockedObject.setXattr 66) tx).

(** A transaction that wraps the object at address 1 and sets its xattr
    (no new content), and wraps the temporary at address 1 and overwrites
    it with new content. *)
Definition xattrThenContent : Transaction.t :=
  Transaction.mk
    [LockedObject.setXattr 66 (LockedObject.mk (Some 1%positive) 0 false false None None)]
    [LockedTemporary.overwrite 67 Sample.fresh_content
       (LockedTemporary.mk (Some 1%positive) 0 false false None None)].

(** The entry types whose target is an object. *)
Definition onObjectTarget (e : JournalEntry.t) : bool :=
  match JournalEntry.type e with
  | JournalEntry.CREATE_OBJECT | JournalEntry.UPDATE_OBJECT
  | JournalEntry.UPDATE_XATTR | JournalEntry.DELETE_OBJECT => true
  | _ => false
  end.

(** ** Mutator calls on a wrapper *)

(** One call of a mutator of [LockedObject]. *)
Inductive Mutation :=
| Overwrite (xattr : Xattr) (content : BlobLayer.Temporary)
| SetXattr (xattr : Xattr)
| Remove.

Definition applyMutation (l : LockedObject.t) (m : Mutation) : LockedObject.t :=
  match m with
  | Overwrite xattr content => LockedObject.overwrite xattr content l
  | SetXattr xattr => LockedObject.setXattr xattr l
  | Remove => LockedObject.remove l
  end.

(** The calls made one after the other. *)
Definition applyMutations (ms : list Mutation) (l : LockedObject.t) : LockedObject.t :=
  fold_left applyMutation ms l.



Definition isRemove (m : Mutation) : bool :=
  match m with Remove => true | _ => false end.

(** The xattr, if any, that the last [overwrite] or [setXattr] of the
    calls passed. *)
Fixpoint lastXattr (ms : list Mutation) (before : option Xattr) : option Xattr :=
  match ms with
  | [] => before
  | Overwrite x _ :: rest | SetXattr x :: rest => lastXattr rest (Some x)
  | Remove :: rest => lastXattr rest before
  end.

(** The content, if any, that the last [overwrite] of the calls passed. *)
Fixpoint lastContent (ms : list Mutation) (before : option BlobLayer.Temporary)
  : option BlobLayer.Temporary :=
  match ms with
  | [] => before
  | Overwrite _ c :: rest => lastContent rest (Some c)
  | _ :: rest => lastContent rest before
  end.

(** The value of a call that returned. *)
Definition returnedValue {S A} (r : Outcome S A) : option A :=
  match r with
  | Returned a _ => Some a
  | _ => None
  end.

(** The members of the journal layer that [commit] leaves to the apply
    phase and to the handles' constructors. *)
Definition blobUntouched (j j' : JournalLayer.t) : Prop :=
  JournalLayer.blobLayer j' = JournalLayer.blobLayer j
  /\ JournalLayer.openObjects j' = JournalLayer.openObjects j.

(** A recovery state holding two recovered temporaries of type 2 and one
    of type 3. *)
Definition recoveryWithTemporaries : Recovery.t :=
  Recovery.mk SampleRecovery.super
    (BlobLayer.mkRecovery ∅ [])
    ∅
    {[ (2%N, 7) := RecoveredTemporary.mk (2%N, 7) 66
                     (BlobLayer.mkRecovered (2%N, 7) 66 [1]);
       (2%N, 9) := RecoveredTemporary.mk (2%N, 9) 67
                     (BlobLayer.mkRecovered (2%N, 9) 67 [2]);
       (3%N, 1) := RecoveredTemporary.mk (3%N, 1) 68
                     (BlobLayer.mkRecovered (3%N, 1) 68 [3]) ]}
    false.

(** * Properties *)

(** ** The decision table of the entry type (C5) *)

Lemma LockedObject_entry_type STAGING stagingId l j a o :
  LockedObject.object l = Some a ->
  JournalLayer.objectStore j !! a = Some o ->
  emittedType (LockedObject.getJournalEntry STAGING stagingId l j) =
    Some (if LockedObject.changeCount l =? 0 then None
          else decisionTable (LockedObject.created l) (LockedObject.removed l)
                 (present (LockedObject.newContent l)) OnObject).
Proof.
  intros Hobj Hlive. unfold LockedObject.getJournalEntry, LockedObject.nothingToCommit.
  destruct l as [ob cc cr rm nx nc]; simpl in *; subst ob.
  destruct (cc =? 0); simpl; [reflexivity|].
  destruct cr, rm; simpl; try reflexivity;
    unfold LockedObject.getXattr; unfold_monad; simpl; rewrite Hlive;
    destruct nx, nc; simpl; try rewrite Hlive; reflexivity.
Qed.

Lemma LockedTemporary_entry_type STAGING stagingId l j a o :
  LockedTemporary.object l = Some a ->
  JournalLayer.temporaryStore j !! a = Some o ->
  emittedType (LockedTemporary.getJournalEntry STAGING stagingId l j) =
    Some (if LockedTemporary.changeCount l =? 0 then None
          else decisionTable (LockedTemporary.created l) (LockedTemporary.removed l)
                 (present (LockedTemporary.newContent l)) OnTemporary).
Proof.
  intros Hobj Hlive.
  unfold LockedTemporary.getJournalEntry, LockedTemporary.nothingToCommit.
  destruct l as [ob cc cr rm nx nc]; simpl in *; subst ob.
  destruct (cc =? 0); simpl; [reflexivity|].
  destruct cr, rm; simpl; try reflexivity;
    unfold LockedTemporary.getXattr; unfold_monad; simpl; rewrite Hlive;
    destruct nx, nc; simpl; try rewrite Hlive; reflexivity.
Qed.

(** What [createObject] returns: the handle it made, locked, and the
    transaction with one more wrapper, created, with a change count of 0. *)
Lemma createObject_inv id xattr content tx j a tx' j' :
  Transaction.createObject id xattr content tx j = Returned (a, tx') j' ->
  tx' = Transaction.mk
          (Transaction.objects tx
           ++ [LockedObject.mk (Some a) 0 true false None (Some content)])
          (Transaction.temporaries tx)
  /\ JournalLayer.objectStore j' !! a
     = Some (Object.mk id None xattr (Some (BlobLayer.temporaryContent content)) 0 true).
Proof.
  unfold Transaction.createObject, Transaction.newObjectHandle, LockedObject.newCreated.
  unfold_monad.
  destruct (JournalLayer.openObjects j !! id) eqn:Hopen; simpl; [discriminate|].
  rewrite lookup_insert_eq. simpl. intros H. inversion H; subst; clear H.
  split; [reflexivity|]. simpl. apply lookup_insert_eq.
Qed.

Lemma createRecoverableTemporary_inv id xattr content tx j a tx' j' :
  Transaction.createRecoverableTemporary id xattr content tx j = Returned (a, tx') j' ->
  tx' = Transaction.mk
          (Transaction.objects tx)
          (Transaction.temporaries tx
           ++ [LockedTemporary.mk (Some a) 0 true false None (Some content)])
  /\ JournalLayer.temporaryStore j' !! a
     = Some (RecoverableTemporary.mk id None xattr
               (Some (BlobLayer.temporaryContent content)) 0 true).
Proof.
  unfold Transaction.createRecoverableTemporary, Transaction.newTemporaryHandle,
    LockedTemporary.newCreated.
  unfold_monad. simpl.
  rewrite lookup_insert_eq. simpl. intros H. inversion H; subst; clear H.
  split; [reflexivity|]. simpl. apply lookup_insert_eq.
Qed.

(** Every entry that [getJournalEntry] does return has the type of the
    decision table. *)
Lemma LockedObject_emitted_type STAGING stagingId l j e l' j' :
  LockedObject.getJournalEntry STAGING stagingId l j = Returned (Some e, l') j' ->
  decisionTable (LockedObject.created l) (LockedObject.removed l)
    (present (LockedObject.newContent l)) OnObject
  = Some (JournalEntry.type e).
Proof.
  unfold LockedObject.getJournalEntry, LockedObject.nothingToCommit.
  destruct l as [ob cc cr rm nx nc]; simpl.
  destruct (cc =? 0); simpl; [discriminate|].
  destruct cr, rm; simpl; try discriminate;
    unfold LockedObject.getXattr; unfold_monad; simpl;
    (destruct ob as [a|]; [|discriminate]);
    (destruct (JournalLayer.objectStore j !! a) as [o|] eqn:Hlive; [|discriminate]);
    destruct nx, nc; simpl; rewrite ?Hlive; intros H; inversion H; reflexivity.
Qed.

Lemma LockedTemporary_emitted_type STAGING stagingId l j e l' j' :
  LockedTemporary.getJournalEntry STAGING stagingId l j = Returned (Some e, l') j' ->
  decisionTable (LockedTemporary.created l) (LockedTemporary.removed l)
    (present (LockedTemporary.newContent l)) OnTemporary
  = Some (JournalEntry.type e).
Proof.
  unfold LockedTemporary.getJournalEntry, LockedTemporary.nothingToCommit.
  destruct l as [ob cc cr rm nx nc]; simpl.
  destruct (cc =? 0); simpl; [discriminate|].
  destruct cr, rm; simpl; try discriminate;
    unfold LockedTemporary.getXattr; unfold_monad; simpl;
    (destruct ob as [a|]; [|discriminate]);
    (destruct (JournalLayer.temporaryStore j !! a) as [o|] eqn:Hlive; [|discriminate]);
    destruct nx, nc; simpl; rewrite ?Hlive; intros H; inversion H; reflexivity.
Qed.

(** C5 (where the code departs from it).  The wrapper that
    [createObject] or [createRecoverableTemporary] adds to the transaction
    is created and not removed, so the decision table has [CreateObject]
    or [CreateTemporary] for it; but its change count is 0 (the
    constructor does not count the creation, and the wrapper is not handed
    to the caller, who gets the handle only and cannot wrap it, the handle
    being locked) and [getJournalEntry] returns no entry for it.  Every entry that [getJournalEntry] does return has
    the type of the decision table, and an overwrite followed by a remove
    on a wrapped existing object emits a [DELETE_OBJECT] entry. *)
Theorem C5_created_wrapper_emits_no_entry :
  forall STAGING stagingId,
    (forall id xattr content tx j a tx' j',
        Transaction.createObject id xattr content tx j = Returned (a, tx') j' ->
        exists l,
          Transaction.objects tx' = Transaction.objects tx ++ [l]
          /\ decisionTable (LockedObject.created l) (LockedObject.removed l)
               (present (LockedObject.newContent l)) OnObject
             = Some JournalEntry.CREATE_OBJECT
          /\ emittedType (LockedObject.getJournalEntry STAGING stagingId l j')
             = Some None
          /\ LockedObject.changeCount l = 0
          /\ forall tx2, Transaction.wrap a tx2 j' = Thrown Conflict j')
    /\ (forall id xattr content tx j a tx' j',
        Transaction.createRecoverableTemporary id xattr content tx j
          = Returned (a, tx') j' ->
        exists l,
          Transaction.temporaries tx' = Transaction.temporaries tx ++ [l]
          /\ decisionTable (LockedTemporary.created l) (LockedTemporary.removed l)
               (present (LockedTemporary.newContent l)) OnTemporary
             = Some JournalEntry.CREATE_TEMPORARY
          /\ emittedType (LockedTemporary.getJournalEntry STAGING stagingId l j')
             = Some None
          /\ LockedTemporary.changeCount l = 0
          /\ forall tx2, Transaction.wrapTemporary a tx2 j' = Thrown Conflict j')
    /\ (forall l j e l' j',
        LockedObject.getJournalEntry STAGING stagingId l j = Returned (Some e, l') j' ->
        decisionTable (LockedObject.created l) (LockedObject.removed l)
          (present (LockedObject.newContent l)) OnObject
        = Some (JournalEntry.type e))
    /\ (forall l j e l' j',
        LockedTemporary.getJournalEntry STAGING stagingId l j = Returned (Some e, l') j' ->
        decisionTable (LockedTemporary.created l) (LockedTemporary.removed l)
          (present (LockedTemporary.newContent l)) OnTemporary
        = Some (JournalEntry.type e))
    /\ (forall j a o xattr content,
        JournalLayer.objectStore j !! a = Some o ->
        emittedType
          (LockedObject.getJournalEntry STAGING stagingId
             (LockedObject.remove
                (LockedObject.overwrite xattr content
                   (LockedObject.mk (Some a) 0 false false None None))) j) =
          Some (Some JournalEntry.DELETE_OBJECT)).
Proof.
  intros STAGING stagingId. split; [|split; [|split; [|split]]].
  - intros id xattr content tx j a tx' j' Hrun.
    apply createObject_inv in Hrun as [-> Hlive].
    eexists. split; [reflexivity|]. split; [reflexivity|]. split; [reflexivity|].
    split; [reflexivity|].
    intros tx2. unfold Transaction.wrap, LockedObject.new. unfold_monad.
    rewrite Hlive. reflexivity.
  - intros id xattr content tx j a tx' j' Hrun.
    apply createRecoverableTemporary_inv in Hrun as [-> Hlive].
    eexists. split; [reflexivity|]. split; [reflexivity|]. split; [reflexivity|].
    split; [reflexivity|].
    intros tx2. unfold Transaction.wrapTemporary, LockedTemporary.new. unfold_monad.
    rewrite Hlive. reflexivity.
  - intros l j e l' j'. apply LockedObject_emitted_type.
  - intros l j e l' j'. apply LockedTemporary_emitted_type.
  - intros j a o xattr content Hlive.
    erewrite LockedObject_entry_type by (simpl; eauto). reflexivity.
Qed.

(** Creating the object 9 in an empty transaction: the table has
    [CreateObject] for the wrapper, [getJournalEntry] returns none. *)
Lemma C5_created_wrapper_witness :
  exists a tx' j',
    Transaction.createObject 9 65 Sample.fresh_content Transaction.new Sample.journal
      = Returned (a, tx') j'
    /\ exists l,
        Transaction.objects tx' = [] ++ [l]
        /\ decisionTable (LockedObject.created l) (LockedObject.removed l)
             (present (LockedObject.newContent l)) OnObject
           = Some JournalEntry.CREATE_OBJECT
        /\ emittedType (LockedObject.getJournalEntry Sample.STAGING 0 l j') = Some None
        /\ LockedObject.changeCount l = 0
        /\ forall tx2, Transaction.wrap a tx2 j' = Thrown Conflict j'.
Proof.
  do 3 eexists. split; [vm_compute; reflexivity|].
  eapply (proj1 (C5_created_wrapper_emits_no_entry Sample.STAGING 0)
            9 65 Sample.fresh_content Transaction.new Sample.journal).
  vm_compute. reflexivity.
Defined.

(** ** Wrappers with nothing to commit (C8) *)

(** C8.  A wrapper with [changeCount = 0], or with [created] and [removed]
    both set, yields no journal entry, and its [commit()] returns the
    callback that does nothing and leaves the whole journal-layer state
    (hence the handle's cached xattr, cached content and generation)
    and the wrapper itself as they were; this holds for [LockedObject] and
    for [LockedTemporary]. *)
Theorem C8_noop_locked_contributes_nothing :
  forall STAGING stagingId (j : JournalLayer.t),
    (forall l,
        LockedObject.changeCount l = 0 \/
        (LockedObject.created l = true /\ LockedObject.removed l = true) ->
        LockedObject.getJournalEntry STAGING stagingId l j = Returned (None, l) j
        /\ LockedObject.commit l j = Returned (NothingToDo, l) j)
    /\ (forall l,
        LockedTemporary.changeCount l = 0 \/
        (LockedTemporary.created l = true /\ LockedTemporary.removed l = true) ->
        LockedTemporary.getJournalEntry STAGING stagingId l j = Returned (None, l) j
        /\ LockedTemporary.commit l j = Returned (NothingToDo, l) j)
    /\ (forall j', JournalLayer.runCallback NothingToDo j' = Returned tt j').
Proof.
  intros STAGING stagingId j. split; [|split].
  - intros l H.
    assert (Hn : LockedObject.nothingToCommit l = true).
    { unfold LockedObject.nothingToCommit.
      destruct H as [H | [H1 H2]]; [rewrite H | rewrite H1, H2]; simpl;
        auto using orb_true_r. }
    unfold LockedObject.getJournalEntry, LockedObject.commit. rewrite Hn. split; reflexivity.
  - intros l H.
    assert (Hn : LockedTemporary.nothingToCommit l = true).
    { unfold LockedTemporary.nothingToCommit.
      destruct H as [H | [H1 H2]]; [rewrite H | rewrite H1, H2]; simpl;
        auto using orb_true_r. }
    unfold LockedTemporary.getJournalEntry, LockedTemporary.commit. rewrite Hn.
    split; reflexivity.
  - reflexivity.
Qed.

Lemma C8_noop_witness :
  let l := LockedObject.remove
             (LockedObject.mk (Some 1%positive) 0 true false None
                              (Some Sample.fresh_content)) in
  LockedObject.getJournalEntry Sample.STAGING 0 l Sample.journal
    = Returned (None, l) Sample.journal
  /\ LockedObject.commit l Sample.journal = Returned (NothingToDo, l) Sample.journal.
Proof.
  apply (proj1 (C8_noop_locked_contributes_nothing Sample.STAGING 0 Sample.journal)).
  right. split; reflexivity.
Defined.

(** ** Generation counters (C7) *)

Lemma wrap64_small z : 0 <= z < 2 ^ 64 -> wrap64 z = z.
Proof. intros H. unfold wrap64. apply Z.mod_small. exact H. Qed.







(** ** Locking (C9) *)

(** [wrap] on a locked handle throws the conflict and changes nothing. *)
Lemma wrap_locked_conflict a tx j o :
  JournalLayer.objectStore j !! a = Some o ->
  Object.locked o = true ->
  Transaction.wrap a tx j = Thrown Conflict j.
Proof.
  intros Hlive Hlocked. unfold Transaction.wrap, LockedObject.new. unfold_monad.
  rewrite Hlive, Hlocked. reflexivity.
Qed.

(** [wrap] on an unlocked handle returns a fresh wrapper and sets the flag. *)
Lemma wrap_unlocked_locks a tx j o :
  JournalLayer.objectStore j !! a = Some o ->
  Object.locked o = false ->
  Transaction.wrap a tx j =
    Returned (length (Transaction.objects tx),
              Transaction.mk
                (Transaction.objects tx ++ [LockedObject.mk (Some a) 0 false false None None])
                (Transaction.temporaries tx))
             (JournalLayer.setObjectStore
                (<[a := Object.setLocked true o]> (JournalLayer.objectStore j)) j).
Proof.
  intros Hlive Hlocked. unfold Transaction.wrap, LockedObject.new. unfold_monad.
  rewrite Hlive, Hlocked. reflexivity.
Qed.

Lemma wrap_conflict_iff a tx j o :
  JournalLayer.objectStore j !! a = Some o ->
  (Transaction.wrap a tx j = Thrown Conflict j <-> Object.locked o = true).
Proof.
  intros Hlive. split.
  - intros Hthrown. destruct (Object.locked o) eqn:Hlocked; [reflexivity|].
    rewrite (wrap_unlocked_locks a tx j o Hlive Hlocked) in Hthrown. discriminate.
  - apply wrap_locked_conflict. exact Hlive.
Qed.

Lemma wrapTemporary_conflict_iff a tx j o :
  JournalLayer.temporaryStore j !! a = Some o ->
  (Transaction.wrapTemporary a tx j = Thrown Conflict j
   <-> RecoverableTemporary.locked o = true).
Proof.
  intros Hlive. unfold Transaction.wrapTemporary, LockedTemporary.new. unfold_monad.
  rewrite Hlive. destruct (RecoverableTemporary.locked o); split; intros H;
    try reflexivity; discriminate.
Qed.

(** Destroying a wrapper that still owns its handle clears the flag. *)
Lemma destroy_unlocks l j a o :
  LockedObject.object l = Some a ->
  JournalLayer.objectStore j !! a = Some o ->
  exists j',
    LockedObject.destroy l j = Returned tt j'
    /\ JournalLayer.objectStore j' !! a = Some (Object.setLocked false o).
Proof.
  intros Hobj Hlive. unfold LockedObject.destroy. unfold_monad. rewrite Hobj, Hlive.
  eexists. split; [reflexivity|]. simpl. apply lookup_insert_eq.
Qed.

(** A wrapper that committed a change no longer owns its handle. *)
Lemma commit_moves_handle_out l j cb l' j' :
  LockedObject.nothingToCommit l = false ->
  LockedObject.commit l j = Returned (cb, l') j' ->
  LockedObject.object l' = None.
Proof.
  intros Hn. unfold LockedObject.commit. rewrite Hn.
  destruct l as [ob cc cr rm nx nc]; simpl.
  unfold LockedObject.getXattr. unfold_monad. simpl.
  destruct ob as [a|]; [|destruct nx; discriminate].
  destruct (JournalLayer.objectStore j !! a) as [o|] eqn:Hlive;
    [|destruct nx; simpl; rewrite ?Hlive; discriminate].
  destruct nx; simpl; rewrite ?Hlive; simpl; rewrite ?lookup_insert_eq;
    destruct cr, rm, nc; simpl; intros H; inversion H; reflexivity.
Qed.

Lemma destroy_moved_out_crashes l j :
  LockedObject.object l = None ->
  LockedObject.destroy l j = Crashed NullDereference.
Proof. intros H. unfold LockedObject.destroy. unfold_monad. rewrite H. reflexivity. Qed.

(** X1.  The part of the locking discipline that holds: [wrap] throws the
    conflict exactly when the handle is locked, and then changes nothing;
    after a successful [wrap] the handle is locked and a second [wrap]
    conflicts; destroying the transaction without committing (abort)
    unlocks the handle, which can then be wrapped again. *)
Theorem wrap_conflicts_iff_locked_and_abort_unlocks :
  forall a j o,
    JournalLayer.objectStore j !! a = Some o ->
    (forall tx, Transaction.wrap a tx j = Thrown Conflict j <-> Object.locked o = true)
    /\ (Object.locked o = false ->
        exists tx1 j1 j2,
          Transaction.wrap a Transaction.new j = Returned (0%nat, tx1) j1
          /\ objectLocked j1 a = Some true
          /\ (forall tx, Transaction.wrap a tx j1 = Thrown Conflict j1)
          /\ Transaction.destroy tx1 j1 = Returned tt j2
          /\ objectLocked j2 a = Some false
          /\ exists tx3 j3, Transaction.wrap a Transaction.new j2 = Returned (0%nat, tx3) j3).
Proof.
  intros a j o Hlive. split.
  - intros tx. apply wrap_conflict_iff. exact Hlive.
  - intros Hunlocked.
    pose (j1 := JournalLayer.setObjectStore
                  (<[a := Object.setLocked true o]> (JournalLayer.objectStore j)) j).
    assert (Hlive1 : JournalLayer.objectStore j1 !! a = Some (Object.setLocked true o))
      by apply lookup_insert_eq.
    destruct (destroy_unlocks (LockedObject.mk (Some a) 0 false false None None)
                j1 a _ eq_refl Hlive1) as (j2 & Hdestroy & Hlive2).
    exists (Transaction.mk [LockedObject.mk (Some a) 0 false false None None] []), j1, j2.
    split; [apply (wrap_unlocked_locks a Transaction.new j o Hlive Hunlocked)|].
    split; [unfold objectLocked; rewrite Hlive1; reflexivity|].
    split; [intros tx; apply (wrap_locked_conflict a tx j1 _ Hlive1); reflexivity|].
    split.
    { unfold Transaction.destroy. simpl. unfold bind at 1. unfold bind at 1.
      rewrite Hdestroy. reflexivity. }
    split; [unfold objectLocked; rewrite Hlive2; reflexivity|].
    do 2 eexists.
    apply (wrap_unlocked_locks a Transaction.new j2 _ Hlive2). reflexivity.
Qed.

Lemma wrap_conflicts_witness :
  (forall tx,
      Transaction.wrap 1%positive tx Sample.journal = Thrown Conflict Sample.journal
      <-> Object.locked Sample.objectY = true)
  /\ (Object.locked Sample.objectY = false ->
      exists tx1 j1 j2,
        Transaction.wrap 1%positive Transaction.new Sample.journal
          = Returned (0%nat, tx1) j1
        /\ objectLocked j1 1%positive = Some true
        /\ (forall tx, Transaction.wrap 1%positive tx j1 = Thrown Conflict j1)
        /\ Transaction.destroy tx1 j1 = Returned tt j2
        /\ objectLocked j2 1%positive = Some false
        /\ exists tx3 j3,
            Transaction.wrap 1%positive Transaction.new j2 = Returned (0%nat, tx3) j3).
Proof.
  apply (wrap_conflicts_iff_locked_and_abort_unlocks 1%positive Sample.journal
           Sample.objectY).
  reflexivity.
Defined.

(** C9 (where the code departs from it).  After wrap, setXattr and
    commit, the wrapper's [object] member has been moved into the apply
    callback: destroying the wrapper dereferences the empty [kj::Own]
    instead of clearing the flag, the handle is still locked, and a new
    [wrap] of it throws the conflict. *)
Theorem C9_destroy_after_commit_does_not_unlock :
  exists tx j',
    wrapSetXattrCommit Sample.journal = Returned tx j'
    /\ Transaction.objects tx
       = [LockedObject.mk None 1 false false (Some 66) None]
    /\ Transaction.destroy tx j' = Crashed NullDereference
    /\ objectLocked j' 1%positive = Some true
    /\ Transaction.wrap 1%positive Transaction.new j' = Thrown Conflict j'.
Proof.
  do 2 eexists. split; [vm_compute; reflexivity|].
  repeat split; vm_compute; reflexivity.
Qed.

(** ** Calls after [finish()] (C10) *)

Lemma finished_call_fails c r :
  Recovery.finished r = true -> call c r = Thrown RequirementFailed r.
Proof.
  intros H. destruct c; simpl;
    unfold Recovery.getObject, Recovery.recoverTemporaries,
      Recovery.commitSavedTransaction, Recovery.finish;
    unfold_monad; rewrite H; reflexivity.
Qed.

Lemma finished_calls_fail calls r :
  Recovery.finished r = true ->
  runCalls calls r = map (fun _ => Thrown RequirementFailed r) calls.
Proof.
  intros H. induction calls as [|c rest IH]; simpl; [reflexivity|].
  rewrite (finished_call_fails c r H). f_equal. exact IH.
Qed.

(** C10.  Once [finish()] has returned, [getObject], [recoverTemporaries],
    [commitSavedTransaction] and [finish] each throw the failed-requirement
    exception and leave the recovery state as it is; so does every call of
    any later sequence of such calls. *)
Theorem C10_calls_after_finish_fail :
  forall r r',
    Recovery.finish r = Returned tt r' ->
    (forall id, Recovery.getObject id r' = Thrown RequirementFailed r')
    /\ (forall type, Recovery.recoverTemporaries type r' = Thrown RequirementFailed r')
    /\ (forall entries,
          Recovery.commitSavedTransaction entries r' = Thrown RequirementFailed r')
    /\ Recovery.finish r' = Thrown RequirementFailed r'
    /\ (forall calls,
          runCalls calls r' = map (fun _ => Thrown RequirementFailed r') calls).
Proof.
  intros r r' Hfinish.
  assert (Hfin : Recovery.finished r' = true).
  { unfold Recovery.finish in Hfinish. unfold_monad.
    destruct (Recovery.finished r); simpl in Hfinish; [discriminate|].
    inversion Hfinish. reflexivity. }
  repeat split.
  - intros id. unfold Recovery.getObject. unfold_monad. rewrite Hfin. reflexivity.
  - intros type. unfold Recovery.recoverTemporaries. unfold_monad. rewrite Hfin.
    reflexivity.
  - intros entries. unfold Recovery.commitSavedTransaction. unfold_monad. rewrite Hfin.
    reflexivity.
  - unfold Recovery.finish. unfold_monad. rewrite Hfin. reflexivity.
  - intros calls. apply finished_calls_fail. exact Hfin.
Qed.

Lemma C10_calls_after_finish_witness :
  (forall id,
      Recovery.getObject id SampleRecovery.finishedState
        = Thrown RequirementFailed SampleRecovery.finishedState)
  /\ (forall type,
      Recovery.recoverTemporaries type SampleRecovery.finishedState
        = Thrown RequirementFailed SampleRecovery.finishedState)
  /\ (forall entries,
      Recovery.commitSavedTransaction entries SampleRecovery.finishedState
        = Thrown RequirementFailed SampleRecovery.finishedState)
  /\ Recovery.finish SampleRecovery.finishedState
       = Thrown RequirementFailed SampleRecovery.finishedState
  /\ (forall calls,
      runCalls calls SampleRecovery.finishedState
        = map (fun _ => Thrown RequirementFailed SampleRecovery.finishedState) calls).
Proof.
  apply (C10_calls_after_finish_fail SampleRecovery.state SampleRecovery.finishedState).
  reflexivity.
Defined.

(** ** The replay walk (C4) *)

Lemma replayAll_app xs ys r :
  Recovery.replayAll (xs ++ ys) r = Recovery.replayAll ys (Recovery.replayAll xs r).
Proof. unfold Recovery.replayAll. apply fold_left_app. Qed.

(** The loop makes exactly the recorded calls. *)
Lemma replayLoop_replayed entries :
  forall expectedTxSize pending r,
    Recovery.replayLoop expectedTxSize pending entries r
    = Recovery.replayAll (replayed expectedTxSize pending entries) r.
Proof.
  induction entries as [|entry rest IH]; intros e pending r; simpl; [reflexivity|].
  destruct ((0 <? e) && negb (JournalEntry.txSize entry =? e)); [reflexivity|].
  destruct (wrap32 (JournalEntry.txSize entry - 1) =? 0).
  - rewrite IH. symmetry. apply replayAll_app.
  - apply IH.
Qed.

Lemma commitSavedTransaction_replayed entries r :
  Recovery.finished r = false ->
  Recovery.commitSavedTransaction entries r
  = Returned tt (Recovery.replayAll (replayed 0 [] entries) r).
Proof.
  intros H. unfold Recovery.commitSavedTransaction. unfold_monad. rewrite H. simpl.
  rewrite replayLoop_replayed. reflexivity.
Qed.

Lemma wrap32_small z : 0 <= z < 2 ^ 32 -> wrap32 z = z.
Proof. intros H. unfold wrap32. apply Z.mod_small. exact H. Qed.

(** A complete transaction met at a transaction boundary, or with the
    expected size it announces, is replayed whole. *)
Lemma replayed_complete t :
  forall expectedTxSize pending rest,
    t <> [] ->
    map JournalEntry.txSize t = countdown (length t) ->
    Z.of_nat (length t) < 2 ^ 32 ->
    expectedTxSize = 0 \/ expectedTxSize = Z.of_nat (length t) ->
    replayed expectedTxSize pending (t ++ rest)
    = (pending ++ t) ++ replayed 0 [] rest.
Proof.
  induction t as [|x t IH]; intros e pending rest Hne Hsizes Hfit He; [congruence|].
  simpl in Hsizes. injection Hsizes as Hx Hrest.
  cbn [app replayed]. rewrite Hx.
  replace ((0 <? e) && negb (Z.of_nat (S (length t)) =? e)) with false.
  2:{ destruct He as [-> | ->]; [reflexivity|]. rewrite Z.eqb_refl, andb_false_r.
      reflexivity. }
  cbn [length] in Hfit.
  rewrite wrap32_small by lia.
  destruct t as [|y t'].
  - change (Z.of_nat (S (length (@nil JournalEntry.t))) - 1) with 0.
    cbn [Z.eqb app]. reflexivity.
  - replace (Z.of_nat (S (length (y :: t'))) - 1 =? 0) with false
      by (symmetry; apply Z.eqb_neq; cbn [length]; lia).
    rewrite IH; try congruence.
    + rewrite <- !app_assoc. reflexivity.
    + lia.
    + right. lia.
Qed.

(** After a zero entry at a transaction boundary the walk expects 2^32-1
    (0 - 1 in 32 bits); the walk then stops at the next entry unless it
    carries exactly that size. *)
Lemma replayed_stops expectedTxSize pending entries :
  0 < expectedTxSize ->
  match entries with
  | [] => True
  | g :: _ => JournalEntry.txSize g <> expectedTxSize
  end ->
  replayed expectedTxSize pending entries = [].
Proof.
  intros Hpos Hbreak. destruct entries as [|g rest]; [reflexivity|]. simpl.
  replace (0 <? expectedTxSize) with true by (symmetry; apply Z.ltb_lt; exact Hpos).
  replace (JournalEntry.txSize g =? expectedTxSize) with false
    by (symmetry; apply Z.eqb_neq; exact Hbreak).
  reflexivity.
Qed.

Lemma replayed_zero_first z rest pending expectedTxSize :
  JournalEntry.txSize z = 0 ->
  expectedTxSize = 0 ->
  replayed expectedTxSize pending (z :: rest)
  = replayed (2 ^ 32 - 1) (pending ++ [z]) rest.
Proof. intros Hz ->. cbn [replayed]. rewrite Hz. reflexivity. Qed.

(** A suffix of entries with [txSize = 0] is never replayed. *)
Lemma replayed_zeros zs pending :
  Forall (fun e => JournalEntry.txSize e = 0) zs ->
  replayed 0 pending zs = [].
Proof.
  intros Hz. destruct zs as [|z rest]; [reflexivity|].
  inversion Hz as [|? ? Hz0 Hrest]; subst.
  rewrite replayed_zero_first by auto.
  apply replayed_stops; [lia|].
  destruct rest as [|z' ?]; [exact I|].
  inversion Hrest as [|? ? Hz' ?]; subst. rewrite Hz'. lia.
Qed.


Lemma zeroed_txSize e : JournalEntry.zeroed e -> JournalEntry.txSize e = 0.
Proof. intros [H _]. exact H. Qed.

Lemma replayed_transactions txs tail :
  Forall completeTransaction txs ->
  replayed 0 [] (concat txs ++ tail) = concat txs ++ replayed 0 [] tail.
Proof.
  induction txs as [|t txs IH]; intros Hall; [reflexivity|].
  inversion Hall as [|? ? (Hne & Hsizes & Hfit) Hrest]; subst.
  cbn [concat]. rewrite <- !app_assoc.
  rewrite replayed_complete by auto. rewrite IH by exact Hrest. reflexivity.
Qed.



Lemma concat_head_txSize txs :
  Forall completeTransaction txs ->
  Forall (fun t => Z.of_nat (length t) < 2 ^ 32 - 1) txs ->
  match concat txs with
  | [] => True
  | g :: _ => JournalEntry.txSize g <> 2 ^ 32 - 1
  end.
Proof.
  intros Hall Hsmall. destruct txs as [|t txs]; [exact I|].
  inversion Hall as [|? ? (Hne & Hsizes & _) _]; subst.
  inversion Hsmall as [|? ? Hlen _]; subst.
  destruct t as [|x t]; [congruence|].
  cbn [concat app]. simpl in Hsizes. injection Hsizes as Hx _.
  rewrite Hx. cbn [length] in Hlen. lia.
Qed.

(** X18.  When the entries that [commitSavedTransaction] has read start
    with one or more all-zero entries and continue with complete
    transactions (each of fewer than 2^32-1 entries), the walk calls
    [replayEntry] on nothing and [commitSavedTransaction] returns the
    state it was given: the first zero entry sets the expected size to
    2^32-1 and the next entry does not match it.  With no zero entry in
    front the transactions are replayed. *)
Theorem leading_zero_entries_halt_the_walk :
  forall (zs : list JournalEntry.t) (txs : list (list JournalEntry.t)),
    Forall JournalEntry.zeroed zs ->
    Forall completeTransaction txs ->
    Forall (fun t => Z.of_nat (length t) < 2 ^ 32 - 1) txs ->
    replayed 0 [] (zs ++ concat txs)
      = match zs with [] => concat txs | _ :: _ => [] end
    /\ forall r,
        Recovery.finished r = false ->
        Recovery.commitSavedTransaction (zs ++ concat txs) r
        = Returned tt match zs with
                      | [] => Recovery.replayAll (concat txs) r
                      | _ :: _ => r
                      end.
Proof.
  intros zs txs Hz Htxs Hsmall.
  assert (Hwalk : replayed 0 [] (zs ++ concat txs)
                  = match zs with [] => concat txs | _ :: _ => [] end).
  { destruct zs as [|z zs].
    - rewrite app_nil_l. rewrite <- (app_nil_r (concat txs)) at 1.
      rewrite replayed_transactions by exact Htxs. apply app_nil_r.
    - inversion Hz as [|? ? Hz0 Hrest]; subst. cbn [app].
      rewrite replayed_zero_first by (auto using zeroed_txSize).
      apply replayed_stops; [lia|].
      destruct zs as [|z' zs].
      + rewrite app_nil_l. apply concat_head_txSize; assumption.
      + inversion Hrest as [|? ? Hz' _]; subst. cbn [app].
        rewrite (zeroed_txSize _ Hz'). lia. }
  split; [exact Hwalk|].
  intros r Hr. rewrite commitSavedTransaction_replayed by exact Hr. rewrite Hwalk.
  destruct zs; reflexivity.
Qed.

Lemma leading_zero_entries_witness :
  replayed 0 [] ([SampleJournal.zeroEntry] ++ concat [[SampleJournal.updateXattr]]) = []
  /\ forall r,
      Recovery.finished r = false ->
      Recovery.commitSavedTransaction
        ([SampleJournal.zeroEntry] ++ concat [[SampleJournal.updateXattr]]) r
      = Returned tt r.
Proof.
  apply (leading_zero_entries_halt_the_walk
           [SampleJournal.zeroEntry] [[SampleJournal.updateXattr]]).
  - constructor; [|constructor]. repeat split.
  - constructor; [|constructor].
    split; [discriminate|]. split; [reflexivity|]. simpl. lia.
  - constructor; [|constructor]. simpl. lia.
Defined.

(** ** Replaying a journal twice (C6) *)


(** The replay of a content-carrying entry leaves its staging temporary
    absent. *)
Lemma replayEntry_consumes e r :
  carriesContent e = true ->
  Recovery.recoveredStaging (Recovery.replayEntry e r) !! JournalEntry.stagingId e = None.
Proof.
  unfold carriesContent. intros Hc. unfold_replay.
  destruct (JournalEntry.type e); try discriminate; simpl;
    destruct (Recovery.recoveredStaging r !! JournalEntry.stagingId e) eqn:Hs; simpl;
    try exact Hs;
    repeat match goal with
           | |- context [match ?x with _ => _ end] => destruct x eqn:?; simpl
           end;
    apply lookup_delete_eq.
Qed.

(** With its staging temporary absent, a content-carrying entry does
    nothing. *)
Lemma replayEntry_absent_noop e r :
  carriesContent e = true ->
  Recovery.recoveredStaging r !! JournalEntry.stagingId e = None ->
  Recovery.replayEntry e r = r.
Proof.
  unfold carriesContent. intros Hc Hs. unfold Recovery.replayEntry.
  destruct (JournalEntry.type e); try discriminate; rewrite Hs; reflexivity.
Qed.










(** ** What [Transaction::commit] writes (C1, C3) *)

Lemma bind_Returned {S A B} (m : M S A) (k : A -> M S B) s b s' :
  bind m k s = Returned b s' ->
  exists a s1, m s = Returned a s1 /\ k a s1 = Returned b s'.
Proof.
  unfold bind. destruct (m s) as [a s1| |]; try discriminate. eauto.
Qed.

Lemma sameJournal_refl j : sameJournal j j.
Proof. repeat split. Qed.

Lemma sameJournal_trans j1 j2 j3 :
  sameJournal j1 j2 -> sameJournal j2 j3 -> sameJournal j1 j3.
Proof.
  intros (A1 & A2 & A3 & A4) (B1 & B2 & B3 & B4).
  repeat split; congruence.
Qed.

(** What [getJournalEntry] returns for an object wrapper: the state is
    untouched, the entry exists exactly when there is something to
    commit, its [txSize] is the zero left by [memset], and the pending
    content of the wrapper carries the staging id it was offered. *)
Lemma LockedObject_getJournalEntry_inv STAGING sid l j e l' j' :
  LockedObject.getJournalEntry STAGING sid l j = Returned (e, l') j' ->
  j' = j
  /\ present e = negb (LockedObject.nothingToCommit l)
  /\ (forall e0, e = Some e0 -> JournalEntry.txSize e0 = 0)
  /\ LockedObject.nothingToCommit l' = LockedObject.nothingToCommit l
  /\ (forall c, LockedObject.nothingToCommit l = false ->
                LockedObject.newContent l' = Some c ->
                BlobLayer.recoveryId c = Some (STAGING, sid)).
Proof.
  unfold LockedObject.getJournalEntry.
  destruct (LockedObject.nothingToCommit l) eqn:Hn.
  - intros H. inversion H; subst. rewrite Hn.
    split; [reflexivity|]. split; [reflexivity|]. split; [discriminate|].
    split; [reflexivity|]. discriminate.
  - destruct l as [ob cc cr rm nx nc]. unfold LockedObject.getXattr. unfold_monad. simpl.
    destruct ob as [a|]; [|discriminate].
    destruct (JournalLayer.objectStore j !! a) as [o|] eqn:Hlive; [|discriminate].
    destruct nx; simpl; rewrite ?Hlive; intros H; inversion H; subst; clear H;
      (split; [reflexivity|]; split; [reflexivity|];
       split; [intros e0 He0; inversion He0; reflexivity|];
       split; [exact Hn|];
       intros c _ Hc; simpl in Hc; destruct nc; inversion Hc; reflexivity).
Qed.

Lemma LockedTemporary_getJournalEntry_inv STAGING sid l j e l' j' :
  LockedTemporary.getJournalEntry STAGING sid l j = Returned (e, l') j' ->
  j' = j
  /\ present e = negb (LockedTemporary.nothingToCommit l)
  /\ (forall e0, e = Some e0 -> JournalEntry.txSize e0 = 0)
  /\ LockedTemporary.nothingToCommit l' = LockedTemporary.nothingToCommit l
  /\ (forall c, LockedTemporary.nothingToCommit l = false ->
                LockedTemporary.newContent l' = Some c ->
                BlobLayer.recoveryId c = Some (STAGING, sid)).
Proof.
  unfold LockedTemporary.getJournalEntry.
  destruct (LockedTemporary.nothingToCommit l) eqn:Hn.
  - intros H. inversion H; subst. rewrite Hn.
    split; [reflexivity|]. split; [reflexivity|]. split; [discriminate|].
    split; [reflexivity|]. discriminate.
  - destruct l as [ob cc cr rm nx nc]. unfold LockedTemporary.getXattr. unfold_monad. simpl.
    destruct ob as [a|]; [|discriminate].
    destruct (JournalLayer.temporaryStore j !! a) as [o|] eqn:Hlive; [|discriminate].
    destruct nx; simpl; rewrite ?Hlive; intros H; inversion H; subst; clear H;
      (split; [reflexivity|]; split; [reflexivity|];
       split; [intros e0 He0; inversion He0; reflexivity|];
       split; [exact Hn|];
       intros c _ Hc; simpl in Hc; destruct nc; inversion Hc; reflexivity).
Qed.

(** What [commit()] of an object wrapper touches: the store of handles
    only; a callback that owns content got it from the wrapper's pending
    content. *)
Lemma LockedObject_commit_inv l j cb l' j' :
  LockedObject.commit l j = Returned (cb, l') j' ->
  sameJournal j j'
  /\ (forall c, callbackContent cb = Some c ->
                LockedObject.nothingToCommit l = false
                /\ LockedObject.newContent l = Some c).
Proof.
  unfold LockedObject.commit.
  destruct (LockedObject.nothingToCommit l) eqn:Hn.
  - intros H. inversion H; subst. split; [apply sameJournal_refl|]. discriminate.
  - destruct l as [ob cc cr rm nx nc]. unfold LockedObject.getXattr. unfold_monad. simpl.
    destruct ob as [a|]; [|destruct nx; discriminate].
    destruct (JournalLayer.objectStore j !! a) as [o|] eqn:Hlive;
      [|destruct nx; simpl; rewrite ?Hlive; discriminate].
    destruct nx; simpl; rewrite ?Hlive; simpl; rewrite ?lookup_insert_eq;
      destruct cr, rm, nc; simpl; intros H; inversion H; subst; clear H;
      (split; [split; [|split; [|split]]; reflexivity|]);
      simpl; intros c0 Hc; inversion Hc; auto.
Qed.

Lemma LockedTemporary_commit_inv l j cb l' j' :
  LockedTemporary.commit l j = Returned (cb, l') j' ->
  sameJournal j j'
  /\ (forall c, callbackContent cb = Some c ->
                LockedTemporary.nothingToCommit l = false
                /\ LockedTemporary.newContent l = Some c).
Proof.
  unfold LockedTemporary.commit.
  destruct (LockedTemporary.nothingToCommit l) eqn:Hn.
  - intros H. inversion H; subst. split; [apply sameJournal_refl|]. discriminate.
  - destruct l as [ob cc cr rm nx nc]. unfold LockedTemporary.getXattr. unfold_monad. simpl.
    destruct ob as [a|]; [|destruct nx; discriminate].
    destruct (JournalLayer.temporaryStore j !! a) as [o|] eqn:Hlive;
      [|destruct nx; simpl; rewrite ?Hlive; discriminate].
    destruct nx; simpl; rewrite ?Hlive; simpl; rewrite ?lookup_insert_eq;
      destruct cr, rm, nc; simpl; intros H; inversion H; subst; clear H;
      (split; [split; [|split; [|split]]; reflexivity|]);
      simpl; intros c0 Hc; inversion Hc; auto.
Qed.

Lemma wrap64_range z : 0 <= wrap64 z < 2 ^ 64.
Proof. unfold wrap64. apply Z.mod_pos_bound. lia. Qed.

Lemma wrap64_succ c (n : nat) :
  wrap64 (wrap64 (c + 1) + Z.of_nat n) = wrap64 (c + Z.of_nat (S n)).
Proof.
  unfold wrap64. rewrite Zplus_mod_idemp_l. f_equal. lia.
Qed.

Lemma buildObjects_inv STAGING objs :
  forall j objs' entries callbacks j',
    0 <= JournalLayer.stagingIdCounter j < 2 ^ 64 ->
    Transaction.buildObjects STAGING objs j = Returned (objs', entries, callbacks) j' ->
    length objs' = length objs
    /\ LoopResult j j' STAGING (length objs)
         (length (filter (fun l => LockedObject.nothingToCommit l = false) objs))
         entries callbacks.
Proof.
  induction objs as [|l rest IH]; intros j objs' entries callbacks j' Hc Hrun.
  - inversion Hrun; subst. split; [reflexivity|].
    constructor; try reflexivity; try constructor.
    + simpl. rewrite Z.add_0_r, wrap64_small by exact Hc. reflexivity.
    + intros k cb c Hk. rewrite lookup_nil in Hk. discriminate.
  - cbn [Transaction.buildObjects] in Hrun.
    apply bind_Returned in Hrun as (sid & j1 & Hsid & Hrun).
    unfold JournalLayer.nextStagingId in Hsid. inversion Hsid; subst sid j1; clear Hsid.
    apply bind_Returned in Hrun as ([e l1] & j2 & Hentry & Hrun).
    apply LockedObject_getJournalEntry_inv in Hentry
      as (-> & Hpresent & Hzero & Hsame & Hstamp).
    apply bind_Returned in Hrun as ([cb l2] & j3 & Hcommit & Hrun).
    apply LockedObject_commit_inv in Hcommit as ((S1 & S2 & S3 & S4) & Hcontent).
    apply bind_Returned in Hrun as ([[rest' es] cbs] & j4 & Hrest & Hrun).
    inversion Hrun; subst; clear Hrun.
    simpl in S1, S2, S3, S4.
    apply IH in Hrest as (Hlen & R); [|rewrite S1; apply wrap64_range].
    destruct R as [R1 R2 R3 R4 R5 R6 R7 R8].
    split; [simpl; congruence|].
    constructor.
    + rewrite R1, S1. cbn [length]. apply wrap64_succ.
    + congruence.
    + congruence.
    + congruence.
    + simpl. congruence.
    + rewrite length_app, R6.
      destruct (LockedObject.nothingToCommit l) eqn:Hn.
      * rewrite filter_cons_False by congruence.
        destruct e; [discriminate Hpresent|]. reflexivity.
      * rewrite filter_cons_True by exact Hn.
        destruct e; [|discriminate Hpresent]. reflexivity.
    + apply Forall_app. split; [|exact R7].
      destruct e as [e0|]; constructor; [auto|constructor].
    + intros k cb0 c Hk Hc0. destruct k as [|k]; simpl in Hk.
      * inversion Hk; subst cb0. destruct (Hcontent c Hc0) as [Hn Hnew].
        rewrite Z.add_0_r, wrap64_small by exact Hc.
        apply Hstamp; [congruence|exact Hnew].
      * rewrite (R8 k cb0 c Hk Hc0), S1. f_equal. f_equal. apply wrap64_succ.
Qed.

Lemma buildTemporaries_inv STAGING temps :
  forall j temps' entries callbacks j',
    0 <= JournalLayer.stagingIdCounter j < 2 ^ 64 ->
    Transaction.buildTemporaries STAGING temps j
      = Returned (temps', entries, callbacks) j' ->
    length temps' = length temps
    /\ LoopResult j j' STAGING (length temps)
         (length (filter (fun l => LockedTemporary.nothingToCommit l = false) temps))
         entries callbacks.
Proof.
  induction temps as [|l rest IH]; intros j temps' entries callbacks j' Hc Hrun.
  - inversion Hrun; subst. split; [reflexivity|].
    constructor; try reflexivity; try constructor.
    + simpl. rewrite Z.add_0_r, wrap64_small by exact Hc. reflexivity.
    + intros k cb c Hk. rewrite lookup_nil in Hk. discriminate.
  - cbn [Transaction.buildTemporaries] in Hrun.
    apply bind_Returned in Hrun as (sid & j1 & Hsid & Hrun).
    unfold JournalLayer.nextStagingId in Hsid. inversion Hsid; subst sid j1; clear Hsid.
    apply bind_Returned in Hrun as ([e l1] & j2 & Hentry & Hrun).
    apply LockedTemporary_getJournalEntry_inv in Hentry
      as (-> & Hpresent & Hzero & Hsame & Hstamp).
    apply bind_Returned in Hrun as ([cb l2] & j3 & Hcommit & Hrun).
    apply LockedTemporary_commit_inv in Hcommit as ((S1 & S2 & S3 & S4) & Hcontent).
    apply bind_Returned in Hrun as ([[rest' es] cbs] & j4 & Hrest & Hrun).
    inversion Hrun; subst; clear Hrun.
    simpl in S1, S2, S3, S4.
    apply IH in Hrest as (Hlen & R); [|rewrite S1; apply wrap64_range].
    destruct R as [R1 R2 R3 R4 R5 R6 R7 R8].
    split; [simpl; congruence|].
    constructor.
    + rewrite R1, S1. cbn [length]. apply wrap64_succ.
    + congruence.
    + congruence.
    + congruence.
    + simpl. congruence.
    + rewrite length_app, R6.
      destruct (LockedTemporary.nothingToCommit l) eqn:Hn.
      * rewrite filter_cons_False by congruence.
        destruct e; [discriminate Hpresent|]. reflexivity.
      * rewrite filter_cons_True by exact Hn.
        destruct e; [|discriminate Hpresent]. reflexivity.
    + apply Forall_app. split; [|exact R7].
      destruct e as [e0|]; constructor; [auto|constructor].
    + intros k cb0 c Hk Hc0. destruct k as [|k]; simpl in Hk.
      * inversion Hk; subst cb0. destruct (Hcontent c Hc0) as [Hn Hnew].
        rewrite Z.add_0_r, wrap64_small by exact Hc.
        apply Hstamp; [congruence|exact Hnew].
      * rewrite (R8 k cb0 c Hk Hc0), S1. f_equal. f_equal. apply wrap64_succ.
Qed.

Lemma buildAndWrite_inv STAGING size tx j tx' j' :
  0 <= JournalLayer.stagingIdCounter j < 2 ^ 64 ->
  Transaction.buildAndWrite STAGING size tx j = Returned tx' j' ->
  length (Transaction.objects tx') = length (Transaction.objects tx)
  /\ length (Transaction.temporaries tx') = length (Transaction.temporaries tx)
  /\ Written STAGING tx j j'.
Proof.
  intros Hc Hrun. unfold Transaction.buildAndWrite in Hrun.
  apply bind_Returned in Hrun as ([[objs es1] cbs1] & j1 & Hobjs & Hrun).
  apply buildObjects_inv in Hobjs as (Hlen1 & [A1 A2 A3 A4 A5 A6 A7 A8]); [|exact Hc].
  apply bind_Returned in Hrun as ([[temps es2] cbs2] & j2 & Htemps & Hrun).
  apply buildTemporaries_inv in Htemps as (Hlen2 & [B1 B2 B3 B4 B5 B6 B7 B8]);
    [|rewrite A1; apply wrap64_range].
  apply bind_Returned in Hrun as (file & j3 & Hfile & Hrun).
  unfold Transaction.derefJournalFile in Hfile.
  destruct (JournalLayer.journalFile j2) as [f|] eqn:Hf; [|discriminate].
  inversion Hfile; subst file j3; clear Hfile.
  unfold_monad. simpl in Hrun. inversion Hrun; subst tx' j'; clear Hrun. simpl.
  split; [exact Hlen1|]. split; [exact Hlen2|].
  constructor; simpl.
  - rewrite B1, A1. unfold wrap64. rewrite Zplus_mod_idemp_l. f_equal. lia.
  - exists f, (es1 ++ es2). split; [congruence|]. split; [f_equal; f_equal; congruence|].
    split; [unfold pendingCount; rewrite length_app; congruence|].
    apply Forall_app. split; assumption.
  - eexists. split; [rewrite B4, A4; reflexivity|]. simpl.
    split; [rewrite length_app; congruence|].
    intros k cb c Hk Hcb.
    destruct (decide (k < length cbs1)%nat) as [Hlt|Hge].
    + rewrite lookup_app_l in Hk by exact Hlt. eapply A8; eassumption.
    + rewrite lookup_app_r in Hk by lia.
      rewrite (B8 _ _ _ Hk Hcb), A1, A5. f_equal. f_equal.
      unfold wrap64. rewrite Zplus_mod_idemp_l. f_equal. lia.
Qed.

Lemma LockedTemporary_new_inv r j w j' :
  LockedTemporary.new r j = Returned w j' ->
  w = LockedTemporary.mk (Some r) 0 false false None None /\ sameJournal j j'.
Proof.
  unfold LockedTemporary.new. unfold_monad.
  destruct (JournalLayer.temporaryStore j !! r) as [o|]; [|discriminate].
  destruct (RecoverableTemporary.locked o); [discriminate|].
  simpl. intros H. inversion H; subst. split; [reflexivity|]. repeat split.
Qed.

Lemma commit_inv STAGING size tempToConsume tx j tx' j' :
  0 <= JournalLayer.stagingIdCounter j < 2 ^ 64 ->
  Transaction.commit STAGING size tempToConsume tx j = Returned tx' j' ->
  Written STAGING (withConsumed tempToConsume tx) j j'.
Proof.
  intros Hc Hrun. unfold Transaction.commit in Hrun.
  apply bind_Returned in Hrun as (tx1 & j1 & Hconsume & Hrun).
  assert (Htx1 : tx1 = withConsumed tempToConsume tx /\ sameJournal j j1).
  { destruct tempToConsume as [r|].
    - apply bind_Returned in Hconsume as (w & j0 & Hnew & Hret).
      apply LockedTemporary_new_inv in Hnew as (-> & Hsame).
      inversion Hret; subst. split; [reflexivity|exact Hsame].
    - inversion Hconsume; subst. split; [reflexivity|apply sameJournal_refl]. }
  destruct Htx1 as (-> & S1 & S2 & S3 & S4).
  unfold abortOnException in Hrun.
  destruct (Transaction.buildAndWrite STAGING size (withConsumed tempToConsume tx) j1)
    as [tx2 j2| |] eqn:Hbuild; try discriminate.
  inversion Hrun; subst tx2 j2; clear Hrun.
  apply buildAndWrite_inv in Hbuild as (_ & _ & [W1 W2 W3]); [|rewrite S1; exact Hc].
  constructor.
  - rewrite W1, S1. reflexivity.
  - destruct W2 as (file & entries & F1 & F2 & F3 & F4).
    exists file, entries. rewrite <- S2, <- S3. auto.
  - destruct W3 as (pending & Q1 & Q2 & Q3).
    exists pending. rewrite <- S4, <- S1. auto.
Qed.

(** Every entry that [commit] appends to the journal has [txSize = 0],
    and there are as many entries as wrappers with something to commit. *)
Lemma commit_appends_zero_txSize STAGING size tempToConsume tx j tx' j' :
  0 <= JournalLayer.stagingIdCounter j < 2 ^ 64 ->
  Transaction.commit STAGING size tempToConsume tx j = Returned tx' j' ->
  exists file entries,
    JournalLayer.journalFile j = Some file
    /\ JournalLayer.journalFile j'
       = Some (file ++ [(JournalLayer.journalPosition j, entries)])
    /\ length entries = pendingCount (withConsumed tempToConsume tx)
    /\ Forall (fun e => JournalEntry.txSize e = 0) entries.
Proof.
  intros Hc Hrun. apply commit_inv in Hrun as [_ W _]; [exact W|exact Hc].
Qed.

(** C1 (where the code departs from it).  The transaction of scenario
    S4 has two wrappers with something to commit; [commit] appends two
    entries, [UpdateXattr] and [DeleteTemporary], but both carry
    [txSize = 0] where the spec has 2 and 1, and the replay walk over
    what was written replays nothing. *)
Theorem C1_commit_leaves_txSize_zero :
  exists tx j' entries,
    setXattrAndConsume Sample.journal = Returned tx j'
    /\ JournalLayer.journalFile j' = Some [(0, entries)]
    /\ map JournalEntry.type entries
       = [JournalEntry.UPDATE_XATTR; JournalEntry.DELETE_TEMPORARY]
    /\ map JournalEntry.txSize entries = [0; 0]
    /\ map JournalEntry.txSize entries <> countdown 2
    /\ replayed 0 [] entries = [].
Proof.
  do 3 eexists. split; [vm_compute; reflexivity|].
  split; [reflexivity|]. split; [reflexivity|]. split; [reflexivity|].
  split; [discriminate|reflexivity].
Qed.

(** The [stagingId] field of the entry that [getJournalEntry] of an
    object wrapper returns, and the pending content it leaves in the
    wrapper. *)
Lemma LockedObject_getJournalEntry_id STAGING sid l j e l' j' :
  LockedObject.getJournalEntry STAGING sid l j = Returned (e, l') j' ->
  JournalEntry.stagingId <$> e
  = (if LockedObject.nothingToCommit l then None
     else Some (match LockedObject.newContent l with Some _ => sid | None => 0 end))
  /\ LockedObject.newContent l'
     = (if LockedObject.nothingToCommit l then LockedObject.newContent l
        else BlobLayer.setRecoveryId (STAGING, sid) <$> LockedObject.newContent l).
Proof.
  unfold LockedObject.getJournalEntry.
  destruct (LockedObject.nothingToCommit l) eqn:Hn.
  - intros H. inversion H; subst. split; reflexivity.
  - destruct l as [ob cc cr rm nx nc]. unfold LockedObject.getXattr. unfold_monad. simpl.
    destruct ob as [a|]; [|discriminate].
    destruct (JournalLayer.objectStore j !! a) as [o|] eqn:Hlive; [|discriminate].
    destruct nx; simpl; rewrite ?Hlive; intros H; inversion H; subst; clear H;
      destruct nc; split; reflexivity.
Qed.

Lemma LockedTemporary_getJournalEntry_id STAGING sid l j e l' j' :
  LockedTemporary.getJournalEntry STAGING sid l j = Returned (e, l') j' ->
  JournalEntry.stagingId <$> e
  = (if LockedTemporary.nothingToCommit l then None
     else Some (match LockedTemporary.newContent l with Some _ => sid | None => 0 end))
  /\ LockedTemporary.newContent l'
     = (if LockedTemporary.nothingToCommit l then LockedTemporary.newContent l
        else BlobLayer.setRecoveryId (STAGING, sid) <$> LockedTemporary.newContent l).
Proof.
  unfold LockedTemporary.getJournalEntry.
  destruct (LockedTemporary.nothingToCommit l) eqn:Hn.
  - intros H. inversion H; subst. split; reflexivity.
  - destruct l as [ob cc cr rm nx nc]. unfold LockedTemporary.getXattr. unfold_monad. simpl.
    destruct ob as [a|]; [|discriminate].
    destruct (JournalLayer.temporaryStore j !! a) as [o|] eqn:Hlive; [|discriminate].
    destruct nx; simpl; rewrite ?Hlive; intros H; inversion H; subst; clear H;
      destruct nc; split; reflexivity.
Qed.

(** [commit()] of a wrapper moves its pending content into the callback
    or leaves it in the wrapper; it does not change it. *)
Lemma LockedObject_commit_held l j cb l' j' :
  LockedObject.commit l j = Returned (cb, l') j' ->
  heldContent cb (LockedObject.newContent l') = LockedObject.newContent l.
Proof.
  unfold LockedObject.commit.
  destruct (LockedObject.nothingToCommit l) eqn:Hn.
  - intros H. inversion H; subst. reflexivity.
  - destruct l as [ob cc cr rm nx nc]. unfold LockedObject.getXattr. unfold_monad. simpl.
    destruct ob as [a|]; [|destruct nx; discriminate].
    destruct (JournalLayer.objectStore j !! a) as [o|] eqn:Hlive;
      [|destruct nx; simpl; rewrite ?Hlive; discriminate].
    destruct nx; simpl; rewrite ?Hlive; simpl; rewrite ?lookup_insert_eq;
      destruct cr, rm, nc; simpl; intros H; inversion H; subst; clear H; reflexivity.
Qed.

Lemma LockedTemporary_commit_held l j cb l' j' :
  LockedTemporary.commit l j = Returned (cb, l') j' ->
  heldContent cb (LockedTemporary.newContent l') = LockedTemporary.newContent l.
Proof.
  unfold LockedTemporary.commit.
  destruct (LockedTemporary.nothingToCommit l) eqn:Hn.
  - intros H. inversion H; subst. reflexivity.
  - destruct l as [ob cc cr rm nx nc]. unfold LockedTemporary.getXattr. unfold_monad. simpl.
    destruct ob as [a|]; [|destruct nx; discriminate].
    destruct (JournalLayer.temporaryStore j !! a) as [o|] eqn:Hlive;
      [|destruct nx; simpl; rewrite ?Hlive; discriminate].
    destruct nx; simpl; rewrite ?Hlive; simpl; rewrite ?lookup_insert_eq;
      destruct cr, rm, nc; simpl; intros H; inversion H; subst; clear H; reflexivity.
Qed.

Lemma offeredId_plus c (n k : nat) :
  offeredId (wrap64 (c + Z.of_nat n)) k = offeredId c (n + k).
Proof.
  unfold offeredId, wrap64. rewrite Zplus_mod_idemp_l. f_equal. lia.
Qed.

Lemma offeredId_0 c : 0 <= c < 2 ^ 64 -> offeredId c 0 = c.
Proof. intros Hc. unfold offeredId. rewrite Z.add_0_r. apply wrap64_small, Hc. Qed.

Lemma imap_recordedId_plus c (n : nat) (vs : list LockedView) :
  imap (recordedId (wrap64 (c + Z.of_nat n))) vs
  = imap (fun k => recordedId c (n + k)) vs.
Proof.
  apply imap_ext. intros k v _. unfold recordedId. rewrite offeredId_plus. reflexivity.
Qed.

Lemma imap_stagedContent_plus STAGING c (n : nat) (vs : list LockedView) :
  imap (stagedContent STAGING (wrap64 (c + Z.of_nat n))) vs
  = imap (fun k => stagedContent STAGING c (n + k)) vs.
Proof.
  apply imap_ext. intros k v _. unfold stagedContent. rewrite offeredId_plus. reflexivity.
Qed.

(** The staging ids recorded and the content stamped by the loop over
    the object wrappers. *)
Lemma buildObjects_ids STAGING objs :
  forall j objs' entries callbacks j',
    0 <= JournalLayer.stagingIdCounter j < 2 ^ 64 ->
    Transaction.buildObjects STAGING objs j = Returned (objs', entries, callbacks) j' ->
    JournalEntry.stagingId <$> entries
    = omap id (imap (recordedId (JournalLayer.stagingIdCounter j)) (objectView <$> objs))
    /\ zip_with heldContent callbacks (snd <$> (objectView <$> objs'))
       = imap (stagedContent STAGING (JournalLayer.stagingIdCounter j))
              (objectView <$> objs).
Proof.
  induction objs as [|l rest IH]; intros j objs' entries callbacks j' Hc Hrun.
  - inversion Hrun; subst. split; reflexivity.
  - cbn [Transaction.buildObjects] in Hrun.
    apply bind_Returned in Hrun as (sid & j1 & Hsid & Hrun).
    unfold JournalLayer.nextStagingId in Hsid. inversion Hsid; subst sid j1; clear Hsid.
    apply bind_Returned in Hrun as ([e l1] & j2 & Hentry & Hrun).
    pose proof (LockedObject_getJournalEntry_id _ _ _ _ _ _ _ Hentry) as [Hid Hstamp].
    apply LockedObject_getJournalEntry_inv in Hentry as (-> & _ & _ & _ & _).
    apply bind_Returned in Hrun as ([cb l2] & j3 & Hcommit & Hrun).
    pose proof (LockedObject_commit_held _ _ _ _ _ Hcommit) as Hheld.
    apply LockedObject_commit_inv in Hcommit as ((S1 & _) & _).
    apply bind_Returned in Hrun as ([[rest' es] cbs] & j4 & Hrest & Hrun).
    inversion Hrun; subst; clear Hrun.
    simpl in S1.
    apply IH in Hrest as [Hids Hcontents]; [|rewrite S1; apply wrap64_range].
    rewrite S1 in Hids, Hcontents.
    split.
    + rewrite fmap_app, Hids. cbn [fmap list_fmap]. rewrite imap_cons.
      cbn [omap list_omap]. unfold recordedId at 2. cbn [fst snd objectView id].
      rewrite offeredId_0 by exact Hc.
      change (wrap64 (JournalLayer.stagingIdCounter j + 1))
        with (wrap64 (JournalLayer.stagingIdCounter j + Z.of_nat 1)).
      rewrite imap_recordedId_plus.
      change (fun k : nat => recordedId (JournalLayer.stagingIdCounter j) (1 + k))
        with (recordedId (JournalLayer.stagingIdCounter j) ∘ S).
      destruct (LockedObject.nothingToCommit l); destruct e as [e0|];
        simpl in Hid; try discriminate; [reflexivity|].
      simpl. f_equal. congruence.
    + cbn [fmap list_fmap zip_with]. rewrite imap_cons. f_equal.
      * unfold stagedContent. cbn [fst snd objectView].
        rewrite offeredId_0 by exact Hc. rewrite Hheld, Hstamp. reflexivity.
      * rewrite Hcontents.
        change (wrap64 (JournalLayer.stagingIdCounter j + 1))
          with (wrap64 (JournalLayer.stagingIdCounter j + Z.of_nat 1)).
        apply imap_stagedContent_plus.
Qed.

Lemma buildTemporaries_ids STAGING temps :
  forall j temps' entries callbacks j',
    0 <= JournalLayer.stagingIdCounter j < 2 ^ 64 ->
    Transaction.buildTemporaries STAGING temps j
      = Returned (temps', entries, callbacks) j' ->
    JournalEntry.stagingId <$> entries
    = omap id (imap (recordedId (JournalLayer.stagingIdCounter j))
                    (temporaryView <$> temps))
    /\ zip_with heldContent callbacks (snd <$> (temporaryView <$> temps'))
       = imap (stagedContent STAGING (JournalLayer.stagingIdCounter j))
              (temporaryView <$> temps).
Proof.
  induction temps as [|l rest IH]; intros j temps' entries callbacks j' Hc Hrun.
  - inversion Hrun; subst. split; reflexivity.
  - cbn [Transaction.buildTemporaries] in Hrun.
    apply bind_Returned in Hrun as (sid & j1 & Hsid & Hrun).
    unfold JournalLayer.nextStagingId in Hsid. inversion Hsid; subst sid j1; clear Hsid.
    apply bind_Returned in Hrun as ([e l1] & j2 & Hentry & Hrun).
    pose proof (LockedTemporary_getJournalEntry_id _ _ _ _ _ _ _ Hentry) as [Hid Hstamp].
    apply LockedTemporary_getJournalEntry_inv in Hentry as (-> & _ & _ & _ & _).
    apply bind_Returned in Hrun as ([cb l2] & j3 & Hcommit & Hrun).
    pose proof (LockedTemporary_commit_held _ _ _ _ _ Hcommit) as Hheld.
    apply LockedTemporary_commit_inv in Hcommit as ((S1 & _) & _).
    apply bind_Returned in Hrun as ([[rest' es] cbs] & j4 & Hrest & Hrun).
    inversion Hrun; subst; clear Hrun.
    simpl in S1.
    apply IH in Hrest as [Hids Hcontents]; [|rewrite S1; apply wrap64_range].
    rewrite S1 in Hids, Hcontents.
    split.
    + rewrite fmap_app, Hids. cbn [fmap list_fmap]. rewrite imap_cons.
      cbn [omap list_omap]. unfold recordedId at 2. cbn [fst snd temporaryView id].
      rewrite offeredId_0 by exact Hc.
      change (wrap64 (JournalLayer.stagingIdCounter j + 1))
        with (wrap64 (JournalLayer.stagingIdCounter j + Z.of_nat 1)).
      rewrite imap_recordedId_plus.
      change (fun k : nat => recordedId (JournalLayer.stagingIdCounter j) (1 + k))
        with (recordedId (JournalLayer.stagingIdCounter j) ∘ S).
      destruct (LockedTemporary.nothingToCommit l); destruct e as [e0|];
        simpl in Hid; try discriminate; [reflexivity|].
      simpl. f_equal. congruence.
    + cbn [fmap list_fmap zip_with]. rewrite imap_cons. f_equal.
      * unfold stagedContent. cbn [fst snd temporaryView].
        rewrite offeredId_0 by exact Hc. rewrite Hheld, Hstamp. reflexivity.
      * rewrite Hcontents.
        change (wrap64 (JournalLayer.stagingIdCounter j + 1))
          with (wrap64 (JournalLayer.stagingIdCounter j + Z.of_nat 1)).
        apply imap_stagedContent_plus.
Qed.

(** The staging ids in the entries that [commit] writes, and where the
    pending content of every wrapper is afterwards. *)
Lemma buildAndWrite_ids STAGING size tx j tx' j' :
  0 <= JournalLayer.stagingIdCounter j < 2 ^ 64 ->
  Transaction.buildAndWrite STAGING size tx j = Returned tx' j' ->
  exists file entries pending,
    JournalLayer.journalFile j = Some file
    /\ JournalLayer.journalFile j'
       = Some (file ++ [(JournalLayer.journalPosition j, entries)])
    /\ JournalEntry.stagingId <$> entries
       = omap id (imap (recordedId (JournalLayer.stagingIdCounter j)) (views tx))
    /\ JournalLayer.writeQueue j' = JournalLayer.writeQueue j ++ [pending]
    /\ zip_with heldContent (JournalLayer.executeCallbacks pending) (snd <$> views tx')
       = imap (stagedContent STAGING (JournalLayer.stagingIdCounter j)) (views tx).
Proof.
  intros Hc Hrun. unfold Transaction.buildAndWrite in Hrun.
  apply bind_Returned in Hrun as ([[objs es1] cbs1] & j1 & Hobjs & Hrun).
  pose proof (buildObjects_ids _ _ _ _ _ _ _ Hc Hobjs) as [Hids1 Hheld1].
  apply buildObjects_inv in Hobjs as (Hlen1 & [A1 A2 A3 A4 A5 A6 A7 A8]); [|exact Hc].
  apply bind_Returned in Hrun as ([[temps es2] cbs2] & j2 & Htemps & Hrun).
  assert (Hc1 : 0 <= JournalLayer.stagingIdCounter j1 < 2 ^ 64)
    by (rewrite A1; apply wrap64_range).
  pose proof (buildTemporaries_ids _ _ _ _ _ _ _ Hc1 Htemps) as [Hids2 Hheld2].
  apply buildTemporaries_inv in Htemps as (Hlen2 & [B1 B2 B3 B4 B5 B6 B7 B8]);
    [|exact Hc1].
  apply bind_Returned in Hrun as (file & j3 & Hfile & Hrun).
  unfold Transaction.derefJournalFile in Hfile.
  destruct (JournalLayer.journalFile j2) as [f|] eqn:Hf; [|discriminate].
  inversion Hfile; subst file j3; clear Hfile.
  unfold_monad. simpl in Hrun. inversion Hrun; subst tx' j'; clear Hrun. simpl.
  rewrite A1 in Hids2, Hheld2.
  rewrite imap_recordedId_plus in Hids2. rewrite imap_stagedContent_plus in Hheld2.
  exists f, (es1 ++ es2). eexists.
  split; [congruence|]. split; [f_equal; f_equal; congruence|].
  unfold views. simpl. split; [|split].
  - rewrite fmap_app, imap_app, omap_app, length_fmap. congruence.
  - rewrite B4, A4. reflexivity.
  - simpl. rewrite fmap_app, imap_app, length_fmap.
    rewrite zip_with_app by (rewrite !length_fmap; congruence).
    congruence.
Qed.

Lemma commit_ids STAGING size tempToConsume tx j tx' j' :
  0 <= JournalLayer.stagingIdCounter j < 2 ^ 64 ->
  Transaction.commit STAGING size tempToConsume tx j = Returned tx' j' ->
  exists file entries pending,
    JournalLayer.journalFile j = Some file
    /\ JournalLayer.journalFile j'
       = Some (file ++ [(JournalLayer.journalPosition j, entries)])
    /\ JournalEntry.stagingId <$> entries
       = omap id (imap (recordedId (JournalLayer.stagingIdCounter j))
                       (views (withConsumed tempToConsume tx)))
    /\ JournalLayer.writeQueue j' = JournalLayer.writeQueue j ++ [pending]
    /\ zip_with heldContent (JournalLayer.executeCallbacks pending) (snd <$> views tx')
       = imap (stagedContent STAGING (JournalLayer.stagingIdCounter j))
              (views (withConsumed tempToConsume tx)).
Proof.
  intros Hc Hrun. unfold Transaction.commit in Hrun.
  apply bind_Returned in Hrun as (tx1 & j1 & Hconsume & Hrun).
  assert (Htx1 : tx1 = withConsumed tempToConsume tx /\ sameJournal j j1).
  { destruct tempToConsume as [r|].
    - apply bind_Returned in Hconsume as (w & j0 & Hnew & Hret).
      apply LockedTemporary_new_inv in Hnew as (-> & Hsame).
      inversion Hret; subst. split; [reflexivity|exact Hsame].
    - inversion Hconsume; subst. split; [reflexivity|apply sameJournal_refl]. }
  destruct Htx1 as (-> & S1 & S2 & S3 & S4).
  unfold abortOnException in Hrun.
  destruct (Transaction.buildAndWrite STAGING size (withConsumed tempToConsume tx) j1)
    as [tx2 j2| |] eqn:Hbuild; try discriminate.
  inversion Hrun; subst tx2 j2; clear Hrun.
  apply buildAndWrite_ids in Hbuild; [|rewrite S1; exact Hc].
  rewrite S1, S2, S3, S4 in Hbuild. exact Hbuild.
Qed.

(** C3 (as amended).  When [commit] returns, [stagingIdCounter] has
    advanced by the number of wrappers of the transaction (the consumed
    temporary included), whether or not they hold new content or have
    anything to commit.  The wrapper at position [k] (objects first, then
    temporaries) was offered the id [counter + k] modulo 2^64.  That id
    is recorded in the entry of the wrapper exactly when the wrapper has
    something to commit and holds new content (an entry without new
    content carries 0, a wrapper with nothing to commit has no entry), and
    it is stamped on the pending content exactly in that case: afterwards
    the content is the one stamped [RecoveryId(STAGING, counter + k)],
    owned by the callback or left in the wrapper, and the content of a
    wrapper with nothing to commit is as it was. *)
Theorem C3_staging_id_advances_for_every_locked :
  forall STAGING size tempToConsume tx j tx' j',
    0 <= JournalLayer.stagingIdCounter j < 2 ^ 64 ->
    Transaction.commit STAGING size tempToConsume tx j = Returned tx' j' ->
    JournalLayer.stagingIdCounter j'
    = wrap64 (JournalLayer.stagingIdCounter j
              + Z.of_nat (length (Transaction.objects (withConsumed tempToConsume tx))
                          + length (Transaction.temporaries
                                      (withConsumed tempToConsume tx))))
    /\ (exists file entries,
          JournalLayer.journalFile j = Some file
          /\ JournalLayer.journalFile j'
             = Some (file ++ [(JournalLayer.journalPosition j, entries)])
          /\ JournalEntry.stagingId <$> entries
             = omap id (imap (recordedId (JournalLayer.stagingIdCounter j))
                             (views (withConsumed tempToConsume tx))))
    /\ exists pending,
        JournalLayer.writeQueue j' = JournalLayer.writeQueue j ++ [pending]
        /\ length (JournalLayer.executeCallbacks pending)
           = (length (Transaction.objects (withConsumed tempToConsume tx))
              + length (Transaction.temporaries (withConsumed tempToConsume tx)))%nat
        /\ zip_with heldContent (JournalLayer.executeCallbacks pending)
             (snd <$> views tx')
           = imap (stagedContent STAGING (JournalLayer.stagingIdCounter j))
                  (views (withConsumed tempToConsume tx))
        /\ forall (k : nat) cb c,
            JournalLayer.executeCallbacks pending !! k = Some cb ->
            callbackContent cb = Some c ->
            BlobLayer.recoveryId c
            = Some (STAGING, offeredId (JournalLayer.stagingIdCounter j) k).
Proof.
  intros STAGING size tempToConsume tx j tx' j' Hc Hrun.
  destruct (commit_ids _ _ _ _ _ _ _ Hc Hrun)
    as (file & entries & pending & F1 & F2 & Hids & Q1 & Hheld).
  apply commit_inv in Hrun as [W1 _ W3]; [|exact Hc].
  split; [exact W1|]. split; [exists file, entries; auto|].
  destruct W3 as (pending' & Q1' & Q2 & Q3).
  assert (pending' = pending) as ->.
  { rewrite Q1 in Q1'. apply app_inj_tail in Q1' as [_ ?]. congruence. }
  exists pending. split; [exact Q1|]. split; [exact Q2|]. split; [exact Hheld|].
  exact Q3.
Qed.

Lemma C3_staging_id_witness :
  exists tx' j',
    Transaction.commit Sample.STAGING 128 None xattrThenContent Sample.journal
      = Returned tx' j'
    /\ JournalLayer.stagingIdCounter j' = wrap64 (0 + Z.of_nat (1 + 1))
    /\ (exists file entries,
          JournalLayer.journalFile Sample.journal = Some file
          /\ JournalLayer.journalFile j' = Some (file ++ [(0, entries)])
          /\ JournalEntry.stagingId <$> entries
             = omap id (imap (recordedId 0) (views xattrThenContent)))
    /\ exists pending,
        JournalLayer.writeQueue j' = [] ++ [pending]
        /\ length (JournalLayer.executeCallbacks pending) = (1 + 1)%nat
        /\ zip_with heldContent (JournalLayer.executeCallbacks pending)
             (snd <$> views tx')
           = imap (stagedContent Sample.STAGING 0) (views xattrThenContent)
        /\ forall (k : nat) cb c,
            JournalLayer.executeCallbacks pending !! k = Some cb ->
            callbackContent cb = Some c ->
            BlobLayer.recoveryId c = Some (Sample.STAGING, offeredId 0 k).
Proof.
  do 2 eexists. split; [vm_compute; reflexivity|].
  eapply (C3_staging_id_advances_for_every_locked
            Sample.STAGING 128 None xattrThenContent Sample.journal).
  - simpl. lia.
  - vm_compute. reflexivity.
Defined.

(** In a journal whose [stagingIdCounter] is 0, the transaction
    [xattrThenContent] stages one piece of content.  The spec
    has it stamped with staging id 0 and one id consumed; [commit] stamps
    it with id 1, records 1 in its entry, and leaves the counter at 2. *)
Lemma C3_counterexample_id_consumed_without_content :
  exists tx' j' c,
    JournalLayer.stagingIdCounter Sample.journal = 0
    /\ Transaction.commit Sample.STAGING 128 None xattrThenContent Sample.journal
       = Returned tx' j'
    /\ JournalLayer.stagingIdCounter j' = 2
    /\ JournalLayer.executeCallbacks <$> JournalLayer.writeQueue j'
       = [[ApplySetObjectXattr 1%positive 66; ApplyOverwriteTemporary 1%positive c 67]]
    /\ BlobLayer.recoveryId c = Some (Sample.STAGING, 1)
    /\ map (fun w => map JournalEntry.stagingId (snd w))
         <$> JournalLayer.journalFile j'
       = Some [[0; 1]].
Proof.
  do 3 eexists. split; [reflexivity|].
  split; [vm_compute; reflexivity|].
  split; [reflexivity|]. split; [reflexivity|]. split; reflexivity.
Qed.

(** ** Further properties of the replay walk and of [replayEntry] *)

Lemma replayed_prefix_of_window entries :
  forall expectedTxSize pending,
    exists rest, pending ++ entries = replayed expectedTxSize pending entries ++ rest.
Proof.
  induction entries as [|entry rest IH]; intros e pending; cbn [replayed].
  - exists pending. rewrite app_nil_r. reflexivity.
  - destruct ((0 <? e) && negb (JournalEntry.txSize entry =? e)).
    + exists (pending ++ entry :: rest). reflexivity.
    + destruct (wrap32 (JournalEntry.txSize entry - 1) =? 0).
      * destruct (IH (wrap32 (JournalEntry.txSize entry - 1)) []) as (tl & Htl).
        exists tl. rewrite <- !app_assoc. cbn [app] in *. rewrite <- Htl. reflexivity.
      * destruct (IH (wrap32 (JournalEntry.txSize entry - 1)) (pending ++ [entry]))
          as (tl & Htl).
        exists tl. rewrite <- Htl, <- app_assoc. reflexivity.
Qed.

Lemma replayed_ends_at_boundary entries :
  forall expectedTxSize pending,
    replayed expectedTxSize pending entries = [] \/
    exists front closing,
      replayed expectedTxSize pending entries = front ++ [closing]
      /\ wrap32 (JournalEntry.txSize closing - 1) = 0.
Proof.
  induction entries as [|entry rest IH]; intros e pending; cbn [replayed].
  - left. reflexivity.
  - destruct ((0 <? e) && negb (JournalEntry.txSize entry =? e)); [left; reflexivity|].
    destruct (Z.eqb_spec (wrap32 (JournalEntry.txSize entry - 1)) 0) as [Hz|Hnz].
    + right. destruct (IH (wrap32 (JournalEntry.txSize entry - 1)) [])
        as [Hnil | (front & closing & Heq & Hclose)].
      * exists pending, entry. rewrite Hnil, app_nil_r. auto.
      * exists ((pending ++ [entry]) ++ front), closing.
        rewrite Heq, app_assoc. auto.
    + apply IH.
Qed.

(** X2.  Whatever the journal holds, [commitSavedTransaction] replays a
    prefix of it, entry by entry in journal order (it never skips or
    reorders an entry), and the prefix is empty or ends with an entry that
    closes a transaction ([txSize - 1 = 0] in 32 bits). *)
Theorem replay_applies_a_prefix_of_the_journal :
  forall entries : list JournalEntry.t,
    (exists rest, entries = replayed 0 [] entries ++ rest)
    /\ (replayed 0 [] entries = [] \/
        exists front closing,
          replayed 0 [] entries = front ++ [closing]
          /\ wrap32 (JournalEntry.txSize closing - 1) = 0)
    /\ (forall r,
          Recovery.finished r = false ->
          Recovery.commitSavedTransaction entries r
          = Returned tt (Recovery.replayAll (replayed 0 [] entries) r)).
Proof.
  intros entries. split; [|split].
  - destruct (replayed_prefix_of_window entries 0 []) as (rest & H).
    exists rest. exact H.
  - apply replayed_ends_at_boundary.
  - intros r Hr. apply commitSavedTransaction_replayed. exact Hr.
Qed.

Lemma recovery_eq (r1 r2 : Recovery.t) :
  Recovery.super r1 = Recovery.super r2 ->
  Recovery.blobLayerRecovery r1 = Recovery.blobLayerRecovery r2 ->
  Recovery.recoveredStaging r1 = Recovery.recoveredStaging r2 ->
  Recovery.recoveredTemporaries r1 = Recovery.recoveredTemporaries r2 ->
  Recovery.finished r1 = Recovery.finished r2 ->
  r1 = r2.
Proof. destruct r1, r2; simpl; intros; subst; reflexivity. Qed.

(** X3.  Replaying one entry twice in a row gives the state of replaying
    it once, for every entry type and every recovery state. *)
Theorem replayEntry_twice_is_once :
  forall (entry : JournalEntry.t) (r : Recovery.t),
    Recovery.replayEntry entry (Recovery.replayEntry entry r)
    = Recovery.replayEntry entry r.
Proof.
  intros entry r.
  destruct (carriesContent entry) eqn:Hc.
  - apply replayEntry_absent_noop; [exact Hc|]. apply replayEntry_consumes, Hc.
  - unfold carriesContent in Hc. unfold Recovery.replayEntry.
    unfold Recovery.setBlobLayerRecovery, Recovery.setRecoveredTemporaries,
      BlobLayer.recoverySetXattr, BlobLayer.recoveryRemove, BlobLayer.getObject.
    destruct (JournalEntry.type entry) eqn:Ht; try discriminate.
    + (* UPDATE_XATTR *)
      destruct (BlobLayer.recoveredObjects (Recovery.blobLayerRecovery r)
                  !! JournalEntry.id (JournalEntry.object entry)) as [o|] eqn:Ho;
        simpl; [|rewrite Ho; reflexivity].
      rewrite lookup_alter_eq, Ho. simpl.
      apply recovery_eq; simpl; try reflexivity. f_equal.
      rewrite alter_alter_eq. apply alter_ext. reflexivity.
    + (* DELETE_OBJECT *)
      destruct (BlobLayer.recoveredObjects (Recovery.blobLayerRecovery r)
                  !! JournalEntry.id (JournalEntry.object entry)) as [o|] eqn:Ho;
        simpl; [|rewrite Ho; reflexivity].
      rewrite lookup_delete_eq. reflexivity.
    + (* UPDATE_TEMPORARY_XATTR *)
      destruct (Recovery.recoveredTemporaries r
                  !! JournalEntry.tid (JournalEntry.temporary entry)) as [t|] eqn:Hl;
        simpl; [|rewrite Hl; reflexivity].
      rewrite lookup_insert_eq.
      apply recovery_eq; simpl; try reflexivity.
      rewrite insert_insert_eq. reflexivity.
    + (* DELETE_TEMPORARY *)
      simpl. apply recovery_eq; simpl; try reflexivity.
      apply delete_delete_eq.
Qed.

(** X4.  What [replayEntry] never touches: the inherited journal-layer
    members and the [finished] flag, for every entry; the recovered
    temporaries, for an entry on an object; the blob layer's objects, for
    an entry on a temporary; and the staging map, for an entry that carries
    no content. *)
Theorem replayEntry_frame :
  forall (entry : JournalEntry.t) (r : Recovery.t),
    Recovery.super (Recovery.replayEntry entry r) = Recovery.super r
    /\ Recovery.finished (Recovery.replayEntry entry r) = Recovery.finished r
    /\ (onObjectTarget entry = true ->
        Recovery.recoveredTemporaries (Recovery.replayEntry entry r)
        = Recovery.recoveredTemporaries r)
    /\ (onObjectTarget entry = false ->
        Recovery.blobLayerRecovery (Recovery.replayEntry entry r)
        = Recovery.blobLayerRecovery r)
    /\ (carriesContent entry = false ->
        Recovery.recoveredStaging (Recovery.replayEntry entry r)
        = Recovery.recoveredStaging r).
Proof.
  intros entry r. unfold onObjectTarget, carriesContent. unfold_replay.
  destruct (JournalEntry.type entry); simpl;
    repeat match goal with
           | |- context [match ?x with _ => _ end] => destruct x eqn:?; simpl
           end;
    repeat split; intros; try reflexivity; discriminate.
Qed.

(** ** Further properties of [Recovery::getObject] and [recoverTemporaries] *)

(** [getObject] of an id that is not open but on disk returns a new
    handle that carries the id and the xattr read from the blob layer. *)
Lemma getObject_from_disk (id : ObjectId) (r : Recovery.t) o :
  Recovery.finished r = false ->
  JournalLayer.openObjects (Recovery.super r) !! id = None ->
  BlobLayer.getObject id (Recovery.blobLayerRecovery r) = Some o ->
  exists a r1,
    Recovery.getObject id r = Returned (Some a) r1
    /\ JournalLayer.objectStore (Recovery.super r1) !! a
       = Some (Object.mk id (Some id) (BlobLayer.xattr o) None 0 false).
Proof.
  intros Hfin Hclosed Hdisk. do 2 eexists. split.
  - unfold Recovery.getObject. unfold_monad.
    rewrite Hfin. simpl. rewrite Hclosed, Hdisk. reflexivity.
  - simpl. apply lookup_insert_eq.
Qed.

(** X5.  During recovery, [getObject] of an id that is neither open nor
    on disk returns nothing and changes nothing; for an object on disk it
    creates one handle at a fresh address (unlocked, generation 0, xattr
    read from the blob layer), registers it in [openObjects], leaves every
    other registration, every other handle and the recovery maps alone, and
    a second [getObject] of the same id returns that same handle without
    changing the state. *)
Theorem getObject_opens_one_handle_per_id :
  forall (id : ObjectId) (r : Recovery.t),
    Recovery.finished r = false ->
    JournalLayer.openObjects (Recovery.super r) !! id = None ->
    (BlobLayer.getObject id (Recovery.blobLayerRecovery r) = None ->
     Recovery.getObject id r = Returned None r)
    /\ (forall o,
        BlobLayer.getObject id (Recovery.blobLayerRecovery r) = Some o ->
        exists a r1,
          Recovery.getObject id r = Returned (Some a) r1
          /\ JournalLayer.objectStore (Recovery.super r) !! a = None
          /\ JournalLayer.objectStore (Recovery.super r1) !! a
             = Some (Object.mk id (Some id) (BlobLayer.xattr o) None 0 false)
          /\ JournalLayer.openObjects (Recovery.super r1) !! id = Some a
          /\ (forall i, i <> id ->
                JournalLayer.openObjects (Recovery.super r1) !! i
                = JournalLayer.openObjects (Recovery.super r) !! i)
          /\ (forall b, b <> a ->
                JournalLayer.objectStore (Recovery.super r1) !! b
                = JournalLayer.objectStore (Recovery.super r) !! b)
          /\ Recovery.blobLayerRecovery r1 = Recovery.blobLayerRecovery r
          /\ Recovery.recoveredStaging r1 = Recovery.recoveredStaging r
          /\ Recovery.recoveredTemporaries r1 = Recovery.recoveredTemporaries r
          /\ Recovery.getObject id r1 = Returned (Some a) r1).
Proof.
  intros id r Hfin Hclosed. split.
  - intros Hmissing. unfold Recovery.getObject. unfold_monad.
    rewrite Hfin. simpl. rewrite Hclosed, Hmissing. reflexivity.
  - intros o Hdisk.
    set (a := fresh (dom (JournalLayer.objectStore (Recovery.super r)))).
    assert (Hfresh : JournalLayer.objectStore (Recovery.super r) !! a = None).
    { apply not_elem_of_dom. apply is_fresh. }
    eexists a, _. split.
    { unfold Recovery.getObject. unfold_monad.
      rewrite Hfin. simpl. rewrite Hclosed, Hdisk. reflexivity. }
    simpl. split; [exact Hfresh|]. split; [apply lookup_insert_eq|].
    split; [apply lookup_insert_eq|].
    split; [intros i Hi; apply lookup_insert_ne; intros Heq; apply Hi; symmetry;
            exact Heq|].
    split; [intros b Hb; apply lookup_insert_ne; intros Heq; apply Hb; symmetry;
            exact Heq|].
    repeat (split; [reflexivity|]).
    unfold Recovery.getObject. unfold_monad. simpl. rewrite Hfin. simpl.
    rewrite lookup_insert_eq. reflexivity.
Qed.

Lemma getObject_witness :
  (BlobLayer.getObject 1 (Recovery.blobLayerRecovery SampleRecovery.state) = None ->
     Recovery.getObject 1 SampleRecovery.state = Returned None SampleRecovery.state)
  /\ (forall o,
      BlobLayer.getObject 1 (Recovery.blobLayerRecovery SampleRecovery.state) = Some o ->
      exists a r1,
        Recovery.getObject 1 SampleRecovery.state = Returned (Some a) r1
        /\ JournalLayer.objectStore (Recovery.super SampleRecovery.state) !! a = None
        /\ JournalLayer.objectStore (Recovery.super r1) !! a
           = Some (Object.mk 1 (Some 1) (BlobLayer.xattr o) None 0 false)
        /\ JournalLayer.openObjects (Recovery.super r1) !! 1 = Some a
        /\ (forall i, i <> 1 ->
              JournalLayer.openObjects (Recovery.super r1) !! i
              = JournalLayer.openObjects (Recovery.super SampleRecovery.state) !! i)
        /\ (forall b, b <> a ->
              JournalLayer.objectStore (Recovery.super r1) !! b
              = JournalLayer.objectStore (Recovery.super SampleRecovery.state) !! b)
        /\ Recovery.blobLayerRecovery r1 = Recovery.blobLayerRecovery SampleRecovery.state
        /\ Recovery.recoveredStaging r1 = Recovery.recoveredStaging SampleRecovery.state
        /\ Recovery.recoveredTemporaries r1
           = Recovery.recoveredTemporaries SampleRecovery.state
        /\ Recovery.getObject 1 r1 = Returned (Some a) r1).
Proof.
  apply (getObject_opens_one_handle_per_id 1 SampleRecovery.state); reflexivity.
Defined.

Lemma recoveryIdLeb_total (a b : RecoveryId) :
  Recovery.recoveryIdLeb a b = true \/ Recovery.recoveryIdLeb b a = true.
Proof.
  unfold Recovery.recoveryIdLeb. destruct a as [ta ia], b as [tb ib]. simpl.
  destruct (N.ltb_spec ta tb); [left; reflexivity|].
  destruct (N.ltb_spec tb ta); [right; reflexivity|].
  assert (ta = tb) by lia. subst tb. rewrite N.eqb_refl. simpl.
  destruct (Z.leb_spec ia ib); [left; reflexivity|].
  right. apply Z.leb_le. lia.
Qed.

Lemma recoveryIdLeb_trans (a b c : RecoveryId) :
  Recovery.recoveryIdLeb a b = true -> Recovery.recoveryIdLeb b c = true ->
  Recovery.recoveryIdLeb a c = true.
Proof.
  unfold Recovery.recoveryIdLeb. destruct a as [ta ia], b as [tb ib], c as [tc ic]. simpl.
  rewrite !orb_true_iff, !andb_true_iff, !N.ltb_lt, !N.eqb_eq, !Z.leb_le. lia.
Qed.

(** Within one recovery type the order of the keys is the order of their
    numbers. *)
Lemma recoveryIdLeb_same_type type (i i' : Z) :
  Recovery.recoveryIdLeb (type, i) (type, i') = true -> i <= i'.
Proof.
  unfold Recovery.recoveryIdLeb. simpl.
  rewrite orb_true_iff, andb_true_iff, N.ltb_lt, Z.leb_le. lia.
Qed.

#[local] Instance entryLe_total : Total Recovery.entryLe.
Proof. intros x y. apply recoveryIdLeb_total. Qed.

#[local] Instance entryLe_trans : Transitive Recovery.entryLe.
Proof. intros x y z. apply recoveryIdLeb_trans. Qed.

Lemma elem_of_inKeyOrder m k t :
  (k, t) ∈ Recovery.inKeyOrder m <-> m !! k = Some t.
Proof.
  unfold Recovery.inKeyOrder. rewrite merge_sort_Permutation.
  apply elem_of_map_to_list.
Qed.

Lemma NoDup_fst_inKeyOrder m : NoDup (Recovery.inKeyOrder m).*1.
Proof.
  unfold Recovery.inKeyOrder. rewrite merge_sort_Permutation.
  apply NoDup_fst_map_to_list.
Qed.

(** A list of entries of one recovery type that is in key order and
    holds no key twice has its numbers strictly ascending. *)
Lemma sorted_entries_ascending type (entries : list (RecoveryId * RecoveredTemporary.t)) :
  StronglySorted Recovery.entryLe entries ->
  NoDup entries.*1 ->
  Forall (fun kt => fst (fst kt) = type) entries ->
  StronglySorted Z.lt ((fun kt => snd (fst kt)) <$> entries).
Proof.
  induction 1 as [|[[tx ix] vx] rest Hsorted IH Hhead]; intros Hnodup Htype.
  - constructor.
  - simpl in *. apply NoDup_cons in Hnodup as [Hfresh Hnodup].
    apply Forall_cons in Htype as [Hx Htype]. simpl in Hx. subst tx.
    constructor; [apply IH; assumption|].
    apply Forall_fmap. apply Forall_forall. intros [[ty iy] vy] Hy. simpl.
    pose proof (proj1 (Forall_forall _ _) Htype _ Hy) as Hty. simpl in Hty. subst ty.
    pose proof (proj1 (Forall_forall _ _) Hhead _ Hy) as Hle.
    apply recoveryIdLeb_same_type in Hle.
    assert (ix <> iy).
    { intros ->. apply Hfresh. apply list_elem_of_fmap.
      exists (type, iy, vy). split; [reflexivity|exact Hy]. }
    lia.
Qed.

(** In the order of the keys, the entries of one recovery type are the
    range between the two [lower_bound] calls of [recoverTemporaries]:
    from the first key not below [RecoveryId(type, 0)] up to the first key
    not below [RecoveryId(type + 1, 0)]. *)
Lemma inRange_between_lower_bounds (type : RecoveryType) (k : RecoveryId) :
  0 <= snd k ->
  Recovery.inRange type k = true
  <-> Recovery.recoveryIdLeb (type, 0) k = true
      /\ Recovery.recoveryIdLeb (N.succ type, 0) k = false.
Proof.
  intros Hid. unfold Recovery.inRange, Recovery.recoveryIdLeb.
  destruct k as [t i]. simpl in *.
  rewrite bool_decide_eq_true, orb_true_iff, orb_false_iff, andb_true_iff,
    andb_false_iff, N.ltb_lt, N.ltb_ge, N.eqb_eq, N.eqb_neq, Z.leb_le, Z.leb_gt.
  lia.
Qed.

(** X6.  [recoverTemporaries(type)] hands out the recovered temporaries
    whose recovery type is [type], each once and in the ascending order
    of their numbers, removes them from the map and keeps every other
    entry; asking again for the same type returns nothing. *)
Theorem recoverTemporaries_drains_one_type :
  forall (type : RecoveryType) (r : Recovery.t),
    Recovery.finished r = false ->
    exists results r1,
      Recovery.recoverTemporaries type r = Returned results r1
      /\ (exists ids : list Z,
            StronglySorted Z.lt ids
            /\ (forall i, i ∈ ids <->
                          is_Some (Recovery.recoveredTemporaries r !! (type, i)))
            /\ Forall2 (fun i t => Recovery.recoveredTemporaries r !! (type, i) = Some t)
                 ids results)
      /\ (forall k, fst k = type -> Recovery.recoveredTemporaries r1 !! k = None)
      /\ (forall k, fst k <> type ->
                    Recovery.recoveredTemporaries r1 !! k
                    = Recovery.recoveredTemporaries r !! k)
      /\ Recovery.recoverTemporaries type r1 = Returned [] r1.
Proof.
  intros type r Hfin. do 2 eexists. split.
  { unfold Recovery.recoverTemporaries. unfold_monad. rewrite Hfin. reflexivity. }
  simpl. split; [|split; [|split]].
  - set (drained := filter (fun kv : RecoveryId * RecoveredTemporary.t =>
                              Recovery.inRange type (fst kv) = true)
                           (Recovery.recoveredTemporaries r)).
    assert (Hin : forall k t, (k, t) ∈ Recovery.inKeyOrder drained <->
                    fst k = type /\ Recovery.recoveredTemporaries r !! k = Some t).
    { intros k t. rewrite elem_of_inKeyOrder. unfold drained.
      rewrite map_lookup_filter_Some. simpl. unfold Recovery.inRange.
      rewrite bool_decide_eq_true. tauto. }
    exists ((fun kt => snd (fst kt)) <$> Recovery.inKeyOrder drained).
    split; [|split].
    + apply sorted_entries_ascending with (type := type).
      * apply StronglySorted_merge_sort; apply _.
      * apply NoDup_fst_inKeyOrder.
      * apply Forall_forall. intros [k t] Hkt. apply Hin in Hkt. tauto.
    + intros i. rewrite list_elem_of_fmap. split.
      * intros ([[ty i'] t] & -> & Hkt). apply Hin in Hkt as [Hty Hk].
        simpl in *. subst ty. eauto.
      * intros [t Hk]. exists (type, i, t). split; [reflexivity|].
        apply Hin. auto.
    + apply Forall2_fmap. apply Forall_Forall2_diag.
      apply Forall_forall. intros [[ty i] t] Hkt. apply Hin in Hkt as [Hty Hk].
      simpl in *. subst ty. exact Hk.
  - intros k Hty. apply map_lookup_filter_None. right. intros t _. simpl.
    unfold Recovery.inRange. rewrite bool_decide_eq_true_2 by exact Hty. discriminate.
  - intros k Hty.
    destruct (Recovery.recoveredTemporaries r !! k) as [t|] eqn:Hk.
    + apply map_lookup_filter_Some. split; [exact Hk|]. simpl.
      unfold Recovery.inRange. apply bool_decide_eq_false. exact Hty.
    + apply map_lookup_filter_None. left. exact Hk.
  - unfold Recovery.recoverTemporaries. unfold_monad. simpl. rewrite Hfin. simpl.
    unfold Recovery.setRecoveredTemporaries. simpl.
    set (m1 := filter (fun kv : RecoveryId * RecoveredTemporary.t =>
                         Recovery.inRange type (fst kv) = false)
                      (Recovery.recoveredTemporaries r)).
    assert (Hkept : forall k t, m1 !! k = Some t -> Recovery.inRange type k = false).
    { intros k t Hk. apply map_lookup_filter_Some in Hk as [_ H]. exact H. }
    replace (filter (fun kv : RecoveryId * RecoveredTemporary.t =>
                       Recovery.inRange type (fst kv) = true) m1)
      with (∅ : gmap RecoveryId RecoveredTemporary.t).
    2:{ symmetry. apply map_empty. intros k. apply map_lookup_filter_None. right.
        intros t Hk. simpl. rewrite (Hkept k t Hk). discriminate. }
    unfold Recovery.inKeyOrder. rewrite map_to_list_empty. simpl. f_equal.
    apply recovery_eq; simpl; try reflexivity.
    apply map_filter_id. intros k t Hk. simpl. exact (Hkept k t Hk).
Qed.

Lemma recoverTemporaries_witness :
  exists results r1,
    Recovery.recoverTemporaries 2%N recoveryWithTemporaries = Returned results r1
    /\ (exists ids : list Z,
          StronglySorted Z.lt ids
          /\ (forall i, i ∈ ids <->
                        is_Some (Recovery.recoveredTemporaries recoveryWithTemporaries
                                   !! (2%N, i)))
          /\ Forall2 (fun i t => Recovery.recoveredTemporaries recoveryWithTemporaries
                                   !! (2%N, i) = Some t)
               ids results)
    /\ (forall k, fst k = 2%N -> Recovery.recoveredTemporaries r1 !! k = None)
    /\ (forall k, fst k <> 2%N ->
                  Recovery.recoveredTemporaries r1 !! k
                  = Recovery.recoveredTemporaries recoveryWithTemporaries !! k)
    /\ Recovery.recoverTemporaries 2%N r1 = Returned [] r1.
Proof.
  apply (recoverTemporaries_drains_one_type 2%N recoveryWithTemporaries).
  reflexivity.
Defined.

(** ** Further properties of [Transaction::commit] *)

(** X7.  The only exception [commit] lets out is the conflict raised
    while wrapping the temporary to consume, which happens exactly when
    that temporary is already locked; the journal layer is then left as it
    was (nothing written, no staging id used).  Any other failure ends in
    the process abort, never in an exception. *)
Theorem commit_throws_only_the_consume_conflict :
  forall STAGING size tempToConsume tx j,
    (forall r o,
        tempToConsume = Some r ->
        JournalLayer.temporaryStore j !! r = Some o ->
        RecoverableTemporary.locked o = true ->
        Transaction.commit STAGING size tempToConsume tx j = Thrown Conflict j)
    /\ (forall e j',
        Transaction.commit STAGING size tempToConsume tx j = Thrown e j' ->
        e = Conflict /\ j' = j
        /\ exists r o,
            tempToConsume = Some r
            /\ JournalLayer.temporaryStore j !! r = Some o
            /\ RecoverableTemporary.locked o = true).
Proof.
  intros STAGING size tempToConsume tx j. split.
  - intros r o -> Hlive Hlocked. unfold Transaction.commit, LockedTemporary.new.
    unfold_monad. rewrite Hlive, Hlocked. reflexivity.
  - intros e j'. unfold Transaction.commit.
    destruct tempToConsume as [r|].
    + unfold LockedTemporary.new. unfold_monad.
      destruct (JournalLayer.temporaryStore j !! r) as [o|] eqn:Hlive; [|discriminate].
      destruct (RecoverableTemporary.locked o) eqn:Hlocked.
      * intros H. inversion H; subst. split; [reflexivity|]. split; [reflexivity|].
        exists r, o. auto.
      * simpl.
        match goal with
        | |- context [Transaction.buildAndWrite ?s ?z ?t ?st] =>
            destruct (Transaction.buildAndWrite s z t st)
        end; discriminate.
    + unfold_monad.
      match goal with
      | |- context [Transaction.buildAndWrite ?s ?z ?t ?st] =>
          destruct (Transaction.buildAndWrite s z t st)
      end; discriminate.
Qed.

Lemma LockedObject_commit_blobUntouched l j cb l' j' :
  LockedObject.commit l j = Returned (cb, l') j' -> blobUntouched j j'.
Proof.
  unfold LockedObject.commit.
  destruct (LockedObject.nothingToCommit l).
  - intros H. inversion H; subst. split; reflexivity.
  - destruct l as [ob cc cr rm nx nc]. unfold LockedObject.getXattr. unfold_monad. simpl.
    destruct ob as [a|]; [|destruct nx; discriminate].
    destruct (JournalLayer.objectStore j !! a) as [o|] eqn:Hlive;
      [|destruct nx; simpl; rewrite ?Hlive; discriminate].
    destruct nx; simpl; rewrite ?Hlive; simpl; rewrite ?lookup_insert_eq;
      destruct cr, rm, nc; simpl; intros H; inversion H; subst; split; reflexivity.
Qed.

Lemma LockedTemporary_commit_blobUntouched l j cb l' j' :
  LockedTemporary.commit l j = Returned (cb, l') j' -> blobUntouched j j'.
Proof.
  unfold LockedTemporary.commit.
  destruct (LockedTemporary.nothingToCommit l).
  - intros H. inversion H; subst. split; reflexivity.
  - destruct l as [ob cc cr rm nx nc]. unfold LockedTemporary.getXattr. unfold_monad. simpl.
    destruct ob as [a|]; [|destruct nx; discriminate].
    destruct (JournalLayer.temporaryStore j !! a) as [o|] eqn:Hlive;
      [|destruct nx; simpl; rewrite ?Hlive; discriminate].
    destruct nx; simpl; rewrite ?Hlive; simpl; rewrite ?lookup_insert_eq;
      destruct cr, rm, nc; simpl; intros H; inversion H; subst; split; reflexivity.
Qed.

Lemma blobUntouched_trans j1 j2 j3 :
  blobUntouched j1 j2 -> blobUntouched j2 j3 -> blobUntouched j1 j3.
Proof. intros [A1 A2] [B1 B2]. split; congruence. Qed.

Lemma buildObjects_blobUntouched STAGING objs :
  forall j res j',
    Transaction.buildObjects STAGING objs j = Returned res j' -> blobUntouched j j'.
Proof.
  induction objs as [|l rest IH]; intros j res j' Hrun.
  - inversion Hrun; subst. split; reflexivity.
  - cbn [Transaction.buildObjects] in Hrun.
    apply bind_Returned in Hrun as (sid & j1 & Hsid & Hrun).
    unfold JournalLayer.nextStagingId in Hsid. inversion Hsid; subst sid j1; clear Hsid.
    apply bind_Returned in Hrun as ([e l1] & j2 & Hentry & Hrun).
    apply LockedObject_getJournalEntry_inv in Hentry as (-> & _).
    apply bind_Returned in Hrun as ([cb l2] & j3 & Hcommit & Hrun).
    apply LockedObject_commit_blobUntouched in Hcommit.
    apply bind_Returned in Hrun as ([[rest' es] cbs] & j4 & Hrest & Hrun).
    inversion Hrun; subst; clear Hrun. apply IH in Hrest.
    eapply blobUntouched_trans; [|exact Hrest].
    eapply blobUntouched_trans; [|exact Hcommit]. split; reflexivity.
Qed.

Lemma buildTemporaries_blobUntouched STAGING temps :
  forall j res j',
    Transaction.buildTemporaries STAGING temps j = Returned res j' -> blobUntouched j j'.
Proof.
  induction temps as [|l rest IH]; intros j res j' Hrun.
  - inversion Hrun; subst. split; reflexivity.
  - cbn [Transaction.buildTemporaries] in Hrun.
    apply bind_Returned in Hrun as (sid & j1 & Hsid & Hrun).
    unfold JournalLayer.nextStagingId in Hsid. inversion Hsid; subst sid j1; clear Hsid.
    apply bind_Returned in Hrun as ([e l1] & j2 & Hentry & Hrun).
    apply LockedTemporary_getJournalEntry_inv in Hentry as (-> & _).
    apply bind_Returned in Hrun as ([cb l2] & j3 & Hcommit & Hrun).
    apply LockedTemporary_commit_blobUntouched in Hcommit.
    apply bind_Returned in Hrun as ([[rest' es] cbs] & j4 & Hrest & Hrun).
    inversion Hrun; subst; clear Hrun. apply IH in Hrest.
    eapply blobUntouched_trans; [|exact Hrest].
    eapply blobUntouched_trans; [|exact Hcommit]. split; reflexivity.
Qed.

(** What the build-and-write phase does to the journal file, the journal
    position, the write queue and the blob layer. *)
Lemma buildAndWrite_journal STAGING size tx j tx' j' :
  0 <= JournalLayer.stagingIdCounter j < 2 ^ 64 ->
  Transaction.buildAndWrite STAGING size tx j = Returned tx' j' ->
  blobUntouched j j'
  /\ exists file entries callbacks,
      JournalLayer.journalFile j = Some file
      /\ JournalLayer.journalFile j'
         = Some (file ++ [(JournalLayer.journalPosition j, entries)])
      /\ length entries = pendingCount tx
      /\ JournalLayer.journalPosition j'
         = wrap64 (JournalLayer.journalPosition j + size * Z.of_nat (length entries))
      /\ JournalLayer.writeQueue j'
         = JournalLayer.writeQueue j
           ++ [JournalLayer.mkPending callbacks (JournalLayer.journalPosition j)
                 (JournalLayer.journalPosition j')]
      /\ length callbacks
         = (length (Transaction.objects tx) + length (Transaction.temporaries tx))%nat.
Proof.
  intros Hc Hrun. unfold Transaction.buildAndWrite in Hrun.
  apply bind_Returned in Hrun as ([[objs es1] cbs1] & j1 & Hobjs & Hrun).
  pose proof (buildObjects_blobUntouched _ _ _ _ _ Hobjs) as U1.
  apply buildObjects_inv in Hobjs as (Hlen1 & [A1 A2 A3 A4 A5 A6 A7 A8]); [|exact Hc].
  apply bind_Returned in Hrun as ([[temps es2] cbs2] & j2 & Htemps & Hrun).
  pose proof (buildTemporaries_blobUntouched _ _ _ _ _ Htemps) as U2.
  apply buildTemporaries_inv in Htemps as (Hlen2 & [B1 B2 B3 B4 B5 B6 B7 B8]);
    [|rewrite A1; apply wrap64_range].
  apply bind_Returned in Hrun as (file & j3 & Hfile & Hrun).
  unfold Transaction.derefJournalFile in Hfile.
  destruct (JournalLayer.journalFile j2) as [f|] eqn:Hf; [|discriminate].
  inversion Hfile; subst file j3; clear Hfile.
  unfold_monad. simpl in Hrun. inversion Hrun; subst tx' j'; clear Hrun. simpl.
  split.
  { destruct (blobUntouched_trans _ _ _ U1 U2) as [V1 V2]. split; simpl; assumption. }
  exists f, (es1 ++ es2), (cbs1 ++ cbs2).
  split; [congruence|]. split; [f_equal; f_equal; congruence|].
  split; [unfold pendingCount; rewrite length_app; congruence|].
  split; [congruence|]. split; [rewrite B4, A4; do 3 f_equal; congruence|].
  rewrite length_app. congruence.
Qed.

(** X8.  When [commit] returns it has made one write on the journal
    file, at the old journal position, of as many entries as there are
    wrappers with something to commit; the journal position has advanced
    by that many entry sizes (modulo 2^64); one apply job with one callback
    per wrapper, covering the written region, has been queued behind the
    earlier ones; and neither the objects stored in the blob layer (the
    [blobLayer] member) nor [openObjects] have been touched. *)
Theorem commit_writes_once_and_defers_apply :
  forall STAGING size tempToConsume tx j tx' j',
    0 <= JournalLayer.stagingIdCounter j < 2 ^ 64 ->
    Transaction.commit STAGING size tempToConsume tx j = Returned tx' j' ->
    blobUntouched j j'
    /\ exists file entries callbacks,
        JournalLayer.journalFile j = Some file
        /\ JournalLayer.journalFile j'
           = Some (file ++ [(JournalLayer.journalPosition j, entries)])
        /\ length entries = pendingCount (withConsumed tempToConsume tx)
        /\ JournalLayer.journalPosition j'
           = wrap64 (JournalLayer.journalPosition j + size * Z.of_nat (length entries))
        /\ JournalLayer.writeQueue j'
           = JournalLayer.writeQueue j
             ++ [JournalLayer.mkPending callbacks (JournalLayer.journalPosition j)
                   (JournalLayer.journalPosition j')]
        /\ length callbacks
           = (length (Transaction.objects (withConsumed tempToConsume tx))
              + length (Transaction.temporaries (withConsumed tempToConsume tx)))%nat.
Proof.
  intros STAGING size tempToConsume tx j tx' j' Hc Hrun.
  unfold Transaction.commit in Hrun.
  apply bind_Returned in Hrun as (tx1 & j1 & Hconsume & Hrun).
  assert (Htx1 : tx1 = withConsumed tempToConsume tx /\ sameJournal j j1
                 /\ blobUntouched j j1).
  { destruct tempToConsume as [r|].
    - apply bind_Returned in Hconsume as (w & j0 & Hnew & Hret).
      pose proof Hnew as Hnew'.
      apply LockedTemporary_new_inv in Hnew as (-> & Hsame).
      inversion Hret; subst. split; [reflexivity|]. split; [exact Hsame|].
      unfold LockedTemporary.new in Hnew'. unfold_monad.
      destruct (JournalLayer.temporaryStore j !! r) as [o|]; [|discriminate].
      destruct (RecoverableTemporary.locked o); [discriminate|].
      inversion Hnew'; subst. split; reflexivity.
    - inversion Hconsume; subst.
      split; [reflexivity|]. split; [apply sameJournal_refl|split; reflexivity]. }
  destruct Htx1 as (-> & (S1 & S2 & S3 & S4) & U0).
  unfold abortOnException in Hrun.
  destruct (Transaction.buildAndWrite STAGING size (withConsumed tempToConsume tx) j1)
    as [tx2 j2| |] eqn:Hbuild; try discriminate.
  inversion Hrun; subst tx2 j2; clear Hrun.
  apply buildAndWrite_journal in Hbuild
    as (U1 & file & entries & callbacks & F1 & F2 & F3 & F4 & F5 & F6);
    [|rewrite S1; exact Hc].
  split; [eapply blobUntouched_trans; eassumption|].
  exists file, entries, callbacks.
  rewrite <- S2, <- S3, <- S4. auto 10.
Qed.

Lemma commit_writes_once_witness :
  exists tx' j',
    Transaction.commit Sample.STAGING 128 None xattrThenContent Sample.journal
      = Returned tx' j'
    /\ blobUntouched Sample.journal j'
    /\ exists file entries callbacks,
        JournalLayer.journalFile Sample.journal = Some file
        /\ JournalLayer.journalFile j'
           = Some (file ++ [(JournalLayer.journalPosition Sample.journal, entries)])
        /\ length entries = pendingCount (withConsumed None xattrThenContent)
        /\ JournalLayer.journalPosition j'
           = wrap64 (JournalLayer.journalPosition Sample.journal
                     + 128 * Z.of_nat (length entries))
        /\ JournalLayer.writeQueue j'
           = JournalLayer.writeQueue Sample.journal
             ++ [JournalLayer.mkPending callbacks
                   (JournalLayer.journalPosition Sample.journal)
                   (JournalLayer.journalPosition j')]
        /\ length callbacks
           = (length (Transaction.objects (withConsumed None xattrThenContent))
              + length (Transaction.temporaries (withConsumed None xattrThenContent)))%nat.
Proof.
  do 2 eexists. split; [vm_compute; reflexivity|].
  eapply (commit_writes_once_and_defers_apply
            Sample.STAGING 128 None xattrThenContent Sample.journal).
  - simpl. lia.
  - vm_compute. reflexivity.
Defined.

(** ** Creating objects *)

(** [createObject] of an id that is not open returns, with one more
    wrapper in the transaction. *)
Lemma createObject_fresh id xattr content tx j :
  JournalLayer.openObjects j !! id = None ->
  exists a j',
    Transaction.createObject id xattr content tx j
    = Returned (a, Transaction.mk
                     (Transaction.objects tx
                      ++ [LockedObject.mk (Some a) 0 true false None (Some content)])
                     (Transaction.temporaries tx)) j'.
Proof.
  intros Hclosed. do 2 eexists.
  unfold Transaction.createObject, Transaction.newObjectHandle, LockedObject.newCreated.
  unfold_monad. rewrite Hclosed. simpl. rewrite lookup_insert_eq. simpl.
  reflexivity.
Qed.

(** X9.  [createObject] of an id that is already open fails on the
    requirement of the handle's constructor and changes nothing.  For an id
    that is not open it makes a handle at a fresh address, locked, with
    generation 0, no blob-layer object yet and the given xattr and content
    cached; registers it in [openObjects]; appends a created wrapper with a
    change count of 0 that holds the content; and leaves every other handle
    alone. *)
Theorem createObject_registers_a_locked_handle :
  forall (id : ObjectId) (xattr : Xattr) (content : BlobLayer.Temporary)
         (tx : Transaction.t) (j : JournalLayer.t),
    (forall a, JournalLayer.openObjects j !! id = Some a ->
               Transaction.createObject id xattr content tx j
               = Thrown RequirementFailed j)
    /\ (JournalLayer.openObjects j !! id = None ->
        exists a j',
          Transaction.createObject id xattr content tx j
          = Returned (a, Transaction.mk
                           (Transaction.objects tx
                            ++ [LockedObject.mk (Some a) 0 true false None (Some content)])
                           (Transaction.temporaries tx)) j'
          /\ JournalLayer.objectStore j !! a = None
          /\ JournalLayer.objectStore j' !! a
             = Some (Object.mk id None xattr
                       (Some (BlobLayer.temporaryContent content)) 0 true)
          /\ JournalLayer.openObjects j' !! id = Some a
          /\ (forall b, b <> a ->
                JournalLayer.objectStore j' !! b = JournalLayer.objectStore j !! b)
          /\ (forall i, i <> id ->
                JournalLayer.openObjects j' !! i = JournalLayer.openObjects j !! i)).
Proof.
  intros id xattr content tx j. split.
  - intros a Hopen. unfold Transaction.createObject, Transaction.newObjectHandle.
    unfold_monad. rewrite Hopen. reflexivity.
  - intros Hclosed.
    set (a := fresh (dom (JournalLayer.objectStore j))).
    assert (Hfresh : JournalLayer.objectStore j !! a = None).
    { apply not_elem_of_dom. apply is_fresh. }
    eexists a, _. split.
    { unfold Transaction.createObject, Transaction.newObjectHandle,
        LockedObject.newCreated.
      unfold_monad. rewrite Hclosed. simpl. fold a. rewrite lookup_insert_eq. simpl.
      reflexivity. }
    simpl. split; [exact Hfresh|]. split; [apply lookup_insert_eq|].
    split; [apply lookup_insert_eq|]. split.
    + intros b Hb. rewrite !lookup_insert_ne by (intros Heq; apply Hb; symmetry; exact Heq).
      reflexivity.
    + intros i Hi. apply lookup_insert_ne. intros Heq. apply Hi. symmetry. exact Heq.
Qed.

(** X10.  A transaction that only creates an object and is then
    committed writes no journal entry: the created wrapper has a change
    count of 0, so the write appended to the journal is empty, the journal
    position stands still, the queued callback is the empty one, and one
    staging id is used up all the same. *)
Theorem create_only_commit_journals_nothing :
  forall STAGING size (id : ObjectId) (xattr : Xattr) (content : BlobLayer.Temporary)
         (j : JournalLayer.t) file,
    JournalLayer.openObjects j !! id = None ->
    JournalLayer.journalFile j = Some file ->
    0 <= JournalLayer.journalPosition j < 2 ^ 64 ->
    exists tx' j',
      bind (Transaction.createObject id xattr content Transaction.new)
           (fun created => Transaction.commit STAGING size None (snd created)) j
      = Returned tx' j'
      /\ JournalLayer.journalFile j' = Some (file ++ [(JournalLayer.journalPosition j, [])])
      /\ JournalLayer.journalPosition j' = JournalLayer.journalPosition j
      /\ JournalLayer.writeQueue j'
         = JournalLayer.writeQueue j
           ++ [JournalLayer.mkPending [NothingToDo] (JournalLayer.journalPosition j)
                 (JournalLayer.journalPosition j)]
      /\ JournalLayer.stagingIdCounter j' = wrap64 (JournalLayer.stagingIdCounter j + 1)
      /\ JournalLayer.blobLayer j' = JournalLayer.blobLayer j.
Proof.
  intros STAGING size id xattr content j file Hclosed Hfile Hpos.
  destruct (createObject_fresh id xattr content Transaction.new j Hclosed)
    as (a & j1 & Hrun).
  unfold bind at 1. rewrite Hrun. cbn [snd].
  unfold Transaction.createObject, Transaction.newObjectHandle,
    LockedObject.newCreated in Hrun.
  unfold_monad. rewrite Hclosed in Hrun. simpl in Hrun.
  rewrite lookup_insert_eq in Hrun. simpl in Hrun.
  inversion Hrun; subst j1; clear Hrun.
  unfold Transaction.commit, Transaction.buildAndWrite, Transaction.derefJournalFile.
  unfold_monad. simpl. rewrite Hfile. simpl.
  do 2 eexists. split; [reflexivity|]. simpl.
  rewrite Z.mul_0_r, Z.add_0_r, wrap64_small by exact Hpos.
  repeat split.
Qed.

Lemma create_only_commit_witness :
  exists tx' j',
    bind (Transaction.createObject 1 65 Sample.fresh_content Transaction.new)
         (fun created => Transaction.commit Sample.STAGING 128 None (snd created))
         Sample.journal
    = Returned tx' j'
    /\ JournalLayer.journalFile j'
       = Some ([] ++ [(JournalLayer.journalPosition Sample.journal, [])])
    /\ JournalLayer.journalPosition j' = JournalLayer.journalPosition Sample.journal
    /\ JournalLayer.writeQueue j'
       = JournalLayer.writeQueue Sample.journal
         ++ [JournalLayer.mkPending [NothingToDo]
               (JournalLayer.journalPosition Sample.journal)
               (JournalLayer.journalPosition Sample.journal)]
    /\ JournalLayer.stagingIdCounter j'
       = wrap64 (JournalLayer.stagingIdCounter Sample.journal + 1)
    /\ JournalLayer.blobLayer j' = JournalLayer.blobLayer Sample.journal.
Proof.
  apply (create_only_commit_journals_nothing Sample.STAGING 128 1 65
           Sample.fresh_content Sample.journal []).
  - reflexivity.
  - reflexivity.
  - simpl. lia.
Defined.

(** ** Reads through the wrapper and through the handle *)

(** X11.  For a wrapper with something to commit, [commit()] publishes on
    the handle what the wrapper's getters reported just before: the
    handle's xattr, content reference and generation after [commit()] are
    the ones [LockedObject::getXattr], [getContent] and [getGeneration]
    returned; the handle's id, lock flag and blob-layer object, every other
    object handle and all temporary handles are left alone. *)
Theorem commit_publishes_the_wrapper_reads :
  forall l j a o,
    LockedObject.object l = Some a ->
    JournalLayer.objectStore j !! a = Some o ->
    LockedObject.nothingToCommit l = false ->
    (LockedObject.created l = true -> LockedObject.newContent l <> None) ->
    exists cb l' j' o',
      LockedObject.commit l j = Returned (cb, l') j'
      /\ JournalLayer.objectStore j' !! a = Some o'
      /\ Some (Object.getXattr o') = returnedValue (LockedObject.getXattr l j)
      /\ returnedValue (Reads.objectGetContent o' j')
         = returnedValue (Reads.lockedObjectGetContent l j)
      /\ Some (Object.getGeneration o') = returnedValue (LockedObject.getGeneration l j)
      /\ Object.id o' = Object.id o
      /\ Object.locked o' = Object.locked o
      /\ Object.inner o' = Object.inner o
      /\ (forall b, b <> a ->
            JournalLayer.objectStore j' !! b = JournalLayer.objectStore j !! b)
      /\ JournalLayer.temporaryStore j' = JournalLayer.temporaryStore j.
Proof.
  intros l j a o Hobj Hlive Hn Hinv.
  unfold LockedObject.commit. rewrite Hn.
  destruct l as [ob cc cr rm nx nc]; simpl in *; subst ob.
  assert (Hflags : cr && rm = false).
  { unfold LockedObject.nothingToCommit in Hn. simpl in Hn.
    apply orb_false_iff in Hn as [_ H]. exact H. }
  assert (Hframe : forall (v : Object.t) b, b <> a ->
            <[a := v]> (JournalLayer.objectStore j) !! b
            = JournalLayer.objectStore j !! b)
    by (intros v b Hb; apply lookup_insert_ne; intros Heq; apply Hb; symmetry;
        exact Heq).
  destruct o as [oid oin ox oc og ol]; destruct oc as [occ|], oin as [oi|].
  all: unfold LockedObject.getXattr, LockedObject.getGeneration,
    Reads.lockedObjectGetContent, Reads.objectGetContent.
  all: unfold_monad; simpl.
  all: destruct cr, rm; try discriminate Hflags.
  all: try (destruct nc as [c|]; [|exfalso; now apply Hinv]).
  all: destruct nx as [x|]; try (destruct nc); simpl; rewrite ?Hlive; simpl;
    rewrite ?lookup_insert_eq; simpl.
  all: do 4 eexists; (split; [reflexivity|]); simpl;
    (split; [apply lookup_insert_eq|]); simpl;
    repeat (split; [reflexivity|]);
    (split; [apply Hframe|reflexivity]).
Qed.

Lemma commit_publishes_witness :
  let l := LockedObject.overwrite 66 Sample.fresh_content
             (LockedObject.mk (Some 1%positive) 0 false false None None) in
  exists cb l' j' o',
    LockedObject.commit l Sample.journal = Returned (cb, l') j'
    /\ JournalLayer.objectStore j' !! 1%positive = Some o'
    /\ Some (Object.getXattr o') = returnedValue (LockedObject.getXattr l Sample.journal)
    /\ returnedValue (Reads.objectGetContent o' j')
       = returnedValue (Reads.lockedObjectGetContent l Sample.journal)
    /\ Some (Object.getGeneration o')
       = returnedValue (LockedObject.getGeneration l Sample.journal)
    /\ Object.id o' = Object.id Sample.objectY
    /\ Object.locked o' = Object.locked Sample.objectY
    /\ Object.inner o' = Object.inner Sample.objectY
    /\ (forall b, b <> 1%positive ->
          JournalLayer.objectStore j' !! b = JournalLayer.objectStore Sample.journal !! b)
    /\ JournalLayer.temporaryStore j' = JournalLayer.temporaryStore Sample.journal.
Proof.
  apply (commit_publishes_the_wrapper_reads
           (LockedObject.overwrite 66 Sample.fresh_content
              (LockedObject.mk (Some 1%positive) 0 false false None None))
           Sample.journal 1%positive Sample.objectY).
  - reflexivity.
  - reflexivity.
  - reflexivity.
  - simpl. discriminate.
Defined.

Lemma wrap32_succ c (n : nat) :
  wrap32 (wrap32 (c + 1) + Z.of_nat n) = wrap32 (c + Z.of_nat (S n)).
Proof. unfold wrap32. rewrite Zplus_mod_idemp_l. f_equal. lia. Qed.

Lemma wrap32_range z : 0 <= wrap32 z < 2 ^ 32.
Proof. unfold wrap32. apply Z.mod_pos_bound. lia. Qed.

(** X12.  After any sequence of [overwrite], [setXattr] and [remove]
    calls on a wrapper, its change count has grown by the number of calls
    (modulo 2^32), [removed] is set exactly if it was set before or one of
    the calls was [remove], the pending xattr is the one of the last
    [overwrite] or [setXattr], the pending content the one of the last
    [overwrite], and [created] and the wrapped handle are unchanged. *)
Theorem mutators_accumulate :
  forall (ms : list Mutation) (l : LockedObject.t),
    0 <= LockedObject.changeCount l < 2 ^ 32 ->
    LockedObject.changeCount (applyMutations ms l)
    = wrap32 (LockedObject.changeCount l + Z.of_nat (length ms))
    /\ LockedObject.removed (applyMutations ms l)
       = LockedObject.removed l || existsb isRemove ms
    /\ LockedObject.newXattr (applyMutations ms l) = lastXattr ms (LockedObject.newXattr l)
    /\ LockedObject.newContent (applyMutations ms l)
       = lastContent ms (LockedObject.newContent l)
    /\ LockedObject.created (applyMutations ms l) = LockedObject.created l
    /\ LockedObject.object (applyMutations ms l) = LockedObject.object l.
Proof.
  induction ms as [|m ms IH]; intros l Hc.
  - simpl. rewrite Z.add_0_r, wrap32_small, orb_false_r by exact Hc. repeat split.
  - change (applyMutations (m :: ms) l) with (applyMutations ms (applyMutation l m)).
    destruct (IH (applyMutation l m)) as (I1 & I2 & I3 & I4 & I5 & I6).
    { destruct m; simpl; apply wrap32_range. }
    rewrite I1, I2, I3, I4, I5, I6.
    destruct m; simpl; rewrite wrap32_succ;
      repeat split; rewrite ?orb_true_r, ?orb_false_r; try reflexivity;
      destruct (LockedObject.removed l); reflexivity.
Qed.

Lemma mutators_accumulate_witness :
  let ms := [SetXattr 66; Overwrite 67 Sample.fresh_content; Remove] in
  let l := LockedObject.mk (Some 1%positive) 0 false false None None in
  LockedObject.changeCount (applyMutations ms l)
  = wrap32 (LockedObject.changeCount l + Z.of_nat (length ms))
  /\ LockedObject.removed (applyMutations ms l)
     = LockedObject.removed l || existsb isRemove ms
  /\ LockedObject.newXattr (applyMutations ms l) = lastXattr ms (LockedObject.newXattr l)
  /\ LockedObject.newContent (applyMutations ms l)
     = lastContent ms (LockedObject.newContent l)
  /\ LockedObject.created (applyMutations ms l) = LockedObject.created l
  /\ LockedObject.object (applyMutations ms l) = LockedObject.object l.
Proof.
  apply (mutators_accumulate
           [SetXattr 66; Overwrite 67 Sample.fresh_content; Remove]
           (LockedObject.mk (Some 1%positive) 0 false false None None)).
  simpl. lia.
Defined.

(** ** The apply phase *)

(** X13.  For a wrapper over an existing object (its handle owns the
    blob-layer object [i]) with something to commit, running the callback
    that [commit()] returned brings the blob layer in line with the handle:
    the object is gone if the wrapper was removed; otherwise it carries the
    xattr the handle reports and the committed new content, or its old
    content when only the xattr was set.  The callback leaves the handles
    themselves as [commit()] left them. *)
Theorem apply_brings_the_blob_layer_in_line :
  forall l j a o i b,
    LockedObject.object l = Some a ->
    JournalLayer.objectStore j !! a = Some o ->
    Object.inner o = Some i ->
    JournalLayer.blobLayer j = Some b ->
    LockedObject.created l = false ->
    LockedObject.nothingToCommit l = false ->
    exists cb l' j1 j2 o' b2,
      LockedObject.commit l j = Returned (cb, l') j1
      /\ JournalLayer.objectStore j1 !! a = Some o'
      /\ Reads.runCallbacks [cb] j1 = Returned tt j2
      /\ JournalLayer.objectStore j2 = JournalLayer.objectStore j1
      /\ JournalLayer.blobLayer j2 = Some b2
      /\ (LockedObject.removed l = true -> BlobLayer.objects b2 !! i = None)
      /\ (LockedObject.removed l = false ->
          forall bo,
            BlobLayer.objects b !! i = Some bo ->
            BlobLayer.objects b2 !! i
            = Some (BlobLayer.mkObject (Object.getXattr o')
                      match LockedObject.newContent l with
                      | Some c => BlobLayer.temporaryContent c
                      | None => BlobLayer.content bo
                      end))
      /\ (forall k, k <> i -> BlobLayer.objects b2 !! k = BlobLayer.objects b !! k).
Proof.
  intros l j a o i b Hobj Hlive Hinner Hblob Hcreated Hn.
  unfold LockedObject.commit. rewrite Hn.
  destruct l as [ob cc cr rm nx nc]; simpl in *; subst ob cr.
  destruct o as [oid oin ox oc og ol]; simpl in Hinner; subst oin.
  unfold LockedObject.getXattr, Reads.runCallbacks, JournalLayer.runCallback.
  unfold_monad. simpl.
  destruct nx as [x|], rm, nc as [c|]; simpl; rewrite ?Hlive; simpl;
    rewrite ?lookup_insert_eq; simpl.
  all: do 6 eexists; (split; [reflexivity|]);
    (split; [simpl; apply lookup_insert_eq|]);
    (split; [unfold Reads.runCallbacks, JournalLayer.runCallback; unfold_monad; simpl;
             rewrite lookup_insert_eq; simpl; rewrite Hblob; reflexivity|]);
    (split; [reflexivity|]); (split; [reflexivity|]); simpl.
  all: split; [intros Hrm; try discriminate Hrm; apply lookup_delete_eq|].
  all: split; [intros Hrm bo Hbo; try discriminate Hrm;
               rewrite ?lookup_insert_eq, ?lookup_alter_eq, ?Hbo; reflexivity|].
  all: intros k Hk;
    rewrite ?lookup_insert_ne, ?lookup_alter_ne, ?lookup_delete_ne
      by (intros Heq; apply Hk; symmetry; exact Heq);
    reflexivity.
Qed.

Lemma apply_witness :
  let l := LockedObject.overwrite 66 Sample.fresh_content
             (LockedObject.mk (Some 1%positive) 0 false false None None) in
  exists cb l' j1 j2 o' b2,
    LockedObject.commit l Sample.journal = Returned (cb, l') j1
    /\ JournalLayer.objectStore j1 !! 1%positive = Some o'
    /\ Reads.runCallbacks [cb] j1 = Returned tt j2
    /\ JournalLayer.objectStore j2 = JournalLayer.objectStore j1
    /\ JournalLayer.blobLayer j2 = Some b2
    /\ (LockedObject.removed l = true -> BlobLayer.objects b2 !! 2 = None)
    /\ (LockedObject.removed l = false ->
        forall bo,
          BlobLayer.objects (BlobLayer.mk {[ 2 := BlobLayer.mkObject 65 [104; 105] ]}) !! 2
          = Some bo ->
          BlobLayer.objects b2 !! 2
          = Some (BlobLayer.mkObject (Object.getXattr o')
                    match LockedObject.newContent l with
                    | Some c => BlobLayer.temporaryContent c
                    | None => BlobLayer.content bo
                    end))
    /\ (forall k, k <> 2 ->
          BlobLayer.objects b2 !! k
          = BlobLayer.objects (BlobLayer.mk {[ 2 := BlobLayer.mkObject 65 [104; 105] ]})
              !! k).
Proof.
  apply (apply_brings_the_blob_layer_in_line
           (LockedObject.overwrite 66 Sample.fresh_content
              (LockedObject.mk (Some 1%positive) 0 false false None None))
           Sample.journal 1%positive Sample.objectY 2
           (BlobLayer.mk {[ 2 := BlobLayer.mkObject 65 [104; 105] ]}));
    reflexivity.
Defined.

(** ** Locking of temporaries *)

Lemma wrapTemporary_unlocked_locks a tx j o :
  JournalLayer.temporaryStore j !! a = Some o ->
  RecoverableTemporary.locked o = false ->
  Transaction.wrapTemporary a tx j =
    Returned (length (Transaction.temporaries tx),
              Transaction.mk (Transaction.objects tx)
                (Transaction.temporaries tx
                 ++ [LockedTemporary.mk (Some a) 0 false false None None]))
             (JournalLayer.setTemporaryStore
                (<[a := RecoverableTemporary.setLocked true o]>
                   (JournalLayer.temporaryStore j)) j).
Proof.
  intros Hlive Hlocked. unfold Transaction.wrapTemporary, LockedTemporary.new.
  unfold_monad. rewrite Hlive, Hlocked. reflexivity.
Qed.

Lemma destroyTemporary_unlocks l j a o :
  LockedTemporary.object l = Some a ->
  JournalLayer.temporaryStore j !! a = Some o ->
  exists j',
    LockedTemporary.destroy l j = Returned tt j'
    /\ JournalLayer.temporaryStore j' !! a = Some (RecoverableTemporary.setLocked false o).
Proof.
  intros Hobj Hlive. unfold LockedTemporary.destroy. unfold_monad. rewrite Hobj, Hlive.
  eexists. split; [reflexivity|]. simpl. apply lookup_insert_eq.
Qed.

(** X14.  [wrap] of a recoverable temporary throws the conflict exactly
    when the handle is locked and then changes nothing; a successful
    [wrap] locks the handle, so that a second [wrap] conflicts; destroying
    the transaction without committing unlocks it, after which it can be
    wrapped again. *)
Theorem wrapTemporary_conflicts_iff_locked_and_abort_unlocks :
  forall a j o,
    JournalLayer.temporaryStore j !! a = Some o ->
    (forall tx, Transaction.wrapTemporary a tx j = Thrown Conflict j
                <-> RecoverableTemporary.locked o = true)
    /\ (RecoverableTemporary.locked o = false ->
        exists tx1 j1 j2,
          Transaction.wrapTemporary a Transaction.new j = Returned (0%nat, tx1) j1
          /\ temporaryLocked j1 a = Some true
          /\ (forall tx, Transaction.wrapTemporary a tx j1 = Thrown Conflict j1)
          /\ Transaction.destroy tx1 j1 = Returned tt j2
          /\ temporaryLocked j2 a = Some false
          /\ exists tx3 j3,
              Transaction.wrapTemporary a Transaction.new j2 = Returned (0%nat, tx3) j3).
Proof.
  intros a j o Hlive. split.
  - intros tx. apply wrapTemporary_conflict_iff. exact Hlive.
  - intros Hunlocked.
    pose (j1 := JournalLayer.setTemporaryStore
                  (<[a := RecoverableTemporary.setLocked true o]>
                     (JournalLayer.temporaryStore j)) j).
    assert (Hlive1 : JournalLayer.temporaryStore j1 !! a
                     = Some (RecoverableTemporary.setLocked true o))
      by apply lookup_insert_eq.
    destruct (destroyTemporary_unlocks
                (LockedTemporary.mk (Some a) 0 false false None None)
                j1 a _ eq_refl Hlive1) as (j2 & Hdestroy & Hlive2).
    exists (Transaction.mk [] [LockedTemporary.mk (Some a) 0 false false None None]),
      j1, j2.
    split; [apply (wrapTemporary_unlocked_locks a Transaction.new j o Hlive Hunlocked)|].
    split; [unfold temporaryLocked; rewrite Hlive1; reflexivity|].
    split.
    { intros tx. apply (wrapTemporary_conflict_iff a tx j1 _ Hlive1). reflexivity. }
    split.
    { unfold Transaction.destroy. simpl. unfold bind at 1. simpl. unfold bind at 1.
      rewrite Hdestroy. reflexivity. }
    split; [unfold temporaryLocked; rewrite Hlive2; reflexivity|].
    do 2 eexists.
    apply (wrapTemporary_unlocked_locks a Transaction.new j2 _ Hlive2). reflexivity.
Qed.

Lemma wrapTemporary_conflicts_witness :
  (forall tx, Transaction.wrapTemporary 1%positive tx Sample.journal
              = Thrown Conflict Sample.journal
              <-> RecoverableTemporary.locked Sample.temporaryT = true)
  /\ (RecoverableTemporary.locked Sample.temporaryT = false ->
      exists tx1 j1 j2,
        Transaction.wrapTemporary 1%positive Transaction.new Sample.journal
          = Returned (0%nat, tx1) j1
        /\ temporaryLocked j1 1%positive = Some true
        /\ (forall tx, Transaction.wrapTemporary 1%positive tx j1 = Thrown Conflict j1)
        /\ Transaction.destroy tx1 j1 = Returned tt j2
        /\ temporaryLocked j2 1%positive = Some false
        /\ exists tx3 j3,
            Transaction.wrapTemporary 1%positive Transaction.new j2
            = Returned (0%nat, tx3) j3).
Proof.
  apply (wrapTemporary_conflicts_iff_locked_and_abort_unlocks 1%positive Sample.journal
           Sample.temporaryT).
  reflexivity.
Defined.

(** ** What recovery makes of a written transaction *)

(** X15.  The entries that one [commit] wrote are never replayed: fed to
    [commitSavedTransaction], they leave the recovery state as it was,
    because every one of them carries [txSize = 0]. *)
Theorem committed_entries_are_not_replayed :
  forall STAGING size tempToConsume tx j tx' j',
    0 <= JournalLayer.stagingIdCounter j < 2 ^ 64 ->
    Transaction.commit STAGING size tempToConsume tx j = Returned tx' j' ->
    exists file entries,
      JournalLayer.journalFile j'
      = Some (file ++ [(JournalLayer.journalPosition j, entries)])
      /\ length entries = pendingCount (withConsumed tempToConsume tx)
      /\ forall r,
          Recovery.finished r = false ->
          Recovery.commitSavedTransaction entries r = Returned tt r.
Proof.
  intros STAGING size tempToConsume tx j tx' j' Hc Hrun.
  destruct (commit_appends_zero_txSize _ _ _ _ _ _ _ Hc Hrun)
    as (file & entries & _ & Hfile & Hlen & Hzero).
  exists file, entries. split; [exact Hfile|]. split; [exact Hlen|].
  intros r Hr. rewrite commitSavedTransaction_replayed by exact Hr.
  rewrite replayed_zeros by exact Hzero. reflexivity.
Qed.

Lemma committed_entries_witness :
  exists tx' j' file entries,
    Transaction.commit Sample.STAGING 128 None xattrThenContent Sample.journal
      = Returned tx' j'
    /\ JournalLayer.journalFile j'
       = Some (file ++ [(JournalLayer.journalPosition Sample.journal, entries)])
    /\ length entries = pendingCount (withConsumed None xattrThenContent)
    /\ forall r,
        Recovery.finished r = false ->
        Recovery.commitSavedTransaction entries r = Returned tt r.
Proof.
  do 2 eexists.
  assert (H : Transaction.commit Sample.STAGING 128 None xattrThenContent Sample.journal
              = Returned _ _) by (vm_compute; reflexivity).
  destruct (committed_entries_are_not_replayed
              Sample.STAGING 128 None xattrThenContent Sample.journal _ _
              ltac:(simpl; lia) H) as (file & entries & H1 & H2 & H3).
  exists file, entries. split; [exact H|]. auto.
Defined.

(** X16.  Replaying a one-entry transaction [CreateObject] or
    [UpdateObject] whose staging temporary is present turns that temporary
    into the object: the staging id is gone from [recoveredStaging], the
    blob layer holds the object with the journaled xattr and the staged
    content, and a [getObject] of the id then returns a handle that reports
    that xattr. *)
Theorem replayed_object_can_be_fetched :
  forall (entry : JournalEntry.t) staging (r : Recovery.t),
    JournalEntry.type entry = JournalEntry.CREATE_OBJECT
    \/ JournalEntry.type entry = JournalEntry.UPDATE_OBJECT ->
    JournalEntry.txSize entry = 1 ->
    Recovery.recoveredStaging r !! JournalEntry.stagingId entry = Some staging ->
    Recovery.finished r = false ->
    JournalLayer.openObjects (Recovery.super r)
      !! JournalEntry.id (JournalEntry.object entry) = None ->
    exists a r1 r2 o,
      Recovery.commitSavedTransaction [entry] r = Returned tt r1
      /\ Recovery.recoveredStaging r1 !! JournalEntry.stagingId entry = None
      /\ BlobLayer.getObject (JournalEntry.id (JournalEntry.object entry))
           (Recovery.blobLayerRecovery r1)
         = Some (BlobLayer.mkObject (JournalEntry.xattr (JournalEntry.object entry))
                   (BlobLayer.recoveredContent staging))
      /\ Recovery.getObject (JournalEntry.id (JournalEntry.object entry)) r1
         = Returned (Some a) r2
      /\ JournalLayer.objectStore (Recovery.super r2) !! a = Some o
      /\ Object.getXattr o = JournalEntry.xattr (JournalEntry.object entry)
      /\ Object.id o = JournalEntry.id (JournalEntry.object entry).
Proof.
  intros entry staging r Htype Hsize Hstaging Hfin Hclosed.
  set (r1 := Recovery.replayEntry entry r).
  assert (Hrun : Recovery.commitSavedTransaction [entry] r = Returned tt r1).
  { unfold Recovery.commitSavedTransaction. unfold_monad. rewrite Hfin. simpl.
    rewrite Hsize. reflexivity. }
  assert (Hr1 : r1 = Recovery.setBlobLayerRecovery
                       (BlobLayer.keepAs (JournalEntry.id (JournalEntry.object entry))
                          (JournalEntry.xattr (JournalEntry.object entry)) staging
                          (Recovery.blobLayerRecovery r))
                       (Recovery.setRecoveredStaging
                          (delete (JournalEntry.stagingId entry)
                             (Recovery.recoveredStaging r)) r)).
  { unfold r1, Recovery.replayEntry.
    destruct Htype as [-> | ->]; rewrite Hstaging; reflexivity. }
  assert (Hdisk : BlobLayer.getObject (JournalEntry.id (JournalEntry.object entry))
                    (Recovery.blobLayerRecovery r1)
                  = Some (BlobLayer.mkObject
                            (JournalEntry.xattr (JournalEntry.object entry))
                            (BlobLayer.recoveredContent staging))).
  { rewrite Hr1. unfold BlobLayer.getObject. simpl. apply lookup_insert_eq. }
  assert (Hfin1 : Recovery.finished r1 = false) by (rewrite Hr1; exact Hfin).
  assert (Hclosed1 : JournalLayer.openObjects (Recovery.super r1)
                       !! JournalEntry.id (JournalEntry.object entry) = None)
    by (rewrite Hr1; exact Hclosed).
  destruct (getObject_from_disk _ _ _ Hfin1 Hclosed1 Hdisk)
    as (a & r2 & Hget & Hstore).
  exists a, r1, r2. eexists. split; [exact Hrun|].
  split; [rewrite Hr1; simpl; apply lookup_delete_eq|].
  split; [exact Hdisk|]. split; [exact Hget|]. split; [exact Hstore|].
  split; reflexivity.
Qed.

Lemma replayed_object_witness :
  exists a r1 r2 o,
    Recovery.commitSavedTransaction [SampleJournal.updateObject] SampleRecovery.state
      = Returned tt r1
    /\ Recovery.recoveredStaging r1 !! 0 = None
    /\ BlobLayer.getObject 1 (Recovery.blobLayerRecovery r1)
       = Some (BlobLayer.mkObject 77
                 (BlobLayer.recoveredContent
                    (BlobLayer.mkRecovered (Sample.STAGING, 0) 0 [2])))
    /\ Recovery.getObject 1 r1 = Returned (Some a) r2
    /\ JournalLayer.objectStore (Recovery.super r2) !! a = Some o
    /\ Object.getXattr o = 77
    /\ Object.id o = 1.
Proof.
  apply (replayed_object_can_be_fetched SampleJournal.updateObject
           (BlobLayer.mkRecovered (Sample.STAGING, 0) 0 [2]) SampleRecovery.state).
  - right. reflexivity.
  - reflexivity.
  - reflexivity.
  - reflexivity.
  - reflexivity.
Defined.

(** X17.  Replay of an entry whose target is missing: [UpdateXattr] and
    [DeleteObject] of an object that is not in the blob layer, and
    [UpdateTemporaryXattr] and [DeleteTemporary] of a temporary that is not
    recovered, change nothing; [UpdateTemporary] of a temporary that is not
    recovered, and [CreateTemporary] of one that already is, only take the
    staging temporary out of [recoveredStaging] and drop it. *)
Theorem replay_with_missing_target :
  forall (entry : JournalEntry.t) (r : Recovery.t),
    (JournalEntry.type entry = JournalEntry.UPDATE_XATTR
     \/ JournalEntry.type entry = JournalEntry.DELETE_OBJECT ->
     BlobLayer.getObject (JournalEntry.id (JournalEntry.object entry))
       (Recovery.blobLayerRecovery r) = None ->
     Recovery.replayEntry entry r = r)
    /\ (JournalEntry.type entry = JournalEntry.UPDATE_TEMPORARY_XATTR
        \/ JournalEntry.type entry = JournalEntry.DELETE_TEMPORARY ->
        Recovery.recoveredTemporaries r !! JournalEntry.tid (JournalEntry.temporary entry)
        = None ->
        Recovery.replayEntry entry r = r)
    /\ (forall staging,
        Recovery.recoveredStaging r !! JournalEntry.stagingId entry = Some staging ->
        (JournalEntry.type entry = JournalEntry.UPDATE_TEMPORARY
         /\ Recovery.recoveredTemporaries r
              !! JournalEntry.tid (JournalEntry.temporary entry) = None)
        \/ (JournalEntry.type entry = JournalEntry.CREATE_TEMPORARY
            /\ Recovery.recoveredTemporaries r
                 !! JournalEntry.tid (JournalEntry.temporary entry) <> None) ->
        Recovery.replayEntry entry r
        = Recovery.setRecoveredStaging
            (delete (JournalEntry.stagingId entry) (Recovery.recoveredStaging r)) r).
Proof.
  intros entry r. split; [|split].
  - intros [Ht | Ht] Hmissing; unfold Recovery.replayEntry; rewrite Ht, Hmissing;
      reflexivity.
  - intros [Ht | Ht] Hmissing; unfold Recovery.replayEntry; rewrite Ht.
    + rewrite Hmissing. reflexivity.
    + unfold Recovery.setRecoveredTemporaries.
      rewrite delete_id by exact Hmissing. destruct r; reflexivity.
  - intros staging Hstaging [[Ht Hmissing] | [Ht Hpresent]];
      unfold Recovery.replayEntry; rewrite Ht, Hstaging; simpl.
    + rewrite Hmissing. reflexivity.
    + destruct (Recovery.recoveredTemporaries r
                  !! JournalEntry.tid (JournalEntry.temporary entry)); [reflexivity|].
      congruence.
Qed.
